(** * Blockstack name operations: wire codec, pricing and per-opcode checks

    A shallow embedding of the Python sources
    - blockstack/lib/config.py
    - blockstack/lib/scripts.py
    - blockstack/lib/operations/{preorder,transfer,namespacereveal,namespaceready}.py
    - blockstore/lib/operations/transfer.py
    followed by the properties established about them.

    Python 2 [str] values are byte strings and are modelled as [list ascii];
    Python [int]/[long] values are unbounded and are modelled as [Z];
    a function that may raise returns a [result]; a function that may
    return [None] returns an [option]. *)

From Stdlib Require Import ZArith List String Ascii Bool Lia.
From Stdlib Require Import Floats.SpecFloat.
Import ListNotations.
Open Scope Z_scope.

(* ===================================================================== *)
(** * Python primitives *)
(* ===================================================================== *)

Definition str := list ascii.

(** A string literal as a Python byte string. *)
Definition py (s : string) : str := list_ascii_of_string s.

Definition ord (c : ascii) : Z := Z.of_N (N_of_ascii c).
Definition chr (z : Z) : ascii := ascii_of_N (Z.to_N z).

Definition len {A : Type} (l : list A) : Z := Z.of_nat (List.length l).

(** Exceptions the modelled code can raise. *)
Inductive exn : Type :=
| Exception (msg : string)
| AssertionError (msg : string)
| ValueError (msg : string)
| TypeError (msg : string)
| IndexError.

Inductive result (A : Type) : Type :=
| Ok (a : A)
| Raise (e : exn).
Arguments Ok {A} a.
Arguments Raise {A} e.

Definition bind {A B : Type} (r : result A) (k : A -> result B) : result B :=
  match r with
  | Ok a => k a
  | Raise e => Raise e
  end.

Notation "x <- r ;; k" := (bind r (fun x => k))
  (at level 61, r at next level, right associativity).

(** [try: body except Exception: handler]: every exception of the model
    derives from [Exception]. *)
Definition try_except {A : Type} (body : result A) (handler : A) : A :=
  match body with
  | Ok a => a
  | Raise _ => handler
  end.

Fixpoint str_eqb (a b : str) : bool :=
  match a, b with
  | [], [] => true
  | x :: a', y :: b' => Ascii.eqb x y && str_eqb a' b'
  | _, _ => false
  end.

(** [s[a:b]] and [s[a:]] for non-negative bounds; a slice never raises. *)
Definition slice {A : Type} (l : list A) (a b : Z) : list A :=
  firstn (Z.to_nat (b - a)) (skipn (Z.to_nat a) l).

Definition slice_from {A : Type} (l : list A) (a : Z) : list A :=
  skipn (Z.to_nat a) l.

(** [l[i]]: negative indices count from the end, out of range raises. *)
Definition index {A : Type} (l : list A) (i : Z) : result A :=
  let j := if i <? 0 then i + len l else i in
  if j <? 0 then Raise IndexError
  else match nth_error l (Z.to_nat j) with
       | Some x => Ok x
       | None => Raise IndexError
       end.

(** [s.count(c)] for a one-character [c]. *)
Fixpoint count (c : ascii) (s : str) : Z :=
  match s with
  | [] => 0
  | x :: t => (if Ascii.eqb x c then 1 else 0) + count c t
  end.

(** [c in s] for a one-character [c]. *)
Definition contains (c : ascii) (s : str) : bool :=
  existsb (fun x => Ascii.eqb x c) s.

(** [s.startswith(p)]. *)
Fixpoint startswith (p s : str) : bool :=
  match p, s with
  | [], _ => true
  | x :: p', y :: s' => Ascii.eqb x y && startswith p' s'
  | _ :: _, [] => false
  end.

(** [s.split(sep)] for a one-character separator. *)
Fixpoint split (sep : ascii) (s : str) : list str :=
  match s with
  | [] => [[]]
  | c :: t =>
      if Ascii.eqb c sep then [] :: split sep t
      else match split sep t with
           | h :: r => (c :: h) :: r
           | [] => [[c]]
           end
  end.

Definition lower_char (c : ascii) : ascii :=
  let n := ord c in
  if (65 <=? n) && (n <=? 90) then chr (n + 32) else c.

(** [s.lower()]. *)
Definition lower (s : str) : str := map lower_char s.

Definition sum (l : list Z) : Z := fold_right Z.add 0 l.

(** ** Hexadecimal text *)

Definition hexchars_lower : str := py "0123456789abcdef".
Definition hexchars_upper : str := py "0123456789ABCDEF".

Definition hex_lower (d : Z) : ascii := nth (Z.to_nat d) hexchars_lower "0"%char.
Definition hex_upper (d : Z) : ascii := nth (Z.to_nat d) hexchars_upper "0"%char.

(** Value of a hexadecimal digit, either case. *)
Definition hexval (c : ascii) : option Z :=
  let n := ord c in
  if (48 <=? n) && (n <=? 57) then Some (n - 48)
  else if (97 <=? n) && (n <=? 102) then Some (n - 87)
  else if (65 <=? n) && (n <=? 70) then Some (n - 55)
  else None.

(** [binascii.hexlify]: two lowercase digits per byte. *)
Fixpoint hexlify (s : str) : str :=
  match s with
  | [] => []
  | c :: t => hex_lower (ord c / 16) :: hex_lower (ord c mod 16) :: hexlify t
  end.

(** [binascii.unhexlify]: raises [TypeError] on an odd length or on a
    character that is not a hexadecimal digit. *)
Fixpoint unhexlify (s : str) : result str :=
  match s with
  | [] => Ok []
  | [_] => Raise (TypeError "Odd-length string")
  | a :: b :: t =>
      match hexval a, hexval b with
      | Some h, Some l => r <- unhexlify t ;; Ok (chr (16 * h + l) :: r)
      | _, _ => Raise (TypeError "Non-hexadecimal digit found")
      end
  end.

(** [int(s, 16)] on a string of hexadecimal digits (the code applies it to
    the output of [hexlify] only). *)
Fixpoint int16_acc (acc : Z) (s : str) : result Z :=
  match s with
  | [] => Ok acc
  | c :: t =>
      match hexval c with
      | Some d => int16_acc (16 * acc + d) t
      | None => Raise (ValueError "invalid literal for int() with base 16")
      end
  end.

Definition int16 (s : str) : result Z :=
  match s with
  | [] => Raise (ValueError "invalid literal for int() with base 16")
  | _ => int16_acc 0 s
  end.

(** The [w] low hexadecimal digits of [n], most significant first. *)
Fixpoint nibbles (w : nat) (n : Z) : list Z :=
  match w with
  | O => []
  | S w' => nibbles w' (n / 16) ++ [n mod 16]
  end.

(** Number of hexadecimal digits of a non-negative integer. *)
Definition ndigits (n : Z) : nat :=
  if n <=? 0 then 1%nat else S (Z.to_nat (Z.log2 n / 4)).

(** ["%0.<prec>x" % n] and ["%X" % n] (precision 1): at least [prec]
    digits, a leading minus sign for a negative argument. *)
Definition format_hex (digit : Z -> ascii) (prec : nat) (n : Z) : str :=
  let a := Z.abs n in
  let body := map digit (nibbles (Nat.max prec (ndigits a)) a) in
  if n <? 0 then "-"%char :: body else body.

(* ===================================================================== *)
(** * Double-precision floats *)
(* ===================================================================== *)

(** Python [float] is IEEE-754 binary64 with round-to-nearest-even.  The
    model keeps the 53-bit significand exactly and leaves the exponent
    unbounded: it coincides with binary64 on the normal range
    [2^-1022, 2^1024), which contains every non-zero quantity the modelled
    code computes for a namespace that passed the sanity check.  Signed
    zeros are identified, as comparison and [int()] do not tell them
    apart. *)
Module Float.

(** [Fnum neg m e] is [(-1)^neg * m * 2^e] with [2^52 <= m < 2^53]. *)
Inductive float : Type :=
| Fzero
| Fnum (neg : bool) (m e : Z).

(** [n/d * 2^s] as a fraction of integers. *)
Definition scale2 (n d s : Z) : Z * Z :=
if 0 <=? s then (n * 2 ^ s, d) else (n, d * 2 ^ (- s)).

(** [floor (log2 (n/d))] for positive [n] and [d]. *)
Definition ilog2 (n d : Z) : Z :=
if d <=? n then Z.log2 (n / d) else - Z.log2_up ((d + n - 1) / n).

(** The double nearest to the positive rational [n/d * 2^s], ties to even. *)
Definition round_ratio (neg : bool) (n d s : Z) : float :=
let '(N, D) := scale2 n d s in
let e := ilog2 N D - 52 in
let '(N', D') := scale2 N D (- e) in
let q := N' / D' in
let r := N' mod D' in
let m := if 2 * r <? D' then q
         else if D' <? 2 * r then q + 1
         else if Z.even q then q else q + 1 in
if m =? 2 ^ 53 then Fnum neg (2 ^ 52) (e + 1) else Fnum neg m e.

(** [float(z)] for an integer [z]. *)
Definition of_Z (z : Z) : float :=
if z =? 0 then Fzero else round_ratio (z <? 0) (Z.abs z) 1 0.

(** The decimal literal [n/d], e.g. [0.4] is [of_ratio 4 10]. *)
Definition of_ratio (n d : Z) : float :=
if n =? 0 then Fzero else round_ratio false n d 0.

Definition mul (a b : float) : float :=
match a, b with
| Fnum s1 m1 e1, Fnum s2 m2 e2 => round_ratio (xorb s1 s2) (m1 * m2) 1 (e1 + e2)
| _, _ => Fzero
end.

(** [a / b]; Python raises [ZeroDivisionError] on a zero divisor. *)
Definition div (a b : float) : option float :=
match a, b with
| _, Fzero => None
| Fzero, Fnum _ _ _ => Some Fzero
| Fnum s1 m1 e1, Fnum s2 m2 e2 => Some (round_ratio (xorb s1 s2) m1 m2 (e1 - e2))
end.

(** [int(a)]: truncation toward zero. *)
Definition trunc (a : float) : Z :=
match a with
| Fzero => 0
| Fnum neg m e =>
    let v := if 0 <=? e then m * 2 ^ e else m / 2 ^ (- e) in
    if neg then - v else v
end.

(** [a < z] for an integer [z], compared exactly. *)
Definition ltb_Z (a : float) (z : Z) : bool :=
match a with
| Fzero => 0 <? z
| Fnum neg m e =>
    let sm := if neg then - m else m in
    if 0 <=? e then sm * 2 ^ e <? z else sm <? z * 2 ^ (- e)
end.

(** [z < a] for an integer [z], compared exactly. *)
Definition Z_ltb (z : Z) (a : float) : bool :=
match a with
| Fzero => z <? 0
| Fnum neg m e =>
    let sm := if neg then - m else m in
    if 0 <=? e then z <? sm * 2 ^ e else z * 2 ^ (- e) <? sm
end.

(** The integer a float denotes, when it denotes one. *)
Definition to_Z_exact (a : float) : option Z :=
match a with
| Fzero => Some 0
| Fnum neg m e =>
    if 0 <=? e then Some (trunc a)
    else if m mod 2 ^ (- e) =? 0 then Some (trunc a) else None
end.

(** The same value in the Standard Library's specification of binary64. *)
Definition to_spec (a : float) : spec_float :=
match a with
| Fzero => S754_zero false
| Fnum neg m e => S754_finite neg (Z.to_pos m) e
end.

End Float.

(** A Python number: the namespace prices mix [int] and [float]. *)
Inductive number : Type :=
| PyInt (z : Z)
| PyFloat (f : Float.float).

(** [z < x] for an integer [z] and a number [x]. *)
Definition int_lt_number (z : Z) (x : number) : bool :=
  match x with
  | PyInt y => z <? y
  | PyFloat f => Float.Z_ltb z f
  end.

(** The integer a number denotes, when it denotes one. *)
Definition number_to_Z (x : number) : option Z :=
  match x with
  | PyInt y => Some y
  | PyFloat f => Float.to_Z_exact f
  end.

(* ===================================================================== *)
(** * blockstack/lib/config.py *)
(* ===================================================================== *)

Definition BLOCKSTACK_VERSION : Z := 1.
Definition MAX_NAMES_PER_SENDER : Z := 25.

Definition MAGIC_BYTES_TESTSET : str := py "eg".
Definition MAGIC_BYTES_MAINSET : str := py "id".

Definition NAME_PREORDER : ascii := "?"%char.
Definition NAME_REGISTRATION : ascii := ":"%char.
Definition NAME_UPDATE : ascii := "+"%char.
Definition NAME_TRANSFER : ascii := ">"%char.
Definition NAME_RENEWAL : ascii := NAME_REGISTRATION.
Definition NAME_REVOKE : ascii := "~"%char.
Definition NAME_IMPORT : ascii := ";"%char.
Definition NAMESPACE_PREORDER : ascii := "*"%char.
Definition NAMESPACE_REVEAL : ascii := "&"%char.
Definition NAMESPACE_READY : ascii := "!"%char.
Definition ANNOUNCE : ascii := "#"%char.

Definition NAME_SCHEME : str := MAGIC_BYTES_MAINSET ++ [NAME_REGISTRATION].

Definition TRANSFER_KEEP_DATA : ascii := ">"%char.
Definition TRANSFER_REMOVE_DATA : ascii := "~"%char.

(** The dictionary [NAME_OPCODES] (its second definition, which replaces
    the list of the same name). *)
Definition NAME_OPCODES : list (str * ascii) :=
  [ (py "NAME_PREORDER", NAME_PREORDER);
    (py "NAME_REGISTRATION", NAME_REGISTRATION);
    (py "NAME_UPDATE", NAME_UPDATE);
    (py "NAME_TRANSFER", NAME_TRANSFER);
    (py "NAME_RENEWAL", NAME_REGISTRATION);
    (py "NAME_IMPORT", NAME_IMPORT);
    (py "NAME_REVOKE", NAME_REVOKE);
    (py "NAMESPACE_PREORDER", NAMESPACE_PREORDER);
    (py "NAMESPACE_REVEAL", NAMESPACE_REVEAL);
    (py "NAMESPACE_READY", NAMESPACE_READY);
    (py "ANNOUNCE", ANNOUNCE) ].

Definition NAMESPACE_LIFE_INFINITE : Z := 0xffffffff.

Module LENGTHS.
Definition magic_bytes : Z := 2.
Definition opcode : Z := 1.
Definition preorder_name_hash : Z := 20.
Definition consensus_hash : Z := 16.
Definition namelen : Z := 1.
Definition name_min : Z := 1.
Definition name_max : Z := 34.
Definition name_hash : Z := 16.
Definition update_hash : Z := 20.
Definition data_hash : Z := 20.
Definition blockchain_id_name : Z := 37.
Definition blockchain_id_namespace_life : Z := 4.
Definition blockchain_id_namespace_coeff : Z := 1.
Definition blockchain_id_namespace_base : Z := 1.
Definition blockchain_id_namespace_buckets : Z := 8.
Definition blockchain_id_namespace_discounts : Z := 1.
Definition blockchain_id_namespace_version : Z := 2.
Definition blockchain_id_namespace_id : Z := 19.
Definition announce : Z := 20.
Definition max_op_length : Z := 40.
End LENGTHS.

Module MIN_OP_LENGTHS.
Definition preorder : Z := LENGTHS.preorder_name_hash + LENGTHS.consensus_hash.
Definition registration : Z := LENGTHS.name_min.
Definition update : Z := LENGTHS.name_hash + LENGTHS.update_hash.
Definition transfer : Z := LENGTHS.name_hash + LENGTHS.consensus_hash.
Definition revoke : Z := LENGTHS.name_min.
Definition name_import : Z := LENGTHS.name_min.
Definition namespace_preorder : Z :=
  LENGTHS.preorder_name_hash + LENGTHS.consensus_hash.
Definition namespace_reveal : Z :=
  LENGTHS.blockchain_id_namespace_life + LENGTHS.blockchain_id_namespace_coeff
  + LENGTHS.blockchain_id_namespace_base + LENGTHS.blockchain_id_namespace_buckets
  + LENGTHS.blockchain_id_namespace_discounts
  + LENGTHS.blockchain_id_namespace_version + LENGTHS.name_min.
Definition namespace_ready : Z := 1 + LENGTHS.name_min.
Definition announce : Z := LENGTHS.announce.
End MIN_OP_LENGTHS.

Definition SATOSHIS_PER_BTC : Z := 10 ^ 8.
Definition NAME_COST_UNIT : Z := 100.

Definition NAMESPACE_1_CHAR_COST : number := PyInt (400 * SATOSHIS_PER_BTC).
Definition NAMESPACE_23_CHAR_COST : number := PyInt (40 * SATOSHIS_PER_BTC).
Definition NAMESPACE_4567_CHAR_COST : number := PyInt (4 * SATOSHIS_PER_BTC).
(** [0.4 * SATOSHIS_PER_BTC] is a float product. *)
Definition NAMESPACE_8UP_CHAR_COST : number :=
  PyFloat (Float.mul (Float.of_ratio 4 10) (Float.of_Z SATOSHIS_PER_BTC)).

Definition TESTSET_NAMESPACE_1_CHAR_COST : number := PyInt 10000.
Definition TESTSET_NAMESPACE_23_CHAR_COST : number := PyInt 10000.
Definition TESTSET_NAMESPACE_4567_CHAR_COST : number := PyInt 10000.
Definition TESTSET_NAMESPACE_8UP_CHAR_COST : number := PyInt 10000.

(* ===================================================================== *)
(** * Collaborators outside the modelled sources *)
(* ===================================================================== *)

(** Modelled from the spec: [is_b40] lives in blockstack/lib/b40.py, which
    is not among the sources.  "Name encoding uses base-40 (0-9, a-z, [-],
    [_], [.], [+]); names with any other byte are invalid." *)
Definition B40_CHARS : str := py "0123456789abcdefghijklmnopqrstuvwxyz-_.+".

Definition is_b40 (s : str) : bool :=
  forallb (fun c => contains c B40_CHARS) s.

(** Functions the code calls but whose definitions are elsewhere:
    [hash_name] (blockstack/lib/hashing.py, a RIPEMD160 of SHA256
    commitment that raises on malformed arguments), and utilitybelt's
    [is_valid_int] (with the [int(part)] it guards) and [is_hex]. *)
Class Externals : Type := {
  hash_name : str -> str -> str -> result str;
  int_of_str : str -> option Z;
  is_hex : str -> bool
}.

Definition is_valid_int `{Externals} (part : str) : bool :=
  match int_of_str part with Some _ => true | None => false end.

(** The records of the name database (blockstack/lib/nameset), as far as
    the modelled operations read and write them. *)
Module nameset.

(** A namespace: the fields a NAMESPACE_REVEAL payload carries. *)
Record namespace : Type := {
  opcode : str;
  lifetime : Z;
  coeff : Z;
  base : Z;
  buckets : list Z;
  version : Z;
  nonalpha_discount : Z;
  no_vowel_discount : Z;
  namespace_id : str;
  preorder_hash : str
}.

(** A pending namespace preorder; ['op_fee'] is present only when the
    preorder transaction paid the burn address. *)
Record namespace_preorder : Type := {
  np_sender : str;
  np_block_number : Z;
  np_op_fee : option Z
}.

(** A name record. *)
Record name_rec : Type := {
  name : str;
  sender : str;
  address : str;
  sender_pubkey : option str;
  value_hash : option str;
  consensus_hash : str
}.

(** An operation accepted earlier in the same block, as far as a check
    could read it: its ['op'] entry (the opcode character), its sender,
    and its ['preorder_hash'] and ['namespace_id'] entries when it has
    them. *)
Record checked_op : Type := {
  co_op : str;
  co_sender : str;
  co_preorder_hash : option str;
  co_namespace_id : option str
}.

(** The queries of the state engine ([BlockstackDB]) the checks use.
    The database itself is not among the sources; a state engine is
    whatever answers these queries. *)
Record StateEngine : Type := {
  lastblock : Z;
  is_namespace_revealed : str -> bool;
  is_namespace_ready : str -> bool;
  get_namespace_preorder : str -> option namespace_preorder;
  is_new_preorder : str -> bool;
  is_consensus_hash_valid : Z -> str -> bool;
  get_block_from_consensus : str -> option Z;
  get_name_from_name_hash128 : str -> option str;
  get_name : str -> option name_rec;
  is_name_revoked : str -> bool;
  is_name_expired : str -> Z -> bool;
  is_name_registered : str -> bool;
  is_name_owner : str -> str -> bool;
  get_names_owned_by_sender : str -> list str
}.

(** Modelled from the spec: the collision checks of the database and
    the decorators [state_preorder] and [state_create] that call them
    are defined in blockstack/lib/nameset, which is not among the
    sources.  "Checks examine immutable [state] plus the list of
    operations already accepted earlier in the same block (enabling
    collision detection without re-reading state)"; "Two [NAME_PREORDER]
    operations at block 140 with identical [preorder_hash] and different
    vtxindex: first accepted, second rejected".  A preorder collides
    with a NAME_PREORDER of the same hash accepted earlier in the block:
    this is the loop over [checked_nameops[NAME_PREORDER]] that
    preorder.py keeps as a comment where the decorator replaced it. *)
Definition check_preorder_collision (preorder_hash : str) (block_id : Z)
    (checked_ops : list checked_op) : bool :=
  existsb (fun prev =>
             str_eqb (co_op prev) [NAME_PREORDER]
             && match co_preorder_hash prev with
                | Some h => str_eqb h preorder_hash
                | None => false
                end)
          checked_ops.

(** Modelled from the spec: "Commit(op) applied twice in the same block
    is rejected the second time (collision guard)".  A reveal collides
    with a NAMESPACE_REVEAL of the same namespace accepted earlier in
    the block. *)
Definition check_namespace_collision (namespace_id : str) (block_id : Z)
    (checked_ops : list checked_op) : bool :=
  existsb (fun prev =>
             str_eqb (co_op prev) [NAMESPACE_REVEAL]
             && match co_namespace_id prev with
                | Some id => str_eqb id namespace_id
                | None => false
                end)
          checked_ops.

(** Modelled from the spec: the decorator of the check of a preorder,
    under which of two preorders with identical [preorder_hash] in a
    block the "first [is] accepted, second rejected".  The decorated
    function runs the check and, when it accepts, rejects an operation
    whose preorder hash ([history_id]) collides. *)
Definition state_preorder {Op : Type}
    (collision_checker : str -> Z -> list checked_op -> bool)
    (history_id : Op -> str)
    (check : StateEngine -> Op -> Z -> list checked_op -> bool)
    (state_engine : StateEngine) (nameop : Op) (block_id : Z)
    (checked_ops : list checked_op) : bool :=
  if check state_engine nameop block_id checked_ops
  then negb (collision_checker (history_id nameop) block_id checked_ops)
  else false.

(** Modelled from the spec: the decorator of the check of an operation
    that creates a record, keyed by [history_id] (the entry named by the
    decorator's first argument); it is the "collision guard" by which an
    operation "applied twice in the same block is rejected the second
    time".  The decorated function runs the check and, when it accepts,
    rejects an operation that collides. *)
Definition state_create {Op Accepted : Type}
    (history_id : Op -> str)
    (collision_checker : str -> Z -> list checked_op -> bool)
    (check : StateEngine -> Op -> Z -> list checked_op -> option Accepted)
    (state_engine : StateEngine) (nameop : Op) (block_id : Z)
    (checked_ops : list checked_op) : option Accepted :=
  match check state_engine nameop block_id checked_ops with
  | None => None
  | Some accepted =>
      if collision_checker (history_id nameop) block_id checked_ops then None
      else Some accepted
  end.

End nameset.

(* ===================================================================== *)
(** * blockstack/lib/scripts.py *)
(* ===================================================================== *)

Definition add_magic_bytes (hex_script : str) (testset : bool) : str :=
  let magic_bytes := if negb testset then MAGIC_BYTES_MAINSET else MAGIC_BYTES_TESTSET in
  hexlify magic_bytes ++ hex_script.

Definition is_name_valid (fqn : str) : bool :=
  if negb (count "." fqn =? 1) then false
  else
    match split "." fqn with
    | [name; namespace_id] =>
        if (len name =? 0) || (len namespace_id =? 0) then false
        else if negb (is_b40 name) || contains "+" name || contains "." name then false
        else if negb (is_b40 namespace_id) || contains "+" namespace_id
                || contains "." namespace_id then false
        else
          let name_hex := hexlify fqn in
          if LENGTHS.blockchain_id_name * 2 <? len name_hex then false
          else true
    | _ => false (* unpacking cannot fail: one separator gives two parts *)
    end.

Definition get_namespace_from_name (name : str) : str :=
  if negb (contains "." name) then []
  else last (split "." name) [].

Definition get_name_from_fq_name (name : str) : option str :=
  if negb (contains "." name) then None
  else Some (hd [] (split "." name)).

Definition vowels : list ascii :=
  ["a"; "e"; "i"; "o"; "u"; "y"]%char.

Definition nonalpha : list ascii :=
  ["0"; "1"; "2"; "3"; "4"; "5"; "6"; "7"; "8"; "9"; "-"; "_"]%char.

(** [price_name]: the discount starts as the float [1.0] and the price is
    computed in floating point; [base ** bucket_exponent] is an integer
    power, the exponent of a namespace that passed the sanity check being
    non-negative. *)
Definition price_name (name : str) (namespace : nameset.namespace) : result Z :=
  let base := nameset.base namespace in
  let coeff := nameset.coeff namespace in
  let buckets := nameset.buckets namespace in
  bucket_exponent <-
    (if len name <? len buckets then index buckets (len name - 1)
     else index buckets (-1)) ;;
  let discount := 1 in
  let discount :=
    if sum (map (fun v => count v (lower name)) vowels) =? 0
    then Z.max discount (nameset.no_vowel_discount namespace)
    else discount in
  let discount :=
    if 0 <? sum (map (fun v => count v (lower name)) nonalpha)
    then Z.max discount (nameset.nonalpha_discount namespace)
    else discount in
  match Float.div (Float.of_Z (coeff * base ^ bucket_exponent)) (Float.of_Z discount) with
  | None => Raise (Exception "ZeroDivisionError")
  | Some quotient =>
      let price := Float.mul quotient (Float.of_Z NAME_COST_UNIT) in
      if Float.ltb_Z price NAME_COST_UNIT then Ok NAME_COST_UNIT
      else Ok (Float.trunc price)
  end.

(** [price_namespace]: [testset] stands for the ['testset'] entry of the
    configuration file the function reads. *)
Definition price_namespace (testset : bool) (namespace_id : str) : number :=
  if len namespace_id =? 1 then
    if testset then TESTSET_NAMESPACE_1_CHAR_COST else NAMESPACE_1_CHAR_COST
  else if existsb (Z.eqb (len namespace_id)) [2; 3] then
    if testset then TESTSET_NAMESPACE_23_CHAR_COST else NAMESPACE_23_CHAR_COST
  else if existsb (Z.eqb (len namespace_id)) [4; 5; 6; 7] then
    if testset then TESTSET_NAMESPACE_4567_CHAR_COST else NAMESPACE_4567_CHAR_COST
  else
    if testset then TESTSET_NAMESPACE_8UP_CHAR_COST else NAMESPACE_8UP_CHAR_COST.

(** [NAME_OPCODES[part]], when [part] is one of the keys. *)
Fixpoint lookup_opcode (part : str) (table : list (str * ascii)) : option ascii :=
  match table with
  | [] => None
  | (k, v) :: rest => if str_eqb part k then Some v else lookup_opcode part rest
  end.

Section Scripts.
Context `{Externals}.

(** One iteration of the loop of [blockstack_script_to_hex]. *)
Definition script_part_to_hex (part : str) : result str :=
  match lookup_opcode part NAME_OPCODES with
  | Some op => Ok (format_hex hex_lower 2 (ord op))
  | None =>
      if startswith (py "0x") part then Ok (slice_from part 2)
      else
        match int_of_str part with
        | Some n =>
            let hex_part := format_hex hex_lower 2 n in
            Ok (if negb (len hex_part mod 2 =? 0) then "0"%char :: hex_part
                else hex_part)
        | None =>
            if is_hex part && (len part mod 2 =? 0) then Ok part
            else Raise (ValueError "Invalid script, contains invalid characters")
        end
  end.

Fixpoint script_parts_to_hex (parts : list str) (hex_script : str) : result str :=
  match parts with
  | [] => Ok hex_script
  | part :: rest =>
      h <- script_part_to_hex part ;;
      script_parts_to_hex rest (hex_script ++ h)
  end.

Definition blockstack_script_to_hex (script : str) : result str :=
  let parts := split " " script in
  hex_script <- script_parts_to_hex parts [] ;;
  if negb (len hex_script mod 2 =? 0)
  then Raise (ValueError "Invalid script: must have an even number of chars")
  else Ok hex_script.

End Scripts.

Fixpoint mapM {A B : Type} (f : A -> result B) (l : list A) : result (list B) :=
  match l with
  | [] => Ok []
  | x :: t => y <- f x ;; ys <- mapM f t ;; Ok (y :: ys)
  end.

(* ===================================================================== *)
(** * Transactions, as the operations read them *)
(* ===================================================================== *)

Module tx.

(** A transaction output: the ['asm'], ['hex'] and ['addresses'] entries of
    its ['scriptPubKey'].  ['hex'] may be absent; ['asm'] is taken to be
    there, as the code slices it without a test. *)
Record output : Type := {
  asm : str;
  hex : option str;
  addresses : list str
}.

End tx.

(** [hash256_trunc128] (blockstack/lib/hashing.py, not among the sources):
    the first 128 bits of a SHA256 digest, in hexadecimal. *)
Class Hashing : Type := {
  hash256_trunc128 : str -> str
}.

(* ===================================================================== *)
(** * blockstack/lib/operations/namespacereveal.py *)
(* ===================================================================== *)

Module namespacereveal.

Definition serialize_int (int_field numbytes : Z) : result str :=
  if (2 ^ (numbytes * 8) <=? int_field) || (int_field <? - 2 ^ (numbytes * 8))
  then Raise (Exception "Integer overflow")
  else
    let hex_str := format_hex hex_lower (Z.to_nat (numbytes * 2)) int_field in
    Ok (if negb (len hex_str mod 2 =? 0) then "0"%char :: hex_str else hex_str).

Definition serialize_buckets (bucket_exponents : list Z) : str :=
  flat_map (fun b => format_hex hex_upper 1 b) bucket_exponents.

Definition serialize_discounts (nonalpha_discount no_vowel_discount : Z) : str :=
  format_hex hex_upper 1 nonalpha_discount ++ format_hex hex_upper 1 no_vowel_discount.

(** Returns [True] or raises.  The assignment to [lifetime] rebinds the
    local name only; the caller's value is not changed. *)
Definition namespacereveal_sanity_check
    (namespace_id : str) (version lifetime coeff base : Z)
    (bucket_exponents : list Z) (nonalpha_discount no_vowel_discount : Z)
    : result bool :=
  if negb (is_b40 namespace_id) || contains "+" namespace_id
     || (0 <? count "." namespace_id)
  then Raise (Exception "Namespace ID has non-base-38 characters")
  else if LENGTHS.blockchain_id_namespace_id <? len namespace_id
  then Raise (Exception "Invalid namespace ID length")
  else
    let lifetime :=
      if (lifetime <? 0) || (2 ^ 32 - 1 <? lifetime)
      then NAMESPACE_LIFE_INFINITE else lifetime in
    if (coeff <? 0) || (255 <? coeff)
    then Raise (Exception "Invalid cost multiplier")
    else if (base <? 0) || (255 <? base)
    then Raise (Exception "Invalid base price")
    else if negb (len bucket_exponents =? 16)
    then Raise (Exception "Exactly 16 buckets required")
    else if existsb (fun b => (b <? 0) || (15 <? b)) bucket_exponents
    then Raise (Exception "Invalid bucket exponent")
    else if (nonalpha_discount <=? 0) || (15 <? nonalpha_discount)
    then Raise (Exception "Invalid non-alpha discount")
    else if (no_vowel_discount <=? 0) || (15 <? no_vowel_discount)
    then Raise (Exception "Invalid no-vowel discount")
    else Ok true.

Section WithExternals.
Context `{Externals}.

(** [reveal_addr] is accepted and not used. *)
Definition build (namespace_id : str) (version : Z) (reveal_addr : str)
    (lifetime coeff base : Z) (bucket_exponents : list Z)
    (nonalpha_discount no_vowel_discount : Z) (testset : bool) : result str :=
  rc <- namespacereveal_sanity_check namespace_id version lifetime coeff base
          bucket_exponents nonalpha_discount no_vowel_discount ;;
  if negb rc then Raise (Exception "Invalid namespace parameters")
  else
    life_hex <- serialize_int lifetime 4 ;;
    coeff_hex <- serialize_int coeff 1 ;;
    base_hex <- serialize_int base 1 ;;
    let bucket_hex := serialize_buckets bucket_exponents in
    let discount_hex := serialize_discounts nonalpha_discount no_vowel_discount in
    version_hex <- serialize_int version 2 ;;
    let namespace_id_hex := hexlify namespace_id in
    let readable_script :=
      py "NAMESPACE_REVEAL 0x" ++ life_hex ++ py " 0x" ++ coeff_hex
      ++ py " 0x" ++ base_hex ++ py " 0x" ++ bucket_hex
      ++ py " 0x" ++ discount_hex ++ py " 0x" ++ version_hex
      ++ py " 0x" ++ namespace_id_hex in
    hex_script <- blockstack_script_to_hex readable_script ;;
    let packaged_script := add_magic_bytes hex_script testset in
    Ok packaged_script.

(** The payload excludes the three leading bytes (magic and opcode).
    [Ok None] is the Python [None]. *)
Definition parse (bin_payload sender_script recipient_address : str)
    : result (option nameset.namespace) :=
  if len bin_payload <? MIN_OP_LENGTHS.namespace_reveal
  then Raise (AssertionError "Payload is too short to be a namespace reveal")
  else
    let off := 0 in
    life <- int16 (hexlify (slice bin_payload off
                              (off + LENGTHS.blockchain_id_namespace_life))) ;;
    let off := off + LENGTHS.blockchain_id_namespace_life in
    coeff <- int16 (hexlify (slice bin_payload off
                               (off + LENGTHS.blockchain_id_namespace_coeff))) ;;
    let off := off + LENGTHS.blockchain_id_namespace_coeff in
    base <- int16 (hexlify (slice bin_payload off
                              (off + LENGTHS.blockchain_id_namespace_base))) ;;
    let off := off + LENGTHS.blockchain_id_namespace_base in
    let bucket_hex :=
      hexlify (slice bin_payload off (off + LENGTHS.blockchain_id_namespace_buckets)) in
    let off := off + LENGTHS.blockchain_id_namespace_buckets in
    let discount_hex :=
      hexlify (slice bin_payload off (off + LENGTHS.blockchain_id_namespace_discounts)) in
    let off := off + LENGTHS.blockchain_id_namespace_discounts in
    version <- int16 (hexlify (slice bin_payload off
                                 (off + LENGTHS.blockchain_id_namespace_version))) ;;
    let off := off + LENGTHS.blockchain_id_namespace_version in
    let namespace_id := slice_from bin_payload off in
    match hash_name namespace_id sender_script recipient_address with
    | Raise _ => Ok None
    | Ok namespace_id_hash =>
        buckets <- mapM (fun x => int16 [x]) bucket_hex ;;
        nonalpha_discount <- (x <- index discount_hex 0 ;; int16 [x]) ;;
        no_vowel_discount <- (x <- index discount_hex 1 ;; int16 [x]) ;;
        match namespacereveal_sanity_check namespace_id version life coeff base
                buckets nonalpha_discount no_vowel_discount with
        | Raise _ => Ok None
        | Ok false => Ok None
        | Ok true =>
            Ok (Some {| nameset.opcode := py "NAMESPACE_REVEAL";
                        nameset.lifetime := life;
                        nameset.coeff := coeff;
                        nameset.base := base;
                        nameset.buckets := buckets;
                        nameset.version := version;
                        nameset.nonalpha_discount := nonalpha_discount;
                        nameset.no_vowel_discount := no_vowel_discount;
                        nameset.namespace_id := namespace_id;
                        nameset.preorder_hash := namespace_id_hash |})
        end
    end.

End WithExternals.

(** The operation [tx_extract] hands to [check]: the parsed payload and
    the transaction data.  ['sender_pubkey'] is set only for a p2pkh
    sender; the keys of the second group are written by [check]. *)
Record nameop : Type := {
  namespace_id : str;
  preorder_hash : str;
  version : Z;
  sender : str;
  address : str;
  sender_pubkey : option str;
  recipient : option str;
  recipient_address : option str;
  reveal_block : Z;
  block_number : option Z;
  ready_block : option Z;
  op_fee : option Z
}.

(** The function that [state_create] decorates.  It returns [True]
    after rewriting [nameop] in place, and [False] before touching it:
    the model returns the rewritten operation, [None] standing for
    [False].  [testset] is the configuration entry [price_namespace]
    reads.  The bookkeeping of [state_create_put_preorder] and
    [state_create_put_prior_history] belongs to the database layer. *)
Definition check_body (testset : bool) (state_engine : nameset.StateEngine)
    (nameop : nameop) (block_id : Z) (checked_ops : list nameset.checked_op)
    : option namespacereveal.nameop :=
  let namespace_id := namespace_id nameop in
  let namespace_id_hash := preorder_hash nameop in
  let sender := sender nameop in
  match sender_pubkey nameop with
  | None => None
  | Some _ =>
  match recipient nameop with
  | None => None
  | Some _ =>
  match recipient_address nameop with
  | None => None
  | Some _ =>
    if negb (is_b40 namespace_id) || contains "+" namespace_id
       || (0 <? count "." namespace_id)
    then None
    else if nameset.is_namespace_revealed state_engine namespace_id then None
    else if nameset.is_namespace_ready state_engine namespace_id then None
    else
      match nameset.get_namespace_preorder state_engine namespace_id_hash with
      | None => None
      | Some namespace_preorder =>
          let continue_ :=
            if negb (version nameop =? BLOCKSTACK_VERSION) then None
            else
              match nameset.np_op_fee namespace_preorder with
              | None => None
              | Some namespace_fee =>
                  if int_lt_number namespace_fee (price_namespace testset namespace_id)
                  then None
                  else
                    Some {| namespace_id := namespace_id;
                            preorder_hash := namespace_id_hash;
                            version := version nameop;
                            sender := sender;
                            address := address nameop;
                            sender_pubkey := sender_pubkey nameop;
                            recipient := recipient nameop;
                            recipient_address := recipient_address nameop;
                            block_number := Some (nameset.np_block_number namespace_preorder);
                            reveal_block := nameset.np_block_number namespace_preorder;
                            ready_block := Some 0;
                            op_fee := nameset.np_op_fee namespace_preorder |}
              end in
          if negb (str_eqb (nameset.np_sender namespace_preorder) sender)
          then continue_ (* the branch logs the mismatch and falls through *)
          else continue_
      end
  end end end.

(** [check], as the module exports it:
    [@state_create("namespace_id", "namespaces", "check_namespace_collision")]
    applied to the function above. *)
Definition check (testset : bool) (state_engine : nameset.StateEngine)
    (nameop : nameop) (block_id : Z) (checked_ops : list nameset.checked_op)
    : option namespacereveal.nameop :=
  nameset.state_create namespace_id nameset.check_namespace_collision
    (check_body testset) state_engine nameop block_id checked_ops.


(** The revealer's script: the second of exactly three outputs. *)
Definition get_reveal_recipient_from_outputs (outputs : list tx.output) : result str :=
  if negb (len outputs =? 3)
  then Raise (Exception "Outputs are not from a namespace reveal")
  else
    reveal_output <- index outputs 1 ;;
    let output_asm := tx.asm reveal_output in
    let output_hex := tx.hex reveal_output in
    match output_hex with
    | Some ret =>
        if negb (str_eqb (slice output_asm 0 9) (py "OP_RETURN")) then Ok ret
        else Raise (Exception "No namespace reveal script found")
    | None => Raise (Exception "No namespace reveal script found")
    end.

(** Namespaces are not subsidized. *)
Definition get_fees (inputs outputs : list tx.output) : option Z * option Z :=
  (None, None).

End namespacereveal.

(* ===================================================================== *)
(** * blockstack/lib/operations/preorder.py *)
(* ===================================================================== *)

Module preorder.

(** The dictionary [parse] returns. *)
Record payload : Type := {
  opcode : str;
  preorder_hash : str;
  consensus_hash : str
}.

(** The operation [tx_extract] hands to [check]; ['op_fee'] is present
    when the transaction pays the burn address. *)
Record nameop : Type := {
  fields : payload;
  sender : str;
  address : str;
  block_number : Z;
  op_fee : option Z
}.

Section WithExternals.
Context `{Externals}.

(** [name_hash=None] is the default; the hash is then computed from
    the name, which must be given. *)
Definition build (name : option str) (script_pubkey register_addr : str)
    (consensus_hash : str) (name_hash : option str) (testset : bool)
    : result str :=
  name_hash <-
    match name_hash with
    | Some h => Ok h
    | None =>
        match name with
        | None => Raise (Exception "Name has non-base-38 characters")
        | Some name =>
            if negb (is_b40 name) || contains "+" name || (1 <? count "." name)
            then Raise (Exception "Name has non-base-38 characters")
            else if LENGTHS.blockchain_id_name <? len NAME_SCHEME + len name
            then Raise (Exception "Name is too long")
            else hash_name name script_pubkey register_addr
        end
    end ;;
  let script := py "NAME_PREORDER 0x" ++ name_hash ++ py " 0x" ++ consensus_hash in
  hex_script <- blockstack_script_to_hex script ;;
  let packaged_script := add_magic_bytes hex_script testset in
  Ok packaged_script.

End WithExternals.

(** Modelled from the spec: [get_num_names_owned] lives in
    blockstack/lib/operations/register.py, which is not among the
    sources.  The quota counts the names the sender script owns,
    "counting pending preorders as zero". *)
Definition get_num_names_owned (state_engine : nameset.StateEngine)
    (checked_ops : list nameset.checked_op) (sender : str) : Z :=
  len (nameset.get_names_owned_by_sender state_engine sender).

(** The function that [state_preorder] decorates. *)
Definition check_body (state_engine : nameset.StateEngine) (nameop : nameop)
    (block_id : Z) (checked_ops : list nameset.checked_op) : bool :=
  let preorder_name_hash := preorder_hash (fields nameop) in
  let consensus_hash := consensus_hash (fields nameop) in
  let sender := sender nameop in
  if negb (nameset.is_new_preorder state_engine preorder_name_hash) then false
  else if negb (nameset.is_consensus_hash_valid state_engine block_id consensus_hash)
  then false
  else
    let num_names := get_num_names_owned state_engine checked_ops sender in
    if MAX_NAMES_PER_SENDER <=? num_names then false
    else
      match op_fee nameop with
      | None => false
      | Some _ => true
      end.

(** [check], as the module exports it:
    [@state_preorder("check_preorder_collision")] applied to the
    function above; the key of a preorder is its ['preorder_hash']. *)
Definition check (state_engine : nameset.StateEngine) (nameop : nameop)
    (block_id : Z) (checked_ops : list nameset.checked_op) : bool :=
  nameset.state_preorder nameset.check_preorder_collision
    (fun nameop => preorder_hash (fields nameop))
    check_body state_engine nameop block_id checked_ops.

(** The payload excludes the three leading bytes (magic and opcode). *)
Definition parse (bin_payload : str) : option payload :=
  if negb (len bin_payload =? LENGTHS.preorder_name_hash + LENGTHS.consensus_hash)
  then None
  else
    let name_hash := hexlify (slice bin_payload 0 LENGTHS.preorder_name_hash) in
    let consensus_hash := hexlify (slice_from bin_payload LENGTHS.preorder_name_hash) in
    Some {| opcode := py "NAME_PREORDER";
            preorder_hash := name_hash;
            consensus_hash := consensus_hash |}.

End preorder.

(* ===================================================================== *)
(** * blockstack/lib/operations/transfer.py *)
(* ===================================================================== *)

Module transfer.

(** The fields this operation mutates, after those every name operation
    mutates ([NAMEREC_MUTATE_FIELDS], defined with the database). *)
Definition MUTATE_FIELDS : list string :=
  ["sender"; "address"; "sender_pubkey"; "value_hash"]%string.

Definition transfer_sanity_check (name : option str) (consensus_hash : str)
    : result bool :=
  match name with
  | Some n =>
      if negb (is_b40 n) || contains "+" n || (1 <? count "." n)
      then Raise (Exception "Name has non-base-38 characters")
      else if LENGTHS.blockchain_id_name <? len n
      then Raise (Exception "Name is too long")
      else Ok true
  | None => Ok true
  end.

(** The dictionary [parse] returns. *)
Record payload : Type := {
  opcode : str;
  name_hash128 : str;
  consensus_hash : str;
  recipient : str;
  keep_data : bool
}.

(** The payload excludes the three leading bytes (magic and opcode). *)
Definition parse (bin_payload recipient : str) : option payload :=
  if negb (len bin_payload =? 1 + LENGTHS.name_hash + LENGTHS.consensus_hash)
  then None
  else
    let disposition_char := slice bin_payload 0 1 in
    let name_hash128 := slice bin_payload 1 (1 + LENGTHS.name_hash) in
    let consensus_hash := slice_from bin_payload (1 + LENGTHS.name_hash) in
    if negb (existsb (str_eqb disposition_char)
               [[TRANSFER_REMOVE_DATA]; [TRANSFER_KEEP_DATA]])
    then None
    else
      let disposition := true in
      let disposition :=
        if str_eqb disposition_char [TRANSFER_REMOVE_DATA] then false
        else disposition in
      match transfer_sanity_check None consensus_hash with
      | Raise _ => None
      | Ok false => None
      | Ok true =>
          Some {| opcode := py "NAME_TRANSFER";
                  name_hash128 := hexlify name_hash128;
                  consensus_hash := hexlify consensus_hash;
                  recipient := recipient;
                  keep_data := disposition |}
      end.

(** The operation [tx_extract] hands to [check]: the parsed payload, the
    sender taken from the first input, and the recipient script and
    address taken from the first output that is not the OP_RETURN. *)
Record nameop : Type := {
  fields : payload;
  sender : str;
  address : str;
  recipient_address : str;
  sender_pubkey : option str
}.

(** The operation as [check] leaves it when it returns [True]: the keys
    ['recipient'], ['recipient_address'], ['keep_data'] and
    ['name_hash128'] are deleted, the others are set as below. *)
Record accepted : Type := {
  a_name : str;
  a_sender : str;
  a_address : str;
  a_sender_pubkey : option str;
  a_consensus_hash : str;
  a_transfer_send_block_id : Z;
  a_value_hash : option str;
  a_op : str
}.

(** [check] returns [True] after rewriting [nameop] in place, and
    [False] before touching it: the model returns the rewritten
    operation, [None] standing for [False].  The [state_transition]
    decorator belongs to the database layer. *)
Definition check (state_engine : nameset.StateEngine) (nameop : nameop)
    (block_id : Z) (checked_ops : list nameset.checked_op) : option accepted :=
  let name_hash := name_hash128 (fields nameop) in
  let name := nameset.get_name_from_name_hash128 state_engine name_hash in
  let consensus_hash := consensus_hash (fields nameop) in
  let sender := sender nameop in
  let recipient_address := recipient_address nameop in
  let recipient := recipient (fields nameop) in
  match name with
  | None => None
  | Some name =>
      let namespace_id := get_namespace_from_name name in
      match nameset.get_name state_engine name with
      | None => None
      | Some name_rec =>
          if negb (nameset.is_namespace_ready state_engine namespace_id) then None
          else if nameset.is_name_revoked state_engine name then None
          else if nameset.is_name_expired state_engine name
                    (nameset.lastblock state_engine) then None
          else if negb (nameset.is_consensus_hash_valid state_engine block_id
                          consensus_hash) then None
          else if str_eqb sender recipient then None
          else if negb (nameset.is_name_registered state_engine name) then None
          else if negb (nameset.is_name_owner state_engine name sender) then None
          else
            let names_owned :=
              nameset.get_names_owned_by_sender state_engine recipient in
            if existsb (str_eqb name) names_owned then None
            else if MAX_NAMES_PER_SENDER <=? len names_owned then None
            else
              match nameset.get_block_from_consensus state_engine consensus_hash with
              | None => None
              | Some transfer_send_block_id =>
                  Some {| a_name := name;
                          a_sender := recipient;
                          a_address := recipient_address;
                          a_sender_pubkey := None;
                          a_consensus_hash := nameset.consensus_hash name_rec;
                          a_transfer_send_block_id := transfer_send_block_id;
                          a_value_hash :=
                            if negb (keep_data (fields nameop)) then None
                            else nameset.value_hash name_rec;
                          a_op :=
                            if negb (keep_data (fields nameop))
                            then [NAME_TRANSFER; TRANSFER_REMOVE_DATA]
                            else [NAME_TRANSFER; TRANSFER_KEEP_DATA] |}
              end
      end
  end.

(** Modelled from the spec: the commit of a state transition lives in
    blockstack/lib/nameset, which is not among the sources.  "Commit:
    replace owner script and address; on [~] disposition, clear
    [value_hash]": the record takes from the accepted operation the
    fields named by [MUTATE_FIELDS] and keeps the others. *)
Definition commit (name_rec : nameset.name_rec) (op : accepted) : nameset.name_rec :=
  {| nameset.name := nameset.name name_rec;
     nameset.sender := a_sender op;
     nameset.address := a_address op;
     nameset.sender_pubkey := a_sender_pubkey op;
     nameset.value_hash := a_value_hash op;
     nameset.consensus_hash := nameset.consensus_hash name_rec |}.


(** The recipient's script: that of the first output that is not an
    OP_RETURN and has a non-empty ['hex']. *)
Fixpoint find_transfer_recipient (outputs : list tx.output) : option str :=
  match outputs with
  | [] => None
  | output :: rest =>
      let output_asm := tx.asm output in
      match tx.hex output with
      | Some (c :: h) =>
          if negb (str_eqb (slice output_asm 0 9) (py "OP_RETURN"))
          then Some (c :: h)
          else find_transfer_recipient rest
      | _ => find_transfer_recipient rest
      end
  end.

Definition get_transfer_recipient_from_outputs (outputs : list tx.output) : result str :=
  match find_transfer_recipient outputs with
  | None => Raise (Exception "No recipients found")
  | Some ret => Ok ret
  end.

Definition build `{Externals} `{Hashing} (name : str) (keepdata : bool)
    (consensus_hash : str) (testset : bool) : result str :=
  rc <- transfer_sanity_check (Some name) consensus_hash ;;
  if negb rc then Raise (Exception "Invalid transfer data")
  else
    let data_disposition :=
      if keepdata then TRANSFER_KEEP_DATA else TRANSFER_REMOVE_DATA in
    let name_hash := hash256_trunc128 name in
    let disposition_hex := hexlify [data_disposition] in
    let readable_script :=
      py "NAME_TRANSFER 0x" ++ disposition_hex ++ py " 0x" ++ name_hash
      ++ py " 0x" ++ consensus_hash in
    hex_script <- blockstack_script_to_hex readable_script ;;
    let packaged_script := add_magic_bytes hex_script testset in
    Ok packaged_script.

End transfer.

(* ===================================================================== *)
(** * blockstack/lib/operations/namespaceready.py *)
(* ===================================================================== *)

Module namespaceready.

Record payload : Type := {
  opcode : str;
  namespace_id : str
}.

(** The payload excludes the three leading bytes (magic and opcode); its
    first byte is the ['.'] delimiter. *)
Definition parse (bin_payload : str) : option payload :=
  if len bin_payload =? 0 then None
  else
    match bin_payload with
    | [] => None
    | c :: _ =>
        if negb (Ascii.eqb c ".") then None
        else
          let namespace_id := slice_from bin_payload 1 in
          if negb (is_b40 namespace_id) || contains "+" namespace_id
             || (0 <? count "." namespace_id)
          then None
          else if (len namespace_id <=? 0)
                  || (LENGTHS.blockchain_id_namespace_id <? len namespace_id)
          then None
          else Some {| opcode := py "NAMESPACE_READY";
                       namespace_id := namespace_id |}
    end.


Definition build `{Externals} (namespace_id : str) (testset : bool) : result str :=
  if negb (is_b40 namespace_id) || contains "+" namespace_id
     || (0 <? count "." namespace_id)
  then Raise (Exception "Namespace ID has non-base-38 characters")
  else if (len namespace_id =? 0)
          || (LENGTHS.blockchain_id_namespace_id <? len namespace_id)
  then Raise (Exception "Invalid namespace ID")
  else
    let readable_script :=
      py "NAMESPACE_READY 0x" ++ hexlify ("."%char :: namespace_id) in
    hex_script <- blockstack_script_to_hex readable_script ;;
    let packaged_script := add_magic_bytes hex_script testset in
    Ok packaged_script.

(** The revealed namespace, as far as [check] reads it. *)
Record revealed : Type := {
  recipient : str;
  sender_pubkey : option str;
  address : str
}.

(** The operation [tx_extract] hands to [check]. *)
Record nameop : Type := {
  fields : payload;
  sender : str;
  op_address : str;
  op_sender_pubkey : option str
}.

(** [get_namespace_reveal] is the query of the state engine that returns
    the revealed namespace, or [None].  [check] subscripts its result
    without testing it: a [None] there raises [TypeError].  The model
    returns the rewritten operation when [check] returns [True] and
    [None] when it returns [False]. *)
Definition check (state_engine : nameset.StateEngine)
    (get_namespace_reveal : str -> option revealed)
    (nameop : nameop) (block_id : Z) (checked_ops : list nameset.checked_op)
    : result (option namespaceready.nameop) :=
  let namespace_id := namespace_id (fields nameop) in
  let sender := sender nameop in
  if negb (nameset.is_namespace_revealed state_engine namespace_id) then Ok None
  else
    match get_namespace_reveal namespace_id with
    | None => Raise (TypeError "'NoneType' object has no attribute '__getitem__'")
    | Some revealed_namespace =>
        if negb (str_eqb (recipient revealed_namespace) sender) then Ok None
        else if nameset.is_namespace_ready state_engine namespace_id then Ok None
        else
          Ok (Some {| fields := fields nameop;
                      sender := sender;
                      op_address := address revealed_namespace;
                      op_sender_pubkey := sender_pubkey revealed_namespace |})
    end.

End namespaceready.

(* ===================================================================== *)
(** * blockstore/lib/operations/transfer.py *)
(* ===================================================================== *)

Module blockstore_transfer.

(** Modelled from the spec: blockstore/lib/config.py is not among the
    sources.  A transfer carries "disposition(1) | name_hash128(16) |
    consensus_hash(16)" and the disposition is [>] (keep data) or [~]
    (drop data). *)
Definition LENGTHS_name_hash : Z := 16.
Definition TRANSFER_REMOVE_DATA : ascii := "~"%char.

(** The dictionary [parse] returns; the name hash is under ['name_hash']. *)
Record payload : Type := {
  opcode : str;
  name_hash : str;
  consensus_hash : str;
  recipient : str;
  keep_data : bool
}.

(** The payload excludes the three leading bytes (magic and opcode).
    The function has no [return None]; the option type is that of the
    other parsers, whose callers test the result against [None]. *)
Definition parse (bin_payload recipient : str) : option payload :=
  let disposition_char := slice bin_payload 0 1 in
  let name_hash := slice bin_payload 1 (1 + LENGTHS_name_hash) in
  let consensus_hash := slice_from bin_payload (1 + LENGTHS_name_hash) in
  let disposition := true in
  let disposition :=
    if str_eqb disposition_char [TRANSFER_REMOVE_DATA] then false
    else disposition in
  Some {| opcode := py "NAME_TRANSFER";
          name_hash := hexlify name_hash;
          consensus_hash := hexlify consensus_hash;
          recipient := recipient;
          keep_data := disposition |}.

End blockstore_transfer.


(* ===================================================================== *)
(** * blockstack/blockstackd.py *)
(* ===================================================================== *)

(** [get_name_cost]: [get_namespace] and [get_namespace_reveal] are the
    two queries of the database the function makes, for a ready and for
    a revealed namespace.  [Ok None] is the Python [None]. *)
Definition get_name_cost
    (get_namespace get_namespace_reveal : str -> option nameset.namespace)
    (name : str) : result (option Z) :=
  let namespace_id := get_namespace_from_name name in
  if len namespace_id =? 0 then Ok None
  else
    let namespace :=
      match get_namespace namespace_id with
      | Some ns => Some ns
      | None => get_namespace_reveal namespace_id
      end in
    match namespace with
    | None => Ok None
    | Some namespace =>
        match get_name_from_fq_name name with
        | None => Raise (TypeError "object of type 'NoneType' has no len()")
        | Some short_name =>
            name_fee <- price_name short_name namespace ;;
            Ok (Some name_fee)
        end
    end.

(* ===================================================================== *)
(** * The two transfer parsers compared *)
(* ===================================================================== *)

(** Both parsers reject the payload, or both accept it and return the
    same [keep_data] flag, name hash and consensus hash. *)
Definition transfer_parsers_agree (bin_payload recipient : str) : Prop :=
  match transfer.parse bin_payload recipient,
        blockstore_transfer.parse bin_payload recipient with
  | None, None => True
  | Some p, Some q =>
      blockstore_transfer.keep_data q = transfer.keep_data p
      /\ blockstore_transfer.name_hash q = transfer.name_hash128 p
      /\ blockstore_transfer.consensus_hash q = transfer.consensus_hash p
  | _, _ => False
  end.

(* ===================================================================== *)
(** * Sample data *)
(* ===================================================================== *)

Module sample.

(** A stand-in for the collaborators: the "hash" is the first twenty
    bytes of the padded concatenation of its arguments, in hexadecimal.
    It has the shape of a hash160 digest and none of its strength. *)
Definition toy_hash (name script_pubkey register_addr : str) : result str :=
  Ok (hexlify (firstn 20 (name ++ script_pubkey ++ register_addr
                          ++ repeat "0"%char 20))).

#[export] Instance externals : Externals := {|
  hash_name := toy_hash;
  int_of_str := fun _ => None;
  is_hex := fun _ => false
|}.

Definition script_S : str := py "76a914aaaaaaaaaaaaaaaaaaaaaaaaaaaaaaaaaaaaaaaa88ac".
Definition script_R : str := py "76a914bbbbbbbbbbbbbbbbbbbbbbbbbbbbbbbbbbbbbbbb88ac".
Definition addr_S : str := py "1GZQKjsC97yasxRj1wtYf5rC61AxpR1zmr".
Definition addr_R : str := py "1J5jbsKsc4MzCx6DJVe2QkxMMbhCd5JHuW".
Definition pubkey_S : str := py "02aa".

Definition CH_109 : str := py "17ac43c1d8549c3181b200f1bf97eb7d".
Definition hash_test : str := py "0123456789abcdef0123456789abcdef01234567".
Definition hash128_alice : str := py "00112233445566778899aabbccddeeff".
Definition hash_alice : str := py "89abcdef0123456789abcdef0123456789abcdef".

(** The namespace of the first scenario of the specification. *)
Definition namespace_test : nameset.namespace := {|
  nameset.opcode := py "NAMESPACE_REVEAL";
  nameset.lifetime := 52596;
  nameset.coeff := 4;
  nameset.base := 4;
  nameset.buckets := [6; 5; 4; 3; 3; 3; 3; 2; 2; 2; 1; 1; 1; 1; 1; 1];
  nameset.version := 1;
  nameset.nonalpha_discount := 10;
  nameset.no_vowel_discount := 10;
  nameset.namespace_id := py "test";
  nameset.preorder_hash := hash_test
|}.

(** A namespace whose discounts do not divide its prices. *)
Definition namespace_odd : nameset.namespace := {|
  nameset.opcode := py "NAMESPACE_REVEAL";
  nameset.lifetime := 52596;
  nameset.coeff := 1;
  nameset.base := 3;
  nameset.buckets := [1; 1; 1; 1; 1; 1; 1; 1; 1; 1; 1; 1; 1; 1; 1; 1];
  nameset.version := 1;
  nameset.nonalpha_discount := 2;
  nameset.no_vowel_discount := 2;
  nameset.namespace_id := py "odd";
  nameset.preorder_hash := hash_test
|}.

Definition alice_rec : nameset.name_rec := {|
  nameset.name := py "alice.test";
  nameset.sender := script_S;
  nameset.address := addr_S;
  nameset.sender_pubkey := Some pubkey_S;
  nameset.value_hash := Some (py "aaaaaaaaaaaaaaaaaaaaaaaaaaaaaaaaaaaaaaaa");
  nameset.consensus_hash := CH_109
|}.

(** A database in which the namespace [test] is ready, [alice.test] is
    registered to [script_S], [CH_109] is the consensus hash of block
    109, and a namespace preorder for [hash_test], sent by [script_S]
    at block 100 and paying [fee], is pending. *)
Definition engine (fee : option Z) : nameset.StateEngine := {|
  nameset.lastblock := 110;
  nameset.is_namespace_revealed := fun _ => false;
  nameset.is_namespace_ready := fun ns => str_eqb ns (py "test");
  nameset.get_namespace_preorder := fun h =>
    if str_eqb h hash_test
    then Some {| nameset.np_sender := script_S;
                 nameset.np_block_number := 100;
                 nameset.np_op_fee := fee |}
    else None;
  nameset.is_new_preorder := fun h => negb (str_eqb h hash_test);
  nameset.is_consensus_hash_valid := fun _ ch => str_eqb ch CH_109;
  nameset.get_block_from_consensus := fun ch =>
    if str_eqb ch CH_109 then Some 109 else None;
  nameset.get_name_from_name_hash128 := fun h =>
    if str_eqb h hash128_alice then Some (py "alice.test") else None;
  nameset.get_name := fun n =>
    if str_eqb n (py "alice.test") then Some alice_rec else None;
  nameset.is_name_revoked := fun _ => false;
  nameset.is_name_expired := fun _ _ => false;
  nameset.is_name_registered := fun n => str_eqb n (py "alice.test");
  nameset.is_name_owner := fun n s =>
    str_eqb n (py "alice.test") && str_eqb s script_S;
  nameset.get_names_owned_by_sender := fun s =>
    if str_eqb s script_S then [py "alice.test"] else []
|}.

(** A reveal of the namespace [xyz] sent by [sender], committed to by
    the pending preorder [hash_test]. *)
Definition reveal (ns : str) (sender : str) : namespacereveal.nameop := {|
  namespacereveal.namespace_id := ns;
  namespacereveal.preorder_hash := hash_test;
  namespacereveal.version := 1;
  namespacereveal.sender := sender;
  namespacereveal.address := addr_R;
  namespacereveal.sender_pubkey := Some pubkey_S;
  namespacereveal.recipient := Some script_R;
  namespacereveal.recipient_address := Some addr_R;
  namespacereveal.reveal_block := 101;
  namespacereveal.block_number := None;
  namespacereveal.ready_block := None;
  namespacereveal.op_fee := None
|}.

(** A transfer of [alice.test] from [sender] to [recipient]. *)
Definition transfer_op (sender recipient : str) (keep : bool) : transfer.nameop := {|
  transfer.fields := {| transfer.opcode := py "NAME_TRANSFER";
                        transfer.name_hash128 := hash128_alice;
                        transfer.consensus_hash := CH_109;
                        transfer.recipient := recipient;
                        transfer.keep_data := keep |};
  transfer.sender := sender;
  transfer.address := addr_S;
  transfer.recipient_address := addr_R;
  transfer.sender_pubkey := Some pubkey_S
|}.

(** A name preorder by [script_R]. *)
Definition preorder_op : preorder.nameop := {|
  preorder.fields := {| preorder.opcode := py "NAME_PREORDER";
                        preorder.preorder_hash := hash_alice;
                        preorder.consensus_hash := CH_109 |};
  preorder.sender := script_R;
  preorder.address := addr_R;
  preorder.block_number := 110;
  preorder.op_fee := Some 25600
|}.

(** A 33-byte transfer payload whose first byte is [c]. *)
Definition transfer_payload (c : ascii) : str :=
  c :: repeat "001"%char 16 ++ repeat "002"%char 16.

End sample.

(* ===================================================================== *)
(** * The price of a name as the specification words it *)
(* ===================================================================== *)

(** [bucket = buckets[min(len(name)-1, 15)]]. *)
Definition spec_bucket (name : str) (namespace : nameset.namespace) : Z :=
  nth (Z.to_nat (Z.min (len name - 1) 15)) (nameset.buckets namespace) 0.

(** Some character of [s], read case-insensitively, is one of [chars]. *)
Definition contains_any (chars : list ascii) (s : str) : bool :=
  existsb (fun v => contains v (lower s)) chars.

(** [discount = max(1, no_vowel_discount if the name has no vowel,
    nonalpha_discount if the name has a digit, a dash or an underscore)]. *)
Definition spec_discount (name : str) (namespace : nameset.namespace) : Z :=
  Z.max (Z.max 1 (if contains_any vowels name then 1
                  else nameset.no_vowel_discount namespace))
        (if contains_any nonalpha name
         then nameset.nonalpha_discount namespace else 1).

(** [max(NAME_COST_UNIT, floor(coeff * base^bucket / discount) * NAME_COST_UNIT)]:
    the quotient is floored, then multiplied by the unit. *)
Definition floored_price (name : str) (namespace : nameset.namespace) : Z :=
  Z.max NAME_COST_UNIT
    (nameset.coeff namespace * nameset.base namespace ^ spec_bucket name namespace
     / spec_discount name namespace * NAME_COST_UNIT).

(** [max(NAME_COST_UNIT, int(float(n) / float(d) * NAME_COST_UNIT))]: the
    quotient and the product are doubles, the product is truncated. *)
Definition float_price (n d : Z) : Z :=
  match Float.div (Float.of_Z n) (Float.of_Z d) with
  | Some quotient =>
      Z.max NAME_COST_UNIT
        (Float.trunc (Float.mul quotient (Float.of_Z NAME_COST_UNIT)))
  | None => NAME_COST_UNIT
  end.

(** The bounds [namespacereveal_sanity_check] puts on the price
    parameters. *)
Definition price_params_sane (namespace : nameset.namespace) : Prop :=
  0 <= nameset.coeff namespace <= 255
  /\ 0 <= nameset.base namespace <= 255
  /\ len (nameset.buckets namespace) = 16
  /\ Forall (fun b => 0 <= b <= 15) (nameset.buckets namespace)
  /\ 1 <= nameset.nonalpha_discount namespace <= 15
  /\ 1 <= nameset.no_vowel_discount namespace <= 15.

(* ===================================================================== *)
(** * Nibbles and bytes *)
(* ===================================================================== *)

(** The byte string whose hexadecimal digits are [ds], two per byte. *)
Fixpoint pack (ds : list Z) : str :=
  match ds with
  | h :: l :: t => chr (16 * h + l) :: pack t
  | _ => []
  end.

(** The hexadecimal digits of a byte string, two per byte. *)
Definition unpack (s : str) : list Z :=
  flat_map (fun c => [ord c / 16; ord c mod 16]) s.

(** The integer a list of hexadecimal digits denotes, most significant
    digit first. *)
Definition digits_value (acc : Z) (ds : list Z) : Z :=
  fold_left (fun a d => 16 * a + d) ds acc.

Definition nibble (d : Z) : Prop := 0 <= d < 16.

(** [cs] is a string of hexadecimal digits whose values are [ds]. *)
Definition digits_of (cs : str) (ds : list Z) : Prop :=
  Forall2 (fun c d => hexval c = Some d /\ nibble d) cs ds.

(** The double that denotes the integer [k], [0 < k < 2^53]. *)
Definition canon (neg : bool) (k : Z) : Float.float :=
  Float.Fnum neg (k * 2 ^ (52 - Z.log2 k)) (Z.log2 k - 52).

(** The readable script [" 0x<p1> 0x<p2> ..."] after the opcode name. *)
Fixpoint script_of (parts : list str) : str :=
  match parts with
  | [] => []
  | p :: r => py " 0x" ++ p ++ script_of r
  end.

(** [restore_delta]: build the script, strip magic bytes and opcode,
    parse. *)
Definition namespacereveal_rebuild `{Externals}
    (namespace_id : str) (version : Z) (reveal_addr : str) (lifetime coeff base : Z)
    (bucket_exponents : list Z) (nonalpha_discount no_vowel_discount : Z)
    (testset : bool) (sender_script recipient_address : str)
    : result (option nameset.namespace) :=
  script <- namespacereveal.build namespace_id version reveal_addr lifetime coeff base
              bucket_exponents nonalpha_discount no_vowel_discount testset ;;
  unhexed <- unhexlify script ;;
  namespacereveal.parse (slice_from unhexed 3) sender_script recipient_address.

Definition preorder_rebuild `{Externals}
    (name : option str) (script_pubkey register_addr consensus_hash : str)
    (name_hash : option str) (testset : bool) : result (option preorder.payload) :=
  script <- preorder.build name script_pubkey register_addr consensus_hash
              name_hash testset ;;
  unhexed <- unhexlify script ;;
  Ok (preorder.parse (slice_from unhexed 3)).

(* ===================================================================== *)
(** * Definitions for the further properties *)
(* ===================================================================== *)

(** A NAMESPACE_REVEAL payload: lifetime 52596, coefficient 4, base 4,
    buckets 6 5 4 3 2 1 0 ..., discounts 10 and 10, version 1,
    namespace [xyz]. *)
Definition sample_reveal_payload : str :=
  map chr [0; 0; 205; 116; 4; 4; 101; 67; 33; 0; 0; 0; 0; 0; 170; 0; 1] ++ py "xyz".

(** A stand-in for [hash256_trunc128] with the right length: the first
    16 bytes of the padded name, in hexadecimal. *)
Definition toy_hash128 (name : str) : str :=
  hexlify (firstn 16 (name ++ repeat "0"%char 16)).

#[global] Instance sample_hashing : Hashing := {|
  hash256_trunc128 := toy_hash128
|}.

(** An output [get_transfer_recipient_from_outputs] passes over: an
    OP_RETURN, or one without a script. *)
Definition skipped_output (output : tx.output) : Prop :=
  str_eqb (slice (tx.asm output) 0 9) (py "OP_RETURN") = true
  \/ tx.hex output = None \/ tx.hex output = Some [].

(** What [namespaceready.build] and [namespaceready.parse] ask of a
    namespace identifier. *)
Definition ready_id_ok (namespace_id : str) : Prop :=
  is_b40 namespace_id = true /\ contains "+" namespace_id = false
  /\ contains "." namespace_id = false /\ 1 <= len namespace_id <= 19.

(* ===================================================================== *)
(** * Properties *)
(* ===================================================================== *)

(** ** Strings *)

Lemma str_eqb_eq (a b : str) : str_eqb a b = true <-> a = b.
Proof.
  revert b; induction a as [|x a IH]; intros [|y b]; simpl; split; intros E;
    try reflexivity; try discriminate.
  - apply andb_true_iff in E as [E1 E2]. apply Ascii.eqb_eq in E1.
    apply IH in E2. now subst.
  - injection E as -> ->. apply andb_true_iff. split.
    + apply Ascii.eqb_refl.
    + now apply IH.
Qed.

Lemma str_eqb_refl (a : str) : str_eqb a a = true.
Proof. now apply str_eqb_eq. Qed.

Lemma str_eqb_neq (a b : str) : str_eqb a b = false <-> a <> b.
Proof.
  split.
  - intros E ->. rewrite str_eqb_refl in E. discriminate.
  - intros N. destruct (str_eqb a b) eqn:E; [|reflexivity].
    apply str_eqb_eq in E. contradiction.
Qed.

Lemma existsb_str_eqb_In (x : str) (l : list str) :
  existsb (str_eqb x) l = true <-> In x l.
Proof.
  rewrite existsb_exists. split.
  - intros [y [Hy E]]. apply str_eqb_eq in E. now subst.
  - intros Hx. exists x. split; [assumption | apply str_eqb_refl].
Qed.

(** ** Namespace prices *)

Lemma price_namespace_cases (testset : bool) (namespace_id : str) :
  In (price_namespace testset namespace_id)
     [NAMESPACE_1_CHAR_COST; NAMESPACE_23_CHAR_COST; NAMESPACE_4567_CHAR_COST;
      NAMESPACE_8UP_CHAR_COST; TESTSET_NAMESPACE_1_CHAR_COST].
Proof.
  unfold price_namespace.
  destruct testset;
    repeat match goal with |- context [if ?c then _ else _] => destruct c end;
    simpl; tauto.
Qed.

Lemma NAMESPACE_8UP_CHAR_COST_value :
  NAMESPACE_8UP_CHAR_COST = PyFloat (Float.Fnum false (40000000 * 2 ^ 27) (-27)).
Proof. reflexivity. Qed.

(** The comparison of a fee with a namespace price is the comparison of
    the integers they denote. *)
Lemma int_lt_price (testset : bool) (namespace_id : str) (fee price : Z) :
  number_to_Z (price_namespace testset namespace_id) = Some price ->
  int_lt_number fee (price_namespace testset namespace_id) = (fee <? price).
Proof.
  destruct (price_namespace_cases testset namespace_id) as [E|[E|[E|[E|[E|[]]]]]];
    rewrite <- E; clear E.
  1-3, 5: (simpl; intros E; injection E as <-; reflexivity).
  rewrite NAMESPACE_8UP_CHAR_COST_value. intros E.
  vm_compute in E. injection E as <-.
  unfold int_lt_number, Float.Z_ltb.
  change (0 <=? -27) with false. cbv iota.
  change (- -27) with 27.
  destruct (Z.ltb_spec (fee * 2 ^ 27) (40000000 * 2 ^ 27));
    destruct (Z.ltb_spec fee 40000000); try reflexivity; lia.
Qed.

(** ** Claims *)

(** C1 (code at the failing input).  A NAMESPACE_REVEAL sent by
    [script_R] whose preorder was sent by [script_S] is accepted: the
    sender comparison of [namespacereveal.check] has no effect on the
    verdict. *)
Theorem namespacereveal_check_accepts_foreign_sender :
  let se := sample.engine (Some (40 * 10 ^ 8)) in
  let nameop := sample.reveal (py "xyz") sample.script_R in
  (exists p, nameset.get_namespace_preorder se (namespacereveal.preorder_hash nameop) = Some p
             /\ nameset.np_sender p <> namespacereveal.sender nameop)
  /\ namespacereveal.check false se nameop 101 [] <> None.
Proof.
  split.
  - eexists. split; [reflexivity|]. apply str_eqb_neq. reflexivity.
  - vm_compute. discriminate.
Qed.

(** The collision checks, read as statements about the operations
    accepted earlier in the block. *)
Lemma check_preorder_collision_false (preorder_hash : str) (block_id : Z)
    (checked_ops : list nameset.checked_op) :
  nameset.check_preorder_collision preorder_hash block_id checked_ops = false
  <-> (forall prev : nameset.checked_op,
         In prev checked_ops -> nameset.co_op prev = [NAME_PREORDER] ->
         nameset.co_preorder_hash prev <> Some preorder_hash).
Proof.
  unfold nameset.check_preorder_collision. split.
  - intros Hex prev Hin Hop Hh.
    assert (Ht : existsb (fun prev =>
                   str_eqb (nameset.co_op prev) [NAME_PREORDER]
                   && match nameset.co_preorder_hash prev with
                      | Some h => str_eqb h preorder_hash
                      | None => false
                      end) checked_ops = true).
    { apply existsb_exists. exists prev. split; [exact Hin|].
      rewrite Hop, Hh, !str_eqb_refl. reflexivity. }
    congruence.
  - intros Hno.
    destruct (existsb _ checked_ops) eqn:Hex; [|reflexivity].
    apply existsb_exists in Hex. destruct Hex as (prev & Hin & Hprev).
    apply andb_true_iff in Hprev. destruct Hprev as [Hop Hh].
    apply str_eqb_eq in Hop.
    destruct (nameset.co_preorder_hash prev) as [h|] eqn:Hp; [|discriminate].
    apply str_eqb_eq in Hh. subst h. elim (Hno prev Hin Hop Hp).
Qed.

Lemma check_namespace_collision_false (namespace_id : str) (block_id : Z)
    (checked_ops : list nameset.checked_op) :
  nameset.check_namespace_collision namespace_id block_id checked_ops = false
  <-> (forall prev : nameset.checked_op,
         In prev checked_ops -> nameset.co_op prev = [NAMESPACE_REVEAL] ->
         nameset.co_namespace_id prev <> Some namespace_id).
Proof.
  unfold nameset.check_namespace_collision. split.
  - intros Hex prev Hin Hop Hh.
    assert (Ht : existsb (fun prev =>
                   str_eqb (nameset.co_op prev) [NAMESPACE_REVEAL]
                   && match nameset.co_namespace_id prev with
                      | Some id => str_eqb id namespace_id
                      | None => false
                      end) checked_ops = true).
    { apply existsb_exists. exists prev. split; [exact Hin|].
      rewrite Hop, Hh, !str_eqb_refl. reflexivity. }
    congruence.
  - intros Hno.
    destruct (existsb _ checked_ops) eqn:Hex; [|reflexivity].
    apply existsb_exists in Hex. destruct Hex as (prev & Hin & Hprev).
    apply andb_true_iff in Hprev. destruct Hprev as [Hop Hh].
    apply str_eqb_eq in Hop.
    destruct (nameset.co_namespace_id prev) as [h|] eqn:Hp; [|discriminate].
    apply str_eqb_eq in Hh. subst h. elim (Hno prev Hin Hop Hp).
Qed.

(** The function [state_preorder] decorates accepts exactly on the four
    tests of its body. *)
Lemma preorder_check_body_iff (se : nameset.StateEngine) (nameop : preorder.nameop)
    (block_id : Z) (checked_ops : list nameset.checked_op) :
  preorder.check_body se nameop block_id checked_ops = true <->
  (nameset.is_new_preorder se (preorder.preorder_hash (preorder.fields nameop)) = true
   /\ nameset.is_consensus_hash_valid se block_id
        (preorder.consensus_hash (preorder.fields nameop)) = true
   /\ len (nameset.get_names_owned_by_sender se (preorder.sender nameop))
      < MAX_NAMES_PER_SENDER
   /\ preorder.op_fee nameop <> None).
Proof.
  unfold preorder.check_body, preorder.get_num_names_owned.
  destruct (nameset.is_new_preorder se _); simpl.
  2: { split; [discriminate | intros [E _]; discriminate]. }
  destruct (nameset.is_consensus_hash_valid se block_id _); simpl.
  2: { split; [discriminate | intros [_ [E _]]; discriminate]. }
  destruct (Z.leb_spec MAX_NAMES_PER_SENDER
              (len (nameset.get_names_owned_by_sender se (preorder.sender nameop)))).
  { split; [discriminate | intros [_ [_ [E _]]]; lia]. }
  destruct (preorder.op_fee nameop).
  - split; intros; repeat split; try assumption; discriminate.
  - split; [discriminate | intros [_ [_ [_ E]]]; now elim E].
Qed.

(** C3.  [preorder.check] accepts a NAME_PREORDER exactly when no live
    preorder has its hash (none pending in the database, and none among
    the NAME_PREORDER operations accepted earlier in the block), its
    consensus hash is valid at the block, the sender owns fewer than
    [MAX_NAMES_PER_SENDER] names (pending preorders not being names,
    they add nothing to the count) and the ['op_fee'] field is
    present. *)
Theorem preorder_check_iff (se : nameset.StateEngine) (nameop : preorder.nameop)
    (block_id : Z) (checked_ops : list nameset.checked_op) :
  preorder.check se nameop block_id checked_ops = true <->
  (nameset.is_new_preorder se (preorder.preorder_hash (preorder.fields nameop)) = true
   /\ (forall prev : nameset.checked_op,
         In prev checked_ops -> nameset.co_op prev = [NAME_PREORDER] ->
         nameset.co_preorder_hash prev
         <> Some (preorder.preorder_hash (preorder.fields nameop)))
   /\ nameset.is_consensus_hash_valid se block_id
        (preorder.consensus_hash (preorder.fields nameop)) = true
   /\ len (nameset.get_names_owned_by_sender se (preorder.sender nameop))
      < MAX_NAMES_PER_SENDER
   /\ preorder.op_fee nameop <> None).
Proof.
  unfold preorder.check, nameset.state_preorder.
  rewrite <- (check_preorder_collision_false _ block_id checked_ops).
  pose proof (preorder_check_body_iff se nameop block_id checked_ops) as Hbody.
  destruct (preorder.check_body se nameop block_id checked_ops).
  - destruct (proj1 Hbody eq_refl) as (H1 & H2 & H3 & H4).
    destruct (nameset.check_preorder_collision _ block_id checked_ops); cbn [negb].
    + split; [discriminate | intros (_ & E & _); discriminate].
    + split; [intros _; repeat split; assumption | reflexivity].
  - split; [discriminate|]. intros (H1 & _ & H2 & H3 & H4).
    apply Hbody. repeat split; assumption.
Qed.

(** A NAME_PREORDER of [hash_alice] is accepted after a preorder of
    another hash in its block and rejected after one of its own hash. *)
Lemma preorder_check_iff_witness :
  let earlier (h : str) :=
    {| nameset.co_op := [NAME_PREORDER];
       nameset.co_sender := sample.script_S;
       nameset.co_preorder_hash := Some h;
       nameset.co_namespace_id := None |} in
  preorder.check (sample.engine None) sample.preorder_op 110
    [earlier sample.hash_test] = true
  /\ preorder.check (sample.engine None) sample.preorder_op 110
       [earlier sample.hash_alice] = false.
Proof.
  cbv zeta. split.
  - apply (preorder_check_iff (sample.engine None) sample.preorder_op 110).
    split; [reflexivity|]. split.
    + intros prev [<- | []] _ E. vm_compute in E. discriminate E.
    + repeat split; try reflexivity. discriminate.
  - destruct (preorder.check (sample.engine None) sample.preorder_op 110
                [{| nameset.co_op := [NAME_PREORDER];
                    nameset.co_sender := sample.script_S;
                    nameset.co_preorder_hash := Some sample.hash_alice;
                    nameset.co_namespace_id := None |}]) eqn:E; [|reflexivity].
    apply (preorder_check_iff (sample.engine None) sample.preorder_op 110) in E.
    destruct E as (_ & Hno & _). exfalso.
    apply (Hno {| nameset.co_op := [NAME_PREORDER];
                  nameset.co_sender := sample.script_S;
                  nameset.co_preorder_hash := Some sample.hash_alice;
                  nameset.co_namespace_id := None |});
      [left; reflexivity | reflexivity | reflexivity].
Defined.

(** C4.  On mainnet [price_namespace] is 400*10^8 for a one-character
    namespace, 40*10^8 for two or three characters, 4*10^8 for four to
    seven and 0.4*10^8 from eight characters on; on testset it is 10000;
    and [namespacereveal.check] rejects a reveal whose namespace preorder
    paid less than the price of its namespace. *)
Theorem price_namespace_table_and_reveal_fee :
  (forall ns, len ns = 1 ->
     number_to_Z (price_namespace false ns) = Some (400 * 10 ^ 8))
  /\ (forall ns, 2 <= len ns <= 3 ->
        number_to_Z (price_namespace false ns) = Some (40 * 10 ^ 8))
  /\ (forall ns, 4 <= len ns <= 7 ->
        number_to_Z (price_namespace false ns) = Some (4 * 10 ^ 8))
  /\ (forall ns, 8 <= len ns ->
        number_to_Z (price_namespace false ns) = Some (4 * 10 ^ 7))
  /\ (forall ns, number_to_Z (price_namespace true ns) = Some 10000)
  /\ (forall (testset : bool) (se : nameset.StateEngine)
             (nameop : namespacereveal.nameop) (block_id : Z)
             (checked_ops : list nameset.checked_op)
             (p : nameset.namespace_preorder) (fee price : Z),
        nameset.get_namespace_preorder se (namespacereveal.preorder_hash nameop) = Some p ->
        nameset.np_op_fee p = Some fee ->
        number_to_Z (price_namespace testset (namespacereveal.namespace_id nameop))
          = Some price ->
        fee < price ->
        namespacereveal.check testset se nameop block_id checked_ops = None).
Proof.
  unfold price_namespace at 1 2 3 4 5.
  split; [|split; [|split; [|split; [|split]]]]; intros ns; try intros Hns.
  - destruct (Z.eqb_spec (len ns) 1); [reflexivity | lia].
  - destruct (Z.eqb_spec (len ns) 1); [lia|].
    assert (E : existsb (Z.eqb (len ns)) [2; 3] = true).
    { apply existsb_exists. exists (len ns). split; [simpl; lia | apply Z.eqb_refl]. }
    rewrite E. reflexivity.
  - destruct (Z.eqb_spec (len ns) 1); [lia|].
    assert (E : existsb (Z.eqb (len ns)) [2; 3] = false).
    { simpl. destruct (Z.eqb_spec (len ns) 2); [lia|].
      destruct (Z.eqb_spec (len ns) 3); [lia|]. reflexivity. }
    rewrite E.
    assert (E' : existsb (Z.eqb (len ns)) [4; 5; 6; 7] = true).
    { apply existsb_exists. exists (len ns). split; [simpl; lia | apply Z.eqb_refl]. }
    rewrite E'. reflexivity.
  - destruct (Z.eqb_spec (len ns) 1); [lia|].
    assert (E : existsb (Z.eqb (len ns)) [2; 3] = false).
    { simpl. destruct (Z.eqb_spec (len ns) 2); [lia|].
      destruct (Z.eqb_spec (len ns) 3); [lia|]. reflexivity. }
    rewrite E.
    assert (E' : existsb (Z.eqb (len ns)) [4; 5; 6; 7] = false).
    { simpl. repeat match goal with
                    |- context [Z.eqb ?a ?b] => destruct (Z.eqb_spec a b); [lia|]
                    end. reflexivity. }
    rewrite E'. vm_compute. reflexivity.
  - repeat match goal with |- context [if ?c then _ else _] => destruct c end;
      reflexivity.
  - rename ns into testset, Hns into se.
    intros nameop block_id checked_ops p fee price Hp Hfee Hprice Hlt.
    unfold namespacereveal.check, nameset.state_create, namespacereveal.check_body.
    destruct (namespacereveal.sender_pubkey nameop); [|reflexivity].
    destruct (namespacereveal.recipient nameop); [|reflexivity].
    destruct (namespacereveal.recipient_address nameop); [|reflexivity].
    destruct (negb _ || _ || _); [reflexivity|].
    destruct (nameset.is_namespace_revealed se _); [reflexivity|].
    destruct (nameset.is_namespace_ready se _); [reflexivity|].
    rewrite Hp, Hfee, (int_lt_price _ _ fee price Hprice).
    destruct (Z.ltb_spec fee price); [|lia].
    destruct (negb (namespacereveal.version nameop =? BLOCKSTACK_VERSION));
      destruct (negb (str_eqb _ _)); reflexivity.
Qed.

Lemma price_namespace_table_and_reveal_fee_witness :
  namespacereveal.check false (sample.engine (Some (40 * 10 ^ 8 - 1)))
    (sample.reveal (py "xyz") sample.script_S) 101 [] = None.
Proof.
  destruct price_namespace_table_and_reveal_fee as (_ & _ & _ & _ & _ & Hfee).
  apply (Hfee false (sample.engine (Some (40 * 10 ^ 8 - 1)))
           (sample.reveal (py "xyz") sample.script_S) 101 []
           {| nameset.np_sender := sample.script_S;
              nameset.np_block_number := 100;
              nameset.np_op_fee := Some (40 * 10 ^ 8 - 1) |}
           (40 * 10 ^ 8 - 1) (40 * 10 ^ 8)).
  - reflexivity.
  - reflexivity.
  - reflexivity.
  - reflexivity.
Defined.

(** C5.  [transfer.check] accepts a NAME_TRANSFER that meets its
    conditions, and the operation it accepts names the recipient's
    script and address as the new owner, with a null [value_hash] if the
    operation drops the data and that of the prior record if it keeps
    them; so does the committed record.  [transfer.parse] accepts a
    payload of 33 bytes that starts with [~] or [>] and reads the flag
    from that byte, [~] for dropping and [>] for keeping.  The check
    rejects a transfer whose sender does not own the name, whose
    recipient owns it already or owns [MAX_NAMES_PER_SENDER] names or
    more, or whose consensus hash is not valid or belongs to no block. *)
Theorem transfer_check_commit :
  (forall (se : nameset.StateEngine) (nameop : transfer.nameop) (block_id : Z)
          (checked_ops : list nameset.checked_op) (name : str)
          (name_rec : nameset.name_rec) (transfer_send_block_id : Z),
     nameset.get_name_from_name_hash128 se
       (transfer.name_hash128 (transfer.fields nameop)) = Some name ->
     nameset.get_name se name = Some name_rec ->
     nameset.is_namespace_ready se (get_namespace_from_name name) = true ->
     nameset.is_name_revoked se name = false ->
     nameset.is_name_expired se name (nameset.lastblock se) = false ->
     nameset.is_consensus_hash_valid se block_id
       (transfer.consensus_hash (transfer.fields nameop)) = true ->
     transfer.sender nameop <> transfer.recipient (transfer.fields nameop) ->
     nameset.is_name_registered se name = true ->
     nameset.is_name_owner se name (transfer.sender nameop) = true ->
     ~ In name (nameset.get_names_owned_by_sender se
                  (transfer.recipient (transfer.fields nameop))) ->
     len (nameset.get_names_owned_by_sender se
            (transfer.recipient (transfer.fields nameop))) < MAX_NAMES_PER_SENDER ->
     nameset.get_block_from_consensus se
       (transfer.consensus_hash (transfer.fields nameop))
     = Some transfer_send_block_id ->
     exists op : transfer.accepted,
       transfer.check se nameop block_id checked_ops = Some op
       /\ transfer.a_name op = name
       /\ transfer.a_sender op = transfer.recipient (transfer.fields nameop)
       /\ transfer.a_address op = transfer.recipient_address nameop
       /\ transfer.a_value_hash op
          = (if transfer.keep_data (transfer.fields nameop)
             then nameset.value_hash name_rec else None)
       /\ nameset.sender (transfer.commit name_rec op)
          = transfer.recipient (transfer.fields nameop)
       /\ nameset.address (transfer.commit name_rec op)
          = transfer.recipient_address nameop
       /\ nameset.value_hash (transfer.commit name_rec op)
          = (if transfer.keep_data (transfer.fields nameop)
             then nameset.value_hash name_rec else None))
  /\ (forall (se : nameset.StateEngine) (nameop : transfer.nameop) (block_id : Z)
             (checked_ops : list nameset.checked_op) (op : transfer.accepted),
        transfer.check se nameop block_id checked_ops = Some op ->
        exists name_rec,
          nameset.get_name se (transfer.a_name op) = Some name_rec
          /\ nameset.get_name_from_name_hash128 se
               (transfer.name_hash128 (transfer.fields nameop))
             = Some (transfer.a_name op)
          /\ transfer.a_sender op = transfer.recipient (transfer.fields nameop)
          /\ transfer.a_address op = transfer.recipient_address nameop
          /\ nameset.sender (transfer.commit name_rec op)
             = transfer.recipient (transfer.fields nameop)
          /\ nameset.address (transfer.commit name_rec op)
             = transfer.recipient_address nameop
          /\ (transfer.keep_data (transfer.fields nameop) = false ->
              transfer.a_value_hash op = None
              /\ nameset.value_hash (transfer.commit name_rec op) = None)
          /\ (transfer.keep_data (transfer.fields nameop) = true ->
              transfer.a_value_hash op = nameset.value_hash name_rec
              /\ nameset.value_hash (transfer.commit name_rec op)
                 = nameset.value_hash name_rec))
  /\ (forall (rest recipient : str),
        len rest = 32 ->
        (exists p, transfer.parse ("~"%char :: rest) recipient = Some p
                   /\ transfer.keep_data p = false
                   /\ transfer.recipient p = recipient)
        /\ (exists p, transfer.parse (">"%char :: rest) recipient = Some p
                      /\ transfer.keep_data p = true
                      /\ transfer.recipient p = recipient))
  /\ (forall (c : ascii) (rest recipient : str) (p : transfer.payload),
        transfer.parse (c :: rest) recipient = Some p ->
        (c = "~"%char /\ transfer.keep_data p = false)
        \/ (c = ">"%char /\ transfer.keep_data p = true))
  /\ (forall (se : nameset.StateEngine) (nameop : transfer.nameop) (block_id : Z)
             (checked_ops : list nameset.checked_op) (name : str),
        nameset.get_name_from_name_hash128 se
          (transfer.name_hash128 (transfer.fields nameop)) = Some name ->
        nameset.is_name_owner se name (transfer.sender nameop) = false
        \/ In name (nameset.get_names_owned_by_sender se
                      (transfer.recipient (transfer.fields nameop)))
        \/ MAX_NAMES_PER_SENDER
           <= len (nameset.get_names_owned_by_sender se
                     (transfer.recipient (transfer.fields nameop)))
        \/ nameset.is_consensus_hash_valid se block_id
             (transfer.consensus_hash (transfer.fields nameop)) = false
        \/ nameset.get_block_from_consensus se
             (transfer.consensus_hash (transfer.fields nameop)) = None ->
        transfer.check se nameop block_id checked_ops = None).
Proof.
  split; [|split; [|split; [|split]]].
  - intros se nameop block_id checked_ops name name_rec b
      Hn Hrec Hrdy Hrev Hexp Hch Hself Hreg Hown Hin Hq Hb.
    unfold transfer.check.
    rewrite Hn, Hrec, Hrdy, Hrev, Hexp, Hch, Hreg, Hown, Hb.
    rewrite (proj2 (str_eqb_neq _ _) Hself). cbn [negb].
    destruct (existsb (str_eqb name) _) eqn:HI;
      [apply existsb_str_eqb_In in HI; contradiction|].
    destruct (Z.leb_spec MAX_NAMES_PER_SENDER
                (len (nameset.get_names_owned_by_sender se
                        (transfer.recipient (transfer.fields nameop))))); [lia|].
    eexists. split; [reflexivity|].
    cbn [transfer.a_name transfer.a_sender transfer.a_address transfer.a_value_hash
         transfer.commit nameset.sender nameset.address nameset.value_hash].
    destruct (transfer.keep_data (transfer.fields nameop)); repeat split.
  - intros se nameop block_id checked_ops op. unfold transfer.check.
    destruct (nameset.get_name_from_name_hash128 se _) as [name|]; [|discriminate].
    destruct (nameset.get_name se name) as [name_rec|] eqn:Hrec; [|discriminate].
    repeat match goal with
           | |- (if ?c then None else _) = Some _ -> _ => destruct c; [discriminate|]
           end.
    destruct (nameset.get_block_from_consensus se _); [|discriminate].
    intros E. injection E as <-. simpl. exists name_rec.
    repeat split; try assumption;
      match goal with H : transfer.keep_data _ = _ |- _ => rewrite H; reflexivity end.
  - intros rest recipient Hlen.
    assert (Hp : forall c : ascii,
              c = "~"%char \/ c = ">"%char ->
              transfer.parse (c :: rest) recipient
              = Some {| transfer.opcode := py "NAME_TRANSFER";
                        transfer.name_hash128 := hexlify (slice (c :: rest) 1 17);
                        transfer.consensus_hash := hexlify (slice_from (c :: rest) 17);
                        transfer.recipient := recipient;
                        transfer.keep_data := negb (Ascii.eqb c "~"%char) |}).
    { intros c Hc. unfold transfer.parse.
      change (1 + LENGTHS.name_hash + LENGTHS.consensus_hash) with 33.
      change (1 + LENGTHS.name_hash) with 17.
      replace (len (c :: rest) =? 33) with true
        by (symmetry; apply Z.eqb_eq; unfold len in *; cbn [List.length]; lia).
      cbn [negb].
      change (slice (c :: rest) 0 1) with [c].
      destruct Hc as [-> | ->]; reflexivity. }
    split; eexists; (split; [apply Hp; auto | split; reflexivity]).
  - intros c rest recipient p. unfold transfer.parse.
    destruct (negb (len (c :: rest) =? _)); [discriminate|].
    change (slice (c :: rest) 0 1) with [c].
    unfold existsb, str_eqb, TRANSFER_REMOVE_DATA, TRANSFER_KEEP_DATA.
    rewrite !andb_true_r, orb_false_r.
    destruct (Ascii.eqb_spec c "~"); [subst c; simpl; intros E; injection E as <-; left; now split|].
    destruct (Ascii.eqb_spec c ">"); [subst c; simpl; intros E; injection E as <-; right; now split|].
    discriminate.
  - intros se nameop block_id checked_ops name Hname Hrej. unfold transfer.check.
    rewrite Hname.
    destruct (nameset.get_name se name) as [name_rec|]; [|reflexivity].
    repeat match goal with
           | |- (if negb (nameset.is_name_owner _ _ _) then _ else _) = _ => fail 1
           | |- (if negb (nameset.is_consensus_hash_valid _ _ _) then _ else _) = _ => fail 1
           | |- (if ?c then None else _) = None => destruct c; [reflexivity|]
           end.
    destruct (nameset.is_consensus_hash_valid se block_id _) eqn:Hvalid; [|reflexivity].
    simpl.
    repeat match goal with
           | |- (if negb (nameset.is_name_owner _ _ _) then _ else _) = _ => fail 1
           | |- (if ?c then None else _) = None => destruct c; [reflexivity|]
           end.
    destruct (nameset.is_name_owner se name _) eqn:Hown; [|reflexivity]. simpl.
    destruct (existsb (str_eqb name) _) eqn:Hin; [reflexivity|].
    destruct (Z.leb_spec MAX_NAMES_PER_SENDER
                (len (nameset.get_names_owned_by_sender se
                        (transfer.recipient (transfer.fields nameop)))));
      [reflexivity|].
    destruct (nameset.get_block_from_consensus se _) eqn:Hblock; [|reflexivity].
    exfalso. destruct Hrej as [R|[R|[R|[R|R]]]]; try discriminate; try lia.
    apply existsb_str_eqb_In in R. congruence.
Qed.

(** The transfer of [alice.test] from [script_S] to [script_R] that drops
    the data is accepted, and the committed record is owned by
    [script_R] at [addr_R] with no [value_hash]. *)
Lemma transfer_check_commit_witness :
  exists op : transfer.accepted,
    transfer.check (sample.engine None)
      (sample.transfer_op sample.script_S sample.script_R false) 110 [] = Some op
    /\ nameset.sender (transfer.commit sample.alice_rec op) = sample.script_R
    /\ nameset.address (transfer.commit sample.alice_rec op) = sample.addr_R
    /\ nameset.value_hash (transfer.commit sample.alice_rec op) = None.
Proof.
  destruct transfer_check_commit as (Haccept & _).
  destruct (Haccept (sample.engine None)
              (sample.transfer_op sample.script_S sample.script_R false) 110 []
              (py "alice.test") sample.alice_rec 109)
    as (op & Hop & _ & _ & _ & _ & Hsender & Haddress & Hvalue);
    try reflexivity.
  - apply str_eqb_neq. reflexivity.
  - intros [].
  - exists op. repeat split; assumption.
Defined.

(** C9.  [transfer.check] rejects a transfer whose sender script is the
    recipient script, whatever the state of the database. *)
Theorem transfer_check_rejects_self_transfer (se : nameset.StateEngine)
    (nameop : transfer.nameop) (block_id : Z) (checked_ops : list nameset.checked_op) :
  transfer.sender nameop = transfer.recipient (transfer.fields nameop) ->
  transfer.check se nameop block_id checked_ops = None.
Proof.
  intros E. unfold transfer.check.
  destruct (nameset.get_name_from_name_hash128 se _) as [name|]; [|reflexivity].
  destruct (nameset.get_name se name) as [name_rec|]; [|reflexivity].
  destruct (nameset.is_namespace_ready se _); [|reflexivity]. simpl.
  destruct (nameset.is_name_revoked se name); [reflexivity|].
  destruct (nameset.is_name_expired se name _); [reflexivity|].
  destruct (nameset.is_consensus_hash_valid se block_id _); [|reflexivity]. simpl.
  rewrite E, str_eqb_refl. reflexivity.
Qed.

Lemma transfer_check_rejects_self_transfer_witness :
  transfer.check (sample.engine None)
    (sample.transfer_op sample.script_S sample.script_S true) 110 [] = None.
Proof.
  apply (transfer_check_rejects_self_transfer (sample.engine None)
           (sample.transfer_op sample.script_S sample.script_S true) 110 []).
  reflexivity.
Defined.

(** The same transfer to another script is accepted: in the witness above
    the self-transfer test alone rejects the operation. *)
Example transfer_to_other_script_accepted :
  transfer.check (sample.engine None)
    (sample.transfer_op sample.script_S sample.script_R true) 110 [] <> None.
Proof. vm_compute. discriminate. Qed.

(** C10 (as stated, refuted).  A 33-byte payload whose first byte is
    neither [>] nor [~] is rejected by the blockstack parser and accepted
    by the blockstore parser. *)
Lemma transfer_parsers_disagree :
  ~ transfer_parsers_agree (sample.transfer_payload "x") sample.script_R.
Proof. vm_compute. intros []. Qed.

(** C10 (amended).  Whenever the blockstack parser accepts a payload, the
    blockstore parser accepts it too and returns the same [keep_data]
    flag, the same hexadecimal name hash (under the key ['name_hash']
    instead of ['name_hash128']) and the same hexadecimal consensus hash;
    the blockstore parser rejects no payload. *)
Theorem transfer_parsers_agree_when_blockstack_accepts :
  (forall (bin_payload recipient : str) (p : transfer.payload),
     transfer.parse bin_payload recipient = Some p ->
     exists q,
       blockstore_transfer.parse bin_payload recipient = Some q
       /\ blockstore_transfer.keep_data q = transfer.keep_data p
       /\ blockstore_transfer.name_hash q = transfer.name_hash128 p
       /\ blockstore_transfer.consensus_hash q = transfer.consensus_hash p)
  /\ (forall bin_payload recipient : str,
        blockstore_transfer.parse bin_payload recipient <> None).
Proof.
  split.
  - intros bin_payload recipient p.
    unfold transfer.parse, blockstore_transfer.parse.
    destruct (negb _); [discriminate|].
    destruct (negb (existsb _ _)); [discriminate|].
    simpl. intros E. injection E as <-. eexists. split; [reflexivity|].
    simpl. repeat split.
  - intros bin_payload recipient. unfold blockstore_transfer.parse. discriminate.
Qed.

Lemma transfer_parsers_agree_when_blockstack_accepts_witness :
  exists q,
    blockstore_transfer.parse (sample.transfer_payload "~") sample.script_R = Some q
    /\ blockstore_transfer.keep_data q = false.
Proof.
  destruct transfer_parsers_agree_when_blockstack_accepts as (Hagree & _).
  destruct (Hagree (sample.transfer_payload "~") sample.script_R
              {| transfer.opcode := py "NAME_TRANSFER";
                 transfer.name_hash128 := hexlify (repeat "001"%char 16);
                 transfer.consensus_hash := hexlify (repeat "002"%char 16);
                 transfer.recipient := sample.script_R;
                 transfer.keep_data := false |} eq_refl)
    as (q & Hq & Hkeep & _).
  exists q. split; [exact Hq | exact Hkeep].
Defined.

(** ** Lengths and slices *)

Lemma len_nil {A : Type} : len (@nil A) = 0.
Proof. reflexivity. Qed.

Lemma len_cons {A : Type} (x : A) (l : list A) : len (x :: l) = 1 + len l.
Proof. unfold len. simpl List.length. lia. Qed.

Lemma len_app {A : Type} (a b : list A) : len (a ++ b) = len a + len b.
Proof. unfold len. rewrite length_app. lia. Qed.

Lemma len_nonneg {A : Type} (l : list A) : 0 <= len l.
Proof. unfold len. lia. Qed.

Lemma len_zero_nil {A : Type} (l : list A) : len l = 0 -> l = [].
Proof. destruct l; [reflexivity | rewrite len_cons; pose proof (len_nonneg l); lia]. Qed.

Lemma slice_from_app {A : Type} (a r : list A) (k : Z) :
  len a = k -> slice_from (a ++ r) k = r.
Proof.
  intros <-. unfold slice_from, len. rewrite Nat2Z.id.
  rewrite skipn_app, skipn_all, Nat.sub_diag. reflexivity.
Qed.

Lemma slice_app_take {A : Type} (a r : list A) (k : Z) :
  len a = k -> slice (a ++ r) 0 k = a.
Proof.
  intros <-. unfold slice, len. rewrite Z.sub_0_r, Nat2Z.id. simpl.
  rewrite firstn_app, firstn_all, Nat.sub_diag. simpl. apply app_nil_r.
Qed.

Lemma slice_app_skip {A : Type} (a r : list A) (k i j : Z) :
  len a = k -> k <= i -> slice (a ++ r) i j = slice r (i - k) (j - k).
Proof.
  intros <- Hi. unfold slice, len in *.
  replace (j - Z.of_nat (List.length a) - (i - Z.of_nat (List.length a))) with (j - i) by lia.
  f_equal. rewrite skipn_app.
  rewrite skipn_all2 by lia. simpl. f_equal. lia.
Qed.

Lemma slice_from_app_skip {A : Type} (a r : list A) (k i : Z) :
  len a = k -> k <= i -> slice_from (a ++ r) i = slice_from r (i - k).
Proof.
  intros <- Hi. unfold slice_from, len in *. rewrite skipn_app.
  rewrite skipn_all2 by lia. simpl. f_equal. lia.
Qed.

(** ** Bytes and hexadecimal digits *)

Lemma ord_bounds (c : ascii) : 0 <= ord c < 256.
Proof. unfold ord. pose proof (N_ascii_bounded c). lia. Qed.

Lemma ord_chr (z : Z) : 0 <= z < 256 -> ord (chr z) = z.
Proof.
  intros Hz. unfold ord, chr. rewrite N_ascii_embedding by lia. lia.
Qed.

Lemma chr_ord (c : ascii) : chr (ord c) = c.
Proof. unfold ord, chr. rewrite N2Z.id. apply ascii_N_embedding. Qed.

Ltac nibble_cases d H :=
  unfold nibble in H;
  assert (d = 0 \/ d = 1 \/ d = 2 \/ d = 3 \/ d = 4 \/ d = 5 \/ d = 6 \/ d = 7
          \/ d = 8 \/ d = 9 \/ d = 10 \/ d = 11 \/ d = 12 \/ d = 13 \/ d = 14
          \/ d = 15) as Hcases by lia;
  repeat (destruct Hcases as [-> | Hcases]); [.. | subst d].

Lemma hexval_hex_lower (d : Z) : nibble d -> hexval (hex_lower d) = Some d.
Proof. intros H. nibble_cases d H; reflexivity. Qed.

Lemma hexval_hex_upper (d : Z) : nibble d -> hexval (hex_upper d) = Some d.
Proof. intros H. nibble_cases d H; reflexivity. Qed.


Lemma digits_of_map_lower (ds : list Z) :
  Forall nibble ds -> digits_of (map hex_lower ds) ds.
Proof.
  induction 1 as [|d ds Hd _ IH]; constructor; [|exact IH].
  split; [now apply hexval_hex_lower | exact Hd].
Qed.

Lemma digits_of_map_upper (ds : list Z) :
  Forall nibble ds -> digits_of (map hex_upper ds) ds.
Proof.
  induction 1 as [|d ds Hd _ IH]; constructor; [|exact IH].
  split; [now apply hexval_hex_upper | exact Hd].
Qed.

Lemma digits_of_app (a b : str) (da db : list Z) :
  digits_of a da -> digits_of b db -> digits_of (a ++ b) (da ++ db).
Proof. apply Forall2_app. Qed.

Lemma digits_of_length (cs : str) (ds : list Z) :
  digits_of cs ds -> List.length cs = List.length ds.
Proof. apply Forall2_length. Qed.

Lemma digits_of_no_space (cs : str) (ds : list Z) :
  digits_of cs ds -> ~ In " "%char cs.
Proof.
  induction 1 as [|c d cs ds [Hc _] _ IH]; [intros []|].
  intros [E | Hin]; [subst c; discriminate | now apply IH].
Qed.

Lemma unhexlify_digits (n : nat) : forall (cs : str) (ds : list Z) (rest : str),
  digits_of cs ds -> List.length ds = (2 * n)%nat ->
  unhexlify (cs ++ rest) = (r <- unhexlify rest ;; Ok (pack ds ++ r)).
Proof.
  induction n as [|n IH]; intros cs ds rest Hd Hlen.
  - destruct ds; [|discriminate]. inversion Hd; subst. simpl.
    destruct (unhexlify rest); reflexivity.
  - destruct Hd as [|c1 d1 cs1 ds1 [H1 _] Hd]; [discriminate|].
    destruct Hd as [|c2 d2 cs2 ds2 [H2 _] Hd]; [simpl in Hlen; lia|].
    simpl in Hlen. change ((c1 :: c2 :: cs2) ++ rest) with (c1 :: c2 :: (cs2 ++ rest)).
    cbn [unhexlify]. rewrite H1, H2, (IH cs2 ds2 rest Hd) by lia.
    destruct (unhexlify rest); reflexivity.
Qed.

Lemma unpack_nibbles (s : str) : Forall nibble (unpack s).
Proof.
  induction s as [|c s IH]; [constructor|]. unfold unpack. simpl.
  pose proof (ord_bounds c).
  constructor; [|constructor; [|exact IH]]; unfold nibble.
  - split; [apply Z.div_pos; lia | apply Z.div_lt_upper_bound; lia].
  - apply Z.mod_pos_bound. lia.
Qed.

Lemma unpack_length (s : str) : List.length (unpack s) = (2 * List.length s)%nat.
Proof. induction s as [|c s IH]; [reflexivity|]. unfold unpack in *. simpl. lia. Qed.

Lemma hexlify_unpack (s : str) : hexlify s = map hex_lower (unpack s).
Proof. induction s as [|c s IH]; [reflexivity|]. unfold unpack in *. simpl. now rewrite IH. Qed.

Lemma hexlify_digits (s : str) : digits_of (hexlify s) (unpack s).
Proof. rewrite hexlify_unpack. apply digits_of_map_lower, unpack_nibbles. Qed.

Lemma pack_unpack (s : str) : pack (unpack s) = s.
Proof.
  induction s as [|c s IH]; [reflexivity|]. unfold unpack in *.
  cbn [flat_map app pack]. rewrite IH. f_equal.
  rewrite <- (chr_ord c) at 3. f_equal. symmetry. apply Z.div_mod. lia.
Qed.

Lemma unpack_pack (n : nat) : forall ds : list Z,
  Forall nibble ds -> List.length ds = (2 * n)%nat -> unpack (pack ds) = ds.
Proof.
  induction n as [|n IH]; intros ds Hd Hlen.
  - destruct ds; [reflexivity | discriminate].
  - destruct Hd as [|d1 ds1 H1 Hd]; [discriminate|].
    destruct Hd as [|d2 ds2 H2 Hd]; [simpl in Hlen; lia|].
    simpl in Hlen. unfold unpack in *. cbn [pack flat_map app]. unfold nibble in *.
    rewrite ord_chr by lia. rewrite (IH ds2 Hd) by lia.
    f_equal; [|f_equal].
    + symmetry. apply (Z.div_unique _ 16 d1 d2); lia.
    + symmetry. apply (Z.mod_unique _ 16 d1 d2); lia.
Qed.

Lemma pack_length (n : nat) : forall ds : list Z,
  List.length ds = (2 * n)%nat -> List.length (pack ds) = n.
Proof.
  induction n as [|n IH]; intros ds Hlen.
  - destruct ds; [reflexivity | discriminate].
  - destruct ds as [|d1 [|d2 ds]]; try (simpl in Hlen; lia).
    simpl in *. f_equal. apply IH. lia.
Qed.

Lemma unhexlify_hexlify (s rest : str) :
  unhexlify (hexlify s ++ rest) = (r <- unhexlify rest ;; Ok (s ++ r)).
Proof.
  rewrite (unhexlify_digits (List.length s) _ (unpack s));
    [now rewrite pack_unpack | apply hexlify_digits | apply unpack_length].
Qed.

Lemma int16_acc_digits (cs : str) (ds : list Z) :
  digits_of cs ds -> forall acc, int16_acc acc cs = Ok (digits_value acc ds).
Proof.
  induction 1 as [|c d cs ds [Hc _] _ IH]; intros acc; [reflexivity|].
  simpl. rewrite Hc. apply IH.
Qed.

Lemma int16_hexlify (s : str) :
  s <> [] -> int16 (hexlify s) = Ok (digits_value 0 (unpack s)).
Proof.
  intros Hs. destruct s as [|c s]; [contradiction|].
  unfold int16. cbn [hexlify].
  change (hex_lower (ord c / 16) :: hex_lower (ord c mod 16) :: hexlify s)
    with (hexlify (c :: s)).
  apply int16_acc_digits, hexlify_digits.
Qed.

Lemma mapM_int16_digits (cs : str) (ds : list Z) :
  digits_of cs ds -> mapM (fun x => int16 [x]) cs = Ok ds.
Proof.
  induction 1 as [|c d cs ds [Hc _] _ IH]; [reflexivity|].
  cbn [mapM]. rewrite IH. unfold int16. cbn [int16_acc]. rewrite Hc. reflexivity.
Qed.

(** ** Formatting integers *)

Lemma nibbles_length (w : nat) : forall n, List.length (nibbles w n) = w.
Proof.
  induction w as [|w IH]; intros n; [reflexivity|].
  simpl. rewrite length_app, IH. simpl. lia.
Qed.

Lemma nibbles_nibble (w : nat) : forall n, Forall nibble (nibbles w n).
Proof.
  induction w as [|w IH]; intros n; [constructor|].
  simpl. apply Forall_app. split; [apply IH|].
  constructor; [|constructor]. apply Z.mod_pos_bound. lia.
Qed.

Lemma digits_value_app (a b : list Z) (acc : Z) :
  digits_value acc (a ++ b) = digits_value (digits_value acc a) b.
Proof. apply fold_left_app. Qed.

Lemma digits_value_nibbles (w : nat) : forall n,
  0 <= n -> digits_value 0 (nibbles w n) = n mod 16 ^ Z.of_nat w.
Proof.
  induction w as [|w IH]; intros n Hn.
  - simpl. now rewrite Z.mod_1_r.
  - cbn [nibbles]. rewrite digits_value_app, IH by (apply Z.div_pos; lia).
    cbn [digits_value fold_left].
    rewrite Nat2Z.inj_succ, Z.pow_succ_r by lia.
    rewrite Z.rem_mul_r by lia. lia.
Qed.

Lemma ndigits_le (w : nat) (n : Z) :
  (1 <= w)%nat -> 0 <= n < 16 ^ Z.of_nat w -> (ndigits n <= w)%nat.
Proof.
  intros Hw Hn. unfold ndigits.
  destruct (Z.leb_spec n 0); [exact Hw|].
  assert (Z.log2 n < 4 * Z.of_nat w).
  { apply Z.log2_lt_pow2; [lia|].
    rewrite Z.pow_mul_r by lia. exact (proj2 Hn). }
  assert (Z.log2 n / 4 < Z.of_nat w) by (apply Z.div_lt_upper_bound; lia).
  pose proof (Z.log2_nonneg n).
  assert (0 <= Z.log2 n / 4) by (apply Z.div_pos; lia).
  lia.
Qed.

Lemma format_hex_nibbles (digit : Z -> ascii) (w : nat) (n : Z) :
  (1 <= w)%nat -> 0 <= n < 16 ^ Z.of_nat w ->
  format_hex digit w n = map digit (nibbles w n).
Proof.
  intros Hw Hn. unfold format_hex.
  destruct (Z.ltb_spec n 0); [lia|].
  rewrite Z.abs_eq by lia.
  rewrite Nat.max_l by (apply ndigits_le; assumption). reflexivity.
Qed.

(** ** The NAMESPACE_REVEAL parser on a payload cut into its fields *)

Ltac zconst :=
  repeat match goal with
         | |- context [Z.add (Zpos ?a) (Zpos ?b)] =>
             let v := eval vm_compute in (Z.add (Zpos a) (Zpos b)) in
             change (Z.add (Zpos a) (Zpos b)) with v
         | |- context [Z.add Z0 (Zpos ?b)] => change (Z.add Z0 (Zpos b)) with (Zpos b)
         | |- context [Z.sub (Zpos ?a) (Zpos ?b)] =>
             let v := eval vm_compute in (Z.sub (Zpos a) (Zpos b)) in
             change (Z.sub (Zpos a) (Zpos b)) with v
         end.

Ltac slices :=
  repeat first
    [ rewrite slice_app_take by eassumption
    | erewrite slice_app_skip; [ | eassumption | lia ]; zconst
    | erewrite slice_from_app by eassumption
    | erewrite slice_from_app_skip; [ | eassumption | lia ]; zconst ].

Lemma len_nonempty {A : Type} (l : list A) : 0 < len l -> l <> [].
Proof. intros Hpos ->. unfold len in Hpos. simpl in Hpos. lia. Qed.

Lemma nonempty_len {A : Type} (l : list A) : l <> [] -> 0 < len l.
Proof. destruct l; [contradiction|]. rewrite len_cons. pose proof (len_nonneg l). lia. Qed.

Lemma namespacereveal_parse_fields `{Externals}
    (a1 a2 a3 a4 : str) (c : ascii) (a6 ns sender_script recipient_address : str) :
  len a1 = 4 -> len a2 = 1 -> len a3 = 1 -> len a4 = 8 -> len a6 = 2 -> ns <> [] ->
  namespacereveal.parse (a1 ++ a2 ++ a3 ++ a4 ++ [c] ++ a6 ++ ns)
    sender_script recipient_address =
  match hash_name ns sender_script recipient_address with
  | Raise _ => Ok None
  | Ok h =>
      match namespacereveal.namespacereveal_sanity_check ns
              (digits_value 0 (unpack a6)) (digits_value 0 (unpack a1))
              (digits_value 0 (unpack a2)) (digits_value 0 (unpack a3))
              (unpack a4) (ord c / 16) (ord c mod 16) with
      | Raise _ => Ok None
      | Ok false => Ok None
      | Ok true =>
          Ok (Some {| nameset.opcode := py "NAMESPACE_REVEAL";
                      nameset.lifetime := digits_value 0 (unpack a1);
                      nameset.coeff := digits_value 0 (unpack a2);
                      nameset.base := digits_value 0 (unpack a3);
                      nameset.buckets := unpack a4;
                      nameset.version := digits_value 0 (unpack a6);
                      nameset.nonalpha_discount := ord c / 16;
                      nameset.no_vowel_discount := ord c mod 16;
                      nameset.namespace_id := ns;
                      nameset.preorder_hash := h |})
      end
  end.
Proof.
  intros H1 H2 H3 H4 H6 Hns.
  pose proof (nonempty_len ns Hns) as Hnslen.
  unfold namespacereveal.parse.
  assert (Hshort : (len (a1 ++ a2 ++ a3 ++ a4 ++ [c] ++ a6 ++ ns)
                    <? MIN_OP_LENGTHS.namespace_reveal) = false).
  { apply Z.ltb_ge. rewrite !len_app, H1, H2, H3, H4, H6.
    change (len [c]) with 1. vm_compute (MIN_OP_LENGTHS.namespace_reveal). lia. }
  rewrite Hshort.
  assert (Hc1 : len [c] = 1) by reflexivity.
  cbv [LENGTHS.blockchain_id_namespace_life LENGTHS.blockchain_id_namespace_coeff
       LENGTHS.blockchain_id_namespace_base LENGTHS.blockchain_id_namespace_buckets
       LENGTHS.blockchain_id_namespace_discounts
       LENGTHS.blockchain_id_namespace_version].
  zconst. slices.
  rewrite !int16_hexlify by (apply len_nonempty; lia).
  cbn [bind].
  destruct (hash_name ns sender_script recipient_address) as [h|]; [|reflexivity].
  rewrite (mapM_int16_digits _ _ (hexlify_digits a4)).
  cbn [bind hexlify index len List.length Z.of_nat Z.ltb Z.compare nth_error Z.to_nat].
  unfold int16. cbn [int16_acc].
  pose proof (unpack_nibbles [c]) as Hc. unfold unpack in Hc. cbn [flat_map app] in Hc.
  inversion Hc as [|? ? Hhi Hc']; subst. inversion Hc' as [|? ? Hlo _]; subst.
  rewrite (hexval_hex_lower _ Hhi). cbn [bind int16_acc].
  change (Pos.to_nat 1) with 1%nat. cbn [nth_error bind].
  rewrite (hexval_hex_lower _ Hlo).
  cbn [bind]. change (16 * 0 + ord c / 16) with (ord c / 16).
  change (16 * 0 + ord c mod 16) with (ord c mod 16).
  reflexivity.
Qed.

Lemma split_at {A : Type} (l : list A) (k : Z) :
  0 <= k <= len l -> exists a r, l = a ++ r /\ len a = k.
Proof.
  intros Hk. exists (firstn (Z.to_nat k) l), (skipn (Z.to_nat k) l). split.
  - symmetry. apply firstn_skipn.
  - unfold len in *. rewrite length_firstn. lia.
Qed.

Lemma len_one {A : Type} (l : list A) : len l = 1 -> exists x, l = [x].
Proof.
  destruct l as [|x [|y l]]; unfold len; simpl; intros E; try lia.
  now exists x.
Qed.

Lemma namespacereveal_parse_returns `{Externals}
    (bin_payload sender_script recipient_address : str) :
  MIN_OP_LENGTHS.namespace_reveal <= len bin_payload ->
  exists o, namespacereveal.parse bin_payload sender_script recipient_address = Ok o.
Proof.
  change MIN_OP_LENGTHS.namespace_reveal with 18. intros Hlen.
  destruct (split_at bin_payload 4) as (a1 & r1 & -> & H1); [lia|].
  rewrite len_app in Hlen.
  destruct (split_at r1 1) as (a2 & r2 & -> & H2); [lia|].
  rewrite len_app in Hlen.
  destruct (split_at r2 1) as (a3 & r3 & -> & H3); [lia|].
  rewrite len_app in Hlen.
  destruct (split_at r3 8) as (a4 & r4 & -> & H4); [lia|].
  rewrite len_app in Hlen.
  destruct (split_at r4 1) as (a5 & r5 & -> & H5); [lia|].
  rewrite len_app in Hlen.
  destruct (split_at r5 2) as (a6 & ns & -> & H6); [lia|].
  rewrite len_app in Hlen.
  destruct (len_one a5 H5) as [c ->].
  rewrite namespacereveal_parse_fields by (try assumption; apply len_nonempty; lia).
  destruct (hash_name ns sender_script recipient_address); [|eexists; reflexivity].
  destruct (namespacereveal.namespacereveal_sanity_check _ _ _ _ _ _ _ _) as [[|]|];
    eexists; reflexivity.
Qed.

(** ** Names *)

Lemma count_nonneg (c : ascii) (s : str) : 0 <= count c s.
Proof. induction s as [|x s IH]; simpl; [lia|]. destruct (Ascii.eqb x c); lia. Qed.

Lemma count_app (c : ascii) (a b : str) : count c (a ++ b) = count c a + count c b.
Proof. induction a as [|x a IH]; simpl; [reflexivity|]. rewrite IH. lia. Qed.

Lemma count_zero_iff (c : ascii) (s : str) : count c s = 0 <-> contains c s = false.
Proof.
  induction s as [|x s IH]; simpl; [tauto|].
  pose proof (count_nonneg c s).
  destruct (Ascii.eqb x c); cbn [orb].
  - split; [lia | discriminate].
  - rewrite Z.add_0_l. exact IH.
Qed.

Lemma split_no_sep (sep : ascii) (s : str) :
  contains sep s = false -> split sep s = [s].
Proof.
  induction s as [|x s IH]; simpl; [reflexivity|].
  destruct (Ascii.eqb x sep); simpl; [discriminate|].
  intros E. now rewrite (IH E).
Qed.

Lemma split_app_sep (sep : ascii) (a r : str) :
  contains sep a = false -> split sep (a ++ sep :: r) = a :: split sep r.
Proof.
  induction a as [|x a IH]; simpl.
  - intros _. now rewrite Ascii.eqb_refl.
  - destruct (Ascii.eqb x sep); simpl; [discriminate|].
    intros E. now rewrite (IH E).
Qed.

Lemma len_hexlify (s : str) : len (hexlify s) = 2 * len s.
Proof.
  induction s as [|c s IH]; [reflexivity|].
  cbn [hexlify]. rewrite !len_cons, IH. lia.
Qed.

Lemma len_split (sep : ascii) (s : str) :
  len s = sum (map len (split sep s)) + len (split sep s) - 1.
Proof.
  induction s as [|x s IH]; [reflexivity|].
  pose proof (len_nonneg s) as Hs.
  cbn [split]. destruct (Ascii.eqb x sep).
  - cbn [map sum fold_right]. fold (sum (map len (split sep s))).
    rewrite !len_cons. change (len (@nil ascii)) with 0. lia.
  - destruct (split sep s) as [|h r].
    + cbn [map sum fold_right] in *. change (len (@nil str)) with 0 in IH. lia.
    + cbn [map sum fold_right] in *. fold (sum (map len r)) in *.
      rewrite !len_cons in *. lia.
Qed.

(** A name [is_name_valid] accepts has at least three bytes: the two
    parts and the separator. *)
Lemma is_name_valid_min_length (fqn : str) : is_name_valid fqn = true -> 3 <= len fqn.
Proof.
  unfold is_name_valid.
  destruct (negb (count "." fqn =? 1)); [discriminate|].
  pose proof (len_split "." fqn) as Hlen.
  destruct (split "." fqn) as [|name [|namespace_id [|? ?]]]; try discriminate.
  destruct (Z.eqb_spec (len name) 0); [discriminate|].
  destruct (Z.eqb_spec (len namespace_id) 0); [discriminate|].
  intros _. cbn [map sum fold_right] in Hlen. rewrite !len_cons in Hlen.
  change (len (@nil str)) with 0 in Hlen.
  pose proof (len_nonneg name). pose proof (len_nonneg namespace_id). lia.
Qed.

(** C8 (as stated, refuted).  No string of one or two bytes is
    accepted: a fully-qualified name has a name, a ['.'] and a
    namespace identifier. *)
Lemma is_name_valid_rejects_one_byte :
  is_name_valid (py "a") = false
  /\ is_name_valid (py ".") = false
  /\ is_name_valid (py "a.") = false
  /\ is_name_valid (py ".a") = false.
Proof. split; [reflexivity | split; [reflexivity | split; reflexivity]]. Qed.

(** C8 (amended).  [is_name_valid] accepts every fully-qualified name
    made of a non-empty base-40 name, one ['.'] and a non-empty base-40
    namespace identifier, neither part containing ['+'] or ['.'], whose
    length is at most 37 bytes; it rejects every string of 38 bytes or
    more and every string of fewer than 3 bytes, so that the names it
    accepts have 3 to 37 bytes; [a.b] is accepted. *)
Theorem is_name_valid_lengths :
  (forall name namespace_id : str,
     name <> [] -> namespace_id <> [] ->
     is_b40 name = true -> contains "+" name = false -> contains "." name = false ->
     is_b40 namespace_id = true -> contains "+" namespace_id = false ->
     contains "." namespace_id = false ->
     len (name ++ "."%char :: namespace_id) <= 37 ->
     is_name_valid (name ++ "."%char :: namespace_id) = true)
  /\ (forall fqn : str, 38 <= len fqn -> is_name_valid fqn = false)
  /\ (forall fqn : str, len fqn < 3 -> is_name_valid fqn = false)
  /\ (forall fqn : str, is_name_valid fqn = true -> 3 <= len fqn <= 37)
  /\ is_name_valid (py "a.b") = true.
Proof.
  assert (Hlong : forall fqn : str, 38 <= len fqn -> is_name_valid fqn = false).
  { intros fqn Hlen. unfold is_name_valid.
    destruct (negb (count "." fqn =? 1)); [reflexivity|].
    destruct (split "." fqn) as [|name [|namespace_id [|? ?]]]; try reflexivity.
    repeat match goal with
           | |- (if ?c then false else if _ then _ else _) = false =>
               destruct c; [reflexivity|]
           end.
    rewrite len_hexlify.
    destruct (Z.ltb_spec (LENGTHS.blockchain_id_name * 2) (2 * len fqn)); [reflexivity|].
    change LENGTHS.blockchain_id_name with 37 in *. lia. }
  split; [|split; [exact Hlong | split; [|split; [|reflexivity]]]].
  - intros name ns Hname Hns Hb1 Hp1 Hd1 Hb2 Hp2 Hd2 Hlen.
    unfold is_name_valid.
    rewrite count_app. cbn [count]. rewrite Ascii.eqb_refl.
    rewrite (proj2 (count_zero_iff _ _) Hd1), (proj2 (count_zero_iff _ _) Hd2).
    cbn [Z.add Z.eqb negb].
    rewrite (split_app_sep _ _ _ Hd1), (split_no_sep _ _ Hd2).
    pose proof (nonempty_len _ Hname). pose proof (nonempty_len _ Hns).
    destruct (Z.eqb_spec (len name) 0); [lia|].
    destruct (Z.eqb_spec (len ns) 0); [lia|].
    rewrite Hb1, Hp1, Hd1, Hb2, Hp2, Hd2. cbn [negb orb].
    rewrite len_hexlify.
    destruct (Z.ltb_spec (LENGTHS.blockchain_id_name * 2)
                (2 * len (name ++ "."%char :: ns))); [|reflexivity].
    change LENGTHS.blockchain_id_name with 37 in *. lia.
  - intros fqn Hlen. destruct (is_name_valid fqn) eqn:E; [|reflexivity].
    apply is_name_valid_min_length in E. lia.
  - intros fqn Hv. split; [now apply is_name_valid_min_length|].
    destruct (Z.leb_spec 38 (len fqn)) as [Hl|]; [|lia].
    rewrite (Hlong fqn Hl) in Hv. discriminate.
Qed.

Lemma is_name_valid_lengths_witness :
  is_name_valid (py "abcdefghijklmnopqrstuvwxyz012345.test") = true.
Proof.
  destruct is_name_valid_lengths as (Haccept & _).
  refine (Haccept (py "abcdefghijklmnopqrstuvwxyz012345") (py "test")
            _ _ _ _ _ _ _ _ _).
  - vm_compute. discriminate.
  - vm_compute. discriminate.
  - reflexivity.
  - reflexivity.
  - reflexivity.
  - reflexivity.
  - reflexivity.
  - reflexivity.
  - vm_compute. discriminate.
Defined.

(** C6 (as stated, refuted).  [namespacereveal.parse] raises on the empty
    payload. *)
Lemma namespacereveal_parse_raises :
  @namespacereveal.parse sample.externals [] sample.script_S sample.addr_R
  = Raise (AssertionError "Payload is too short to be a namespace reveal").
Proof. reflexivity. Qed.

(** What [namespaceready.parse] accepts. *)
Lemma namespaceready_parse_iff (bin_payload : str) (p : namespaceready.payload) :
  namespaceready.parse bin_payload = Some p
  <-> bin_payload = "."%char :: namespaceready.namespace_id p
      /\ namespaceready.opcode p = py "NAMESPACE_READY"
      /\ ready_id_ok (namespaceready.namespace_id p).
Proof.
  unfold namespaceready.parse, ready_id_ok.
  change LENGTHS.blockchain_id_namespace_id with 19. split.
  - intros Hp. destruct bin_payload as [|c id]; [discriminate|].
    destruct (len (c :: id) =? 0); [discriminate|].
    destruct (Ascii.eqb_spec c "."%char) as [->|]; [|discriminate].
    cbn [negb] in Hp. change (slice_from ("."%char :: id) 1) with id in Hp.
    destruct (is_b40 id) eqn:Hb; [|discriminate].
    destruct (contains "+" id) eqn:Hplus; [discriminate|]. cbn [negb orb] in Hp.
    destruct (Z.ltb_spec 0 (count "." id)); [discriminate|].
    destruct (Z.leb_spec (len id) 0); [discriminate|].
    destruct (Z.ltb_spec 19 (len id)); [discriminate|].
    cbn [orb] in Hp. injection Hp as <-. cbn.
    pose proof (count_nonneg "." id).
    repeat split; try assumption; try lia. apply count_zero_iff. lia.
  - destruct p as [op id]. cbn [namespaceready.namespace_id namespaceready.opcode].
    intros (-> & -> & Hb & Hplus & Hd & Hl).
    change (slice_from ("."%char :: id) 1) with id.
    rewrite len_cons. pose proof (len_nonneg id).
    destruct (Z.eqb_spec (1 + len id) 0); [lia|].
    rewrite Ascii.eqb_refl, Hb, Hplus, (proj2 (count_zero_iff _ _) Hd).
    cbn [negb orb Z.ltb Z.compare].
    destruct (Z.leb_spec (len id) 0); [lia|].
    destruct (Z.ltb_spec 19 (len id)); [lia|]. reflexivity.
Qed.

(** C6 (amended).  The parsers of NAME_PREORDER, NAME_TRANSFER and
    NAMESPACE_READY payloads return a record or [None] and raise
    nothing.  NAME_PREORDER's returns [None] on every payload whose
    length is not 36 and a record on the others; NAME_TRANSFER's returns
    [None] on every payload whose length is not 33 or whose first byte is
    neither [>] nor [~], and a record on the others; NAMESPACE_READY's
    returns [None] on the empty payload, on a payload that does not start
    with ['.'] and on one whose identifier after the ['.'] is not a
    base-40 string of 1 to 19 bytes without ['+'] or ['.'], and a record
    on the others.  The NAMESPACE_REVEAL parser raises [AssertionError]
    on a payload shorter than 18 bytes and returns (a record or [None])
    on every other payload. *)
Theorem parsers_reject_malformed_payloads :
  (forall bin_payload : str,
     len bin_payload <> 36 -> preorder.parse bin_payload = None)
  /\ (forall bin_payload recipient : str,
        len bin_payload <> 33 -> transfer.parse bin_payload recipient = None)
  /\ (forall (c : ascii) (rest recipient : str),
        c <> ">"%char -> c <> "~"%char -> transfer.parse (c :: rest) recipient = None)
  /\ (forall (E : Externals) (bin_payload sender_script recipient_address : str),
        len bin_payload < 18 ->
        namespacereveal.parse bin_payload sender_script recipient_address
        = Raise (AssertionError "Payload is too short to be a namespace reveal"))
  /\ (forall (E : Externals) (bin_payload sender_script recipient_address : str),
        18 <= len bin_payload ->
        exists o,
          namespacereveal.parse bin_payload sender_script recipient_address = Ok o)
  /\ (forall bin_payload : str,
        len bin_payload = 36 ->
        exists p, preorder.parse bin_payload = Some p)
  /\ (forall (c : ascii) (rest recipient : str),
        len (c :: rest) = 33 -> c = ">"%char \/ c = "~"%char ->
        exists p, transfer.parse (c :: rest) recipient = Some p)
  /\ namespaceready.parse [] = None
  /\ (forall (c : ascii) (rest : str),
        c <> "."%char -> namespaceready.parse (c :: rest) = None)
  /\ (forall namespace_id : str,
        ~ ready_id_ok namespace_id ->
        namespaceready.parse ("."%char :: namespace_id) = None)
  /\ (forall namespace_id : str,
        ready_id_ok namespace_id ->
        namespaceready.parse ("."%char :: namespace_id)
        = Some {| namespaceready.opcode := py "NAMESPACE_READY";
                  namespaceready.namespace_id := namespace_id |}).
Proof.
  split; [|split; [|split; [|split; [|split; [|split; [|split; [|split;
    [|split; [|split]]]]]]]]].
  - intros b Hb. unfold preorder.parse.
    change (LENGTHS.preorder_name_hash + LENGTHS.consensus_hash) with 36.
    destruct (Z.eqb_spec (len b) 36); [contradiction | reflexivity].
  - intros b r Hb. unfold transfer.parse.
    change (1 + LENGTHS.name_hash + LENGTHS.consensus_hash) with 33.
    destruct (Z.eqb_spec (len b) 33); [contradiction | reflexivity].
  - intros c rest r Hkeep Hremove. unfold transfer.parse.
    destruct (negb (len (c :: rest) =? _)); [reflexivity|].
    change (slice (c :: rest) 0 1) with [c].
    unfold existsb, str_eqb, TRANSFER_REMOVE_DATA, TRANSFER_KEEP_DATA.
    rewrite !andb_true_r, orb_false_r.
    destruct (Ascii.eqb_spec c "~"); [contradiction|].
    destruct (Ascii.eqb_spec c ">"); [contradiction|]. reflexivity.
  - intros E b s r Hb. unfold namespacereveal.parse.
    change MIN_OP_LENGTHS.namespace_reveal with 18.
    destruct (Z.ltb_spec (len b) 18); [reflexivity | lia].
  - intros E b s r Hb. now apply namespacereveal_parse_returns.
  - intros b Hb. unfold preorder.parse.
    change (LENGTHS.preorder_name_hash + LENGTHS.consensus_hash) with 36.
    rewrite Hb. eexists. reflexivity.
  - intros c rest r Hlen Hc. unfold transfer.parse.
    change (1 + LENGTHS.name_hash + LENGTHS.consensus_hash) with 33.
    rewrite Hlen. cbn [Z.eqb Pos.eqb negb].
    change (slice (c :: rest) 0 1) with [c].
    destruct Hc as [-> | ->]; eexists; reflexivity.
  - reflexivity.
  - intros c rest Hc. unfold namespaceready.parse.
    destruct (len (c :: rest) =? 0); [reflexivity|].
    destruct (Ascii.eqb_spec c "."%char); [contradiction | reflexivity].
  - intros id Hid.
    destruct (namespaceready.parse ("."%char :: id)) as [p|] eqn:Hp; [|reflexivity].
    apply namespaceready_parse_iff in Hp. destruct Hp as (E & _ & Hok).
    injection E as ->. contradiction.
  - intros id Hid. apply namespaceready_parse_iff. repeat split; apply Hid.
Qed.

Lemma parsers_reject_malformed_payloads_witness :
  preorder.parse (py "too short") = None
  /\ namespaceready.parse (py "xyz") = None.
Proof.
  destruct parsers_reject_malformed_payloads
    as (Hpreorder & _ & _ & _ & _ & _ & _ & _ & Hdot & _).
  split.
  - apply (Hpreorder (py "too short")). vm_compute. discriminate.
  - apply (Hdot "x"%char (py "yz")). discriminate.
Defined.

(** ** Floats *)

(** On the arguments below the model computes what the Standard Library's
    specification of binary64 computes. *)
Example float_model_matches_binary64 :
  let b64 (z : Z) := binary_normalize 53 1024 z 0 false in
  let model (n d : Z) :=
    match Float.div (Float.of_Z n) (Float.of_Z d) with
    | Some q => Float.to_spec (Float.mul q (Float.of_Z 100))
    | None => S754_nan
    end in
  Forall (fun '(n, d) =>
            model n d = SFmul 53 1024 (SFdiv 53 1024 (b64 n) (b64 d)) (b64 100))
    [(3, 2); (69, 15); (1, 15); (256, 1); (255 * 255 ^ 15, 7); (255 ^ 16, 13)].
Proof. cbv zeta. repeat constructor; vm_compute; reflexivity. Qed.

Lemma round_ratio_Fnum (neg : bool) (n d s : Z) :
  exists m e, Float.round_ratio neg n d s = Float.Fnum neg m e.
Proof.
  unfold Float.round_ratio.
  destruct (Float.scale2 n d s) as [N D].
  destruct (Float.scale2 N D _) as [N' D'].
  match goal with |- context [if ?c then _ else _] => destruct c end;
    eexists; eexists; reflexivity.
Qed.

Lemma of_Z_nonzero (z : Z) : z <> 0 -> exists neg m e, Float.of_Z z = Float.Fnum neg m e.
Proof.
  intros Hz. unfold Float.of_Z. destruct (Z.eqb_spec z 0); [contradiction|].
  destruct (round_ratio_Fnum (z <? 0) (Z.abs z) 1 0) as (m & e & ->).
  now exists (z <? 0), m, e.
Qed.

(** The test [price < z] and the truncation [int(price)] agree. *)
Lemma ltb_Z_trunc (p : Float.float) (z : Z) :
  if Float.ltb_Z p z then Float.trunc p <= z else z <= Float.trunc p.
Proof.
  destruct p as [|neg m e]; simpl.
  - destruct (Z.ltb_spec 0 z); lia.
  - destruct (Z.leb_spec 0 e).
    + destruct neg.
      * replace (- m * 2 ^ e) with (- (m * 2 ^ e)) by ring.
        destruct (Z.ltb_spec (- (m * 2 ^ e)) z); lia.
      * destruct (Z.ltb_spec (m * 2 ^ e) z); lia.
    + assert (HP : 0 < 2 ^ (- e)) by (apply Z.pow_pos_nonneg; lia).
      set (P := 2 ^ (- e)) in *.
      destruct neg.
      * destruct (Z.ltb_spec (- m) (z * P)).
        -- assert (- z <= m / P) by (apply Z.div_le_lower_bound; lia). lia.
        -- assert (m / P <= - z) by (apply Z.div_le_upper_bound; lia). lia.
      * destruct (Z.ltb_spec m (z * P)).
        -- assert (m / P < z) by (apply Z.div_lt_upper_bound; lia). lia.
        -- assert (z <= m / P) by (apply Z.div_le_lower_bound; lia). lia.
Qed.


Lemma log2_bounds (k : Z) : 0 < k < 2 ^ 53 -> 0 <= Z.log2 k <= 52.
Proof.
  intros Hk. split; [apply Z.log2_nonneg|].
  assert (Z.log2 k < 53) by (apply Z.log2_lt_pow2; lia). lia.
Qed.

(** Rounding is exact on an integer below [2^53]. *)
Lemma round_ratio_exact (neg : bool) (n d s N D k : Z) :
  Float.scale2 n d s = (N, D) -> 0 < D -> N = k * D -> 0 < k < 2 ^ 53 ->
  Float.round_ratio neg n d s = canon neg k.
Proof.
  intros Hscale HD -> Hk. unfold Float.round_ratio. rewrite Hscale.
  pose proof (log2_bounds k Hk) as HL.
  assert (Hlog : Float.ilog2 (k * D) D = Z.log2 k).
  { unfold Float.ilog2. destruct (Z.leb_spec D (k * D)); [|nia].
    now rewrite Z.div_mul by lia. }
  rewrite Hlog. unfold Float.scale2.
  replace (- (Z.log2 k - 52)) with (52 - Z.log2 k) by lia.
  destruct (Z.leb_spec 0 (52 - Z.log2 k)); [|lia].
  set (P := 2 ^ (52 - Z.log2 k)).
  assert (HP : 0 < P) by (apply Z.pow_pos_nonneg; lia).
  replace (k * D * P) with (k * P * D) by ring.
  rewrite Z.div_mul, Z.mod_mul by lia.
  destruct (Z.ltb_spec (2 * 0) D); [|lia].
  assert (Hlt : k * P < 2 ^ 53).
  { destruct (Z.log2_spec k) as [_ Hup]; [lia|].
    replace (2 ^ 53) with (2 ^ Z.succ (Z.log2 k) * P).
    - apply Z.mul_lt_mono_pos_r; assumption.
    - unfold P. rewrite <- Z.pow_add_r by lia. f_equal. lia. }
  destruct (Z.eqb_spec (k * P) (2 ^ 53)); [lia|]. reflexivity.
Qed.

Lemma of_Z_canon (k : Z) : 0 < k < 2 ^ 53 -> Float.of_Z k = canon false k.
Proof.
  intros Hk. unfold Float.of_Z.
  destruct (Z.eqb_spec k 0); [lia|].
  destruct (Z.ltb_spec k 0); [lia|].
  rewrite Z.abs_eq by lia.
  apply (round_ratio_exact false k 1 0 (k * 2 ^ 0) 1 k); try reflexivity; lia.
Qed.

Lemma div_canon (n d q : Z) :
  0 < d < 2 ^ 53 -> 0 < q -> n = q * d -> n < 2 ^ 53 ->
  Float.div (canon false n) (canon false d) = Some (canon false q).
Proof.
  intros Hd Hq -> Hn. unfold canon at 1 2. cbn [Float.div xorb]. f_equal.
  assert (Hqd : 0 < q * d < 2 ^ 53) by nia.
  assert (Hq' : 0 < q < 2 ^ 53) by nia.
  pose proof (log2_bounds _ Hqd) as HLn. pose proof (log2_bounds _ Hd) as HLd.
  set (Ln := Z.log2 (q * d)) in *. set (Ld := Z.log2 d) in *.
  destruct (Z.leb_spec 0 (Ln - 52 - (Ld - 52))) as [Hs | Hs].
  - apply (round_ratio_exact false _ _ _
             (q * d * 2 ^ (52 - Ln) * 2 ^ (Ln - 52 - (Ld - 52))) (d * 2 ^ (52 - Ld)) q).
    + unfold Float.scale2. destruct (Z.leb_spec 0 (Ln - 52 - (Ld - 52))); [reflexivity | lia].
    + apply Z.mul_pos_pos; [lia | apply Z.pow_pos_nonneg; lia].
    + replace (q * d * 2 ^ (52 - Ln) * 2 ^ (Ln - 52 - (Ld - 52)))
        with (q * d * (2 ^ (52 - Ln) * 2 ^ (Ln - 52 - (Ld - 52)))) by ring.
      rewrite <- Z.pow_add_r by lia.
      replace (52 - Ln + (Ln - 52 - (Ld - 52))) with (52 - Ld) by lia. ring.
    + exact Hq'.
  - apply (round_ratio_exact false _ _ _
             (q * d * 2 ^ (52 - Ln)) (d * 2 ^ (52 - Ld) * 2 ^ (- (Ln - 52 - (Ld - 52)))) q).
    + unfold Float.scale2. destruct (Z.leb_spec 0 (Ln - 52 - (Ld - 52))); [lia | reflexivity].
    + repeat apply Z.mul_pos_pos; try lia; apply Z.pow_pos_nonneg; lia.
    + replace (d * 2 ^ (52 - Ld) * 2 ^ (- (Ln - 52 - (Ld - 52))))
        with (d * (2 ^ (52 - Ld) * 2 ^ (- (Ln - 52 - (Ld - 52))))) by ring.
      rewrite <- Z.pow_add_r by lia.
      replace (52 - Ld + - (Ln - 52 - (Ld - 52))) with (52 - Ln) by lia. ring.
    + exact Hq'.
Qed.

Lemma mul_canon (a b : Z) :
  0 < a -> 0 < b -> a * b < 2 ^ 53 ->
  Float.mul (canon false a) (canon false b) = canon false (a * b).
Proof.
  intros Ha Hb Hab. unfold canon at 1 2. cbn [Float.mul xorb].
  assert (Ha' : 0 < a < 2 ^ 53) by nia.
  assert (Hb' : 0 < b < 2 ^ 53) by nia.
  pose proof (log2_bounds _ Ha') as HLa. pose proof (log2_bounds _ Hb') as HLb.
  set (La := Z.log2 a) in *. set (Lb := Z.log2 b) in *.
  destruct (Z.leb_spec 0 (La - 52 + (Lb - 52))) as [Hs | Hs].
  - assert (La = 52) by lia. assert (Lb = 52) by lia.
    apply (round_ratio_exact false _ _ _
             (a * 2 ^ (52 - La) * (b * 2 ^ (52 - Lb)) * 2 ^ (La - 52 + (Lb - 52))) 1 (a * b)).
    + unfold Float.scale2. destruct (Z.leb_spec 0 (La - 52 + (Lb - 52))); [reflexivity | lia].
    + lia.
    + replace (52 - La) with 0 by lia. replace (52 - Lb) with 0 by lia.
      replace (La - 52 + (Lb - 52)) with 0 by lia. change (2 ^ 0) with 1. ring.
    + nia.
  - apply (round_ratio_exact false _ _ _
             (a * 2 ^ (52 - La) * (b * 2 ^ (52 - Lb))) (1 * 2 ^ (- (La - 52 + (Lb - 52))))
             (a * b)).
    + unfold Float.scale2. destruct (Z.leb_spec 0 (La - 52 + (Lb - 52))); [lia | reflexivity].
    + rewrite Z.mul_1_l. apply Z.pow_pos_nonneg; lia.
    + replace (- (La - 52 + (Lb - 52))) with ((52 - La) + (52 - Lb)) by lia.
      rewrite Z.pow_add_r by lia. ring.
    + nia.
Qed.

Lemma trunc_canon (k : Z) : 0 < k < 2 ^ 53 -> Float.trunc (canon false k) = k.
Proof.
  intros Hk. pose proof (log2_bounds k Hk). unfold canon, Float.trunc.
  destruct (Z.leb_spec 0 (Z.log2 k - 52)).
  - replace (Z.log2 k - 52) with 0 by lia. replace (52 - Z.log2 k) with 0 by lia.
    change (2 ^ 0) with 1. lia.
  - replace (- (Z.log2 k - 52)) with (52 - Z.log2 k) by lia.
    apply Z.div_mul. apply Z.pow_nonzero; lia.
Qed.

(** When the divisor divides the dividend and the product with the unit
    stays below [2^53], the float computation is exact. *)
Lemma float_price_exact (n d : Z) :
  0 <= n -> 0 < d < 2 ^ 53 -> (d | n) -> n * NAME_COST_UNIT < 2 ^ 53 ->
  float_price n d = Z.max NAME_COST_UNIT (n / d * NAME_COST_UNIT).
Proof.
  intros Hn Hd [q ->] Hbound. unfold NAME_COST_UNIT in *.
  rewrite Z.div_mul by lia. unfold float_price.
  destruct (Z.eq_dec q 0) as [-> | Hq].
  - rewrite (of_Z_canon d Hd). reflexivity.
  - assert (0 < q) by nia.
    assert (Hqd : 0 < q * d < 2 ^ 53) by nia.
    rewrite (of_Z_canon _ Hqd), (of_Z_canon d Hd).
    rewrite (div_canon (q * d) d q) by (try reflexivity; lia).
    unfold NAME_COST_UNIT. rewrite (of_Z_canon 100) by (split; reflexivity).
    rewrite mul_canon by nia. rewrite trunc_canon by nia. reflexivity.
Qed.

(** ** The price of a name *)

Lemma index_nth {A : Type} (l : list A) (i : Z) (d : A) :
  0 <= i < len l -> index l i = Ok (nth (Z.to_nat i) l d).
Proof.
  intros Hi. unfold index.
  destruct (Z.ltb_spec i 0); [lia|]. destruct (Z.ltb_spec i 0); [lia|].
  destruct (nth_error l (Z.to_nat i)) eqn:E.
  - f_equal. symmetry. now apply nth_error_nth.
  - apply nth_error_None in E. unfold len in Hi. lia.
Qed.

Lemma index_last {A : Type} (l : list A) (d : A) :
  0 < len l -> index l (-1) = Ok (nth (Z.to_nat (len l - 1)) l d).
Proof.
  intros Hl. unfold index. change (-1 <? 0) with true. cbv iota.
  replace (-1 + len l) with (len l - 1) by lia.
  destruct (Z.ltb_spec (len l - 1) 0); [lia|].
  destruct (nth_error l (Z.to_nat (len l - 1))) eqn:E.
  - f_equal. symmetry. now apply nth_error_nth.
  - apply nth_error_None in E. unfold len in *. lia.
Qed.

Lemma sum_counts_nonneg (s : str) (vs : list ascii) :
  0 <= sum (map (fun v => count v s) vs).
Proof.
  induction vs as [|v vs IH]; [cbn; lia|].
  cbn [map sum fold_right]. fold (sum (map (fun v => count v s) vs)).
  pose proof (count_nonneg v s). lia.
Qed.

Lemma sum_counts_zero (s : str) (vs : list ascii) :
  (sum (map (fun v => count v s) vs) =? 0) = negb (existsb (fun v => contains v s) vs).
Proof.
  induction vs as [|v vs IH]; [reflexivity|].
  cbn [map sum fold_right existsb]. fold (sum (map (fun v => count v s) vs)).
  pose proof (count_nonneg v s). pose proof (sum_counts_nonneg s vs).
  destruct (contains v s) eqn:Hc; cbn [orb negb].
  - destruct (Z.eqb_spec (count v s + sum (map (fun v0 => count v0 s) vs)) 0);
      [|reflexivity].
    assert (count v s = 0) by lia. apply count_zero_iff in H1. congruence.
  - apply count_zero_iff in Hc. rewrite Hc, Z.add_0_l. exact IH.
Qed.

Lemma sum_counts_pos (s : str) (vs : list ascii) :
  (0 <? sum (map (fun v => count v s) vs)) = existsb (fun v => contains v s) vs.
Proof.
  pose proof (sum_counts_zero s vs) as Hz. pose proof (sum_counts_nonneg s vs).
  destruct (existsb _ vs); cbn [negb] in Hz.
  - apply Z.eqb_neq in Hz. apply Z.ltb_lt. lia.
  - apply Z.eqb_eq in Hz. apply Z.ltb_ge. lia.
Qed.

(** [price_name] is [float_price] applied to the bucket and the discount
    the specification describes. *)
Lemma price_name_float_price (name : str) (namespace : nameset.namespace) :
  price_params_sane namespace -> name <> [] ->
  price_name name namespace
  = Ok (float_price
          (nameset.coeff namespace
           * nameset.base namespace ^ spec_bucket name namespace)
          (spec_discount name namespace)).
Proof.
  intros (_ & _ & Hlen & _ & Hna & Hnv) Hname.
  pose proof (nonempty_len name Hname) as Hpos.
  unfold price_name.
  assert (Hbucket :
    (if len name <? len (nameset.buckets namespace)
     then index (nameset.buckets namespace) (len name - 1)
     else index (nameset.buckets namespace) (-1))
    = Ok (spec_bucket name namespace)).
  { unfold spec_bucket. rewrite Hlen.
    destruct (Z.ltb_spec (len name) 16).
    - rewrite Z.min_l by lia. apply index_nth. lia.
    - rewrite Z.min_r by lia. rewrite (index_last _ 0) by lia.
      rewrite Hlen. reflexivity. }
  rewrite Hbucket. cbn [bind].
  rewrite sum_counts_zero, sum_counts_pos.
  fold (contains_any vowels name). fold (contains_any nonalpha name).
  set (n := nameset.coeff namespace * nameset.base namespace ^ spec_bucket name namespace).
  assert (Hdisc :
    (if contains_any nonalpha name
     then Z.max (if negb (contains_any vowels name)
                 then Z.max 1 (nameset.no_vowel_discount namespace) else 1)
                (nameset.nonalpha_discount namespace)
     else if negb (contains_any vowels name)
          then Z.max 1 (nameset.no_vowel_discount namespace) else 1)
    = spec_discount name namespace).
  { unfold spec_discount.
    destruct (contains_any nonalpha name), (contains_any vowels name); cbn [negb]; lia. }
  rewrite Hdisc.
  assert (Hd : 1 <= spec_discount name namespace).
  { unfold spec_discount. lia. }
  unfold float_price.
  destruct (of_Z_nonzero (spec_discount name namespace)) as (neg & m & e & Hof); [lia|].
  rewrite Hof.
  destruct (Float.of_Z n) as [|neg' m' e']; cbn [Float.div].
  - pose proof (ltb_Z_trunc (Float.mul Float.Fzero (Float.of_Z NAME_COST_UNIT))
                  NAME_COST_UNIT) as Ht.
    destruct (Float.ltb_Z _ NAME_COST_UNIT); f_equal; lia.
  - pose proof (ltb_Z_trunc
                  (Float.mul (Float.round_ratio (xorb neg' neg) m' m (e' - e))
                     (Float.of_Z NAME_COST_UNIT)) NAME_COST_UNIT) as Ht.
    destruct (Float.ltb_Z _ NAME_COST_UNIT); f_equal; lia.
Qed.

(** C2 (as stated, refuted).  With coefficient 1, base 3, exponent 1 and
    discount 2 the code charges [int(3.0 / 2.0 * 100) = 150] for the name
    [b1], where flooring the quotient first gives 100. *)
Lemma price_name_not_floored :
  price_params_sane sample.namespace_odd
  /\ price_name (py "b1") sample.namespace_odd = Ok 150
  /\ floored_price (py "b1") sample.namespace_odd = 100.
Proof.
  split; [|split; reflexivity].
  unfold price_params_sane. cbn.
  repeat split; try lia; try discriminate.
  repeat constructor; discriminate.
Qed.

(** C2 (amended).  For every non-empty name and every namespace within
    the sanity bounds, [price_name] is
    [max(NAME_COST_UNIT, int(float(coeff * base^bucket) / float(discount) * NAME_COST_UNIT))]
    in double precision, the product with the unit being truncated, with
    [bucket = buckets[min(len(name)-1, 15)]] and [discount] the largest of
    1, the no-vowel discount when the lower-cased name has no vowel and
    the non-alpha discount when it has a digit, a dash or an underscore.
    When the discount divides [coeff * base^bucket] and the product with
    the unit is below [2^53] this is
    [max(NAME_COST_UNIT, coeff * base^bucket / discount * NAME_COST_UNIT)];
    the name [alice] costs 25600 in the namespace of the first scenario. *)
Theorem price_name_in_double_precision :
  (forall (name : str) (namespace : nameset.namespace),
     price_params_sane namespace -> name <> [] ->
     price_name name namespace
     = Ok (float_price
             (nameset.coeff namespace
              * nameset.base namespace ^ spec_bucket name namespace)
             (spec_discount name namespace)))
  /\ (forall n d : Z,
        0 <= n -> 0 < d < 2 ^ 53 -> (d | n) -> n * NAME_COST_UNIT < 2 ^ 53 ->
        float_price n d = Z.max NAME_COST_UNIT (n / d * NAME_COST_UNIT))
  /\ price_name (py "alice") sample.namespace_test = Ok 25600.
Proof.
  split; [|split].
  - exact price_name_float_price.
  - exact float_price_exact.
  - reflexivity.
Qed.

Lemma price_name_in_double_precision_witness :
  price_name (py "b1") sample.namespace_odd
  = Ok (float_price 3 2).
Proof.
  destruct price_name_in_double_precision as (Hprice & _ & _).
  refine (Hprice (py "b1") sample.namespace_odd _ _).
  - unfold price_params_sane. cbn.
    repeat split; try lia; try discriminate.
    repeat constructor; discriminate.
  - vm_compute. discriminate.
Defined.

(** ** Scripts *)


Lemma digits_of_contains_space (cs : str) (ds : list Z) :
  digits_of cs ds -> contains " " cs = false.
Proof.
  induction 1 as [|c d cs ds [Hc _] _ IH]; [reflexivity|].
  cbn [contains existsb]. fold (contains " " cs). rewrite IH, orb_false_r.
  destruct (Ascii.eqb_spec c " "); [subst c; discriminate | reflexivity].
Qed.

Lemma split_script (parts : list str) : forall op : str,
  contains " " op = false ->
  Forall (fun p => contains " " p = false) parts ->
  split " " (op ++ script_of parts) = op :: map (app (py "0x")) parts.
Proof.
  induction parts as [|p r IH]; intros op Hop Hparts.
  - cbn [script_of map]. rewrite app_nil_r. now apply split_no_sep.
  - inversion Hparts as [|? ? Hp Hr]; subst.
    cbn [script_of map].
    change (py " 0x" ++ p ++ script_of r)
      with (" "%char :: (py "0x" ++ p) ++ script_of r).
    rewrite (split_app_sep _ _ _ Hop). f_equal.
    apply IH; [exact Hp | exact Hr].
Qed.

Lemma script_part_0x `{Externals} (p : str) :
  script_part_to_hex (py "0x" ++ p) = Ok p.
Proof. reflexivity. Qed.

Lemma script_parts_0x `{Externals} (parts : list str) : forall acc : str,
  script_parts_to_hex (map (app (py "0x")) parts) acc = Ok (acc ++ List.concat parts).
Proof.
  induction parts as [|p r IH]; intros acc.
  - cbn. now rewrite app_nil_r.
  - cbn [map script_parts_to_hex List.concat]. rewrite script_part_0x. cbn [bind].
    rewrite IH, app_assoc. reflexivity.
Qed.

Lemma blockstack_script_to_hex_parts `{Externals} (op op_hex : str) (parts : list str) :
  contains " " op = false ->
  script_part_to_hex op = Ok op_hex ->
  Forall (fun p => contains " " p = false) parts ->
  len (op_hex ++ List.concat parts) mod 2 = 0 ->
  blockstack_script_to_hex (op ++ script_of parts) = Ok (op_hex ++ List.concat parts).
Proof.
  intros Hop Hhex Hparts Heven. unfold blockstack_script_to_hex.
  rewrite (split_script parts op Hop Hparts).
  cbn [script_parts_to_hex]. rewrite Hhex. cbn [bind app].
  rewrite script_parts_0x. cbn [bind]. rewrite Heven. reflexivity.
Qed.

(** ** NAMESPACE_REVEAL: the sanity check and the serializers *)

Lemma existsb_false_Forall {A : Type} (f : A -> bool) (l : list A) :
  existsb f l = false -> Forall (fun x => f x = false) l.
Proof.
  induction l as [|x l IH]; [constructor|]. cbn [existsb].
  intros E. apply orb_false_iff in E as [E1 E2]. constructor; auto.
Qed.

(** What [namespacereveal_sanity_check] has verified when it returns. *)
Lemma namespacereveal_sanity_check_inv
    (namespace_id : str) (version lifetime coeff base : Z)
    (bucket_exponents : list Z) (nonalpha_discount no_vowel_discount : Z) (rc : bool) :
  namespacereveal.namespacereveal_sanity_check namespace_id version lifetime coeff base
    bucket_exponents nonalpha_discount no_vowel_discount = Ok rc ->
  rc = true
  /\ is_b40 namespace_id = true /\ contains "+" namespace_id = false
  /\ count "." namespace_id = 0
  /\ len namespace_id <= 19
  /\ 0 <= coeff <= 255 /\ 0 <= base <= 255
  /\ len bucket_exponents = 16
  /\ Forall (fun b => 0 <= b <= 15) bucket_exponents
  /\ 1 <= nonalpha_discount <= 15 /\ 1 <= no_vowel_discount <= 15.
Proof.
  unfold namespacereveal.namespacereveal_sanity_check.
  change LENGTHS.blockchain_id_namespace_id with 19.
  destruct (is_b40 namespace_id); [|discriminate].
  destruct (contains "+" namespace_id); [discriminate|].
  pose proof (count_nonneg "." namespace_id).
  destruct (Z.ltb_spec 0 (count "." namespace_id)); [discriminate|]. cbn [negb orb].
  destruct (Z.ltb_spec 19 (len namespace_id)); [discriminate|].
  destruct (Z.ltb_spec coeff 0); [discriminate|].
  destruct (Z.ltb_spec 255 coeff); [discriminate|]. cbn [orb].
  destruct (Z.ltb_spec base 0); [discriminate|].
  destruct (Z.ltb_spec 255 base); [discriminate|]. cbn [orb].
  destruct (Z.eqb_spec (len bucket_exponents) 16); [|discriminate]. cbn [negb].
  destruct (existsb _ bucket_exponents) eqn:Hb; [discriminate|].
  destruct (Z.leb_spec nonalpha_discount 0); [discriminate|].
  destruct (Z.ltb_spec 15 nonalpha_discount); [discriminate|]. cbn [orb].
  destruct (Z.leb_spec no_vowel_discount 0); [discriminate|].
  destruct (Z.ltb_spec 15 no_vowel_discount); [discriminate|]. cbn [orb].
  intros E. injection E as <-.
  repeat split; try reflexivity; try lia.
  apply existsb_false_Forall in Hb. revert Hb. apply Forall_impl.
  intros b Hb'. apply orb_false_iff in Hb' as [Hlo Hhi].
  apply Z.ltb_ge in Hlo, Hhi. lia.
Qed.

Lemma serialize_int_nibbles (n numbytes : Z) :
  1 <= numbytes -> 0 <= n < 2 ^ (numbytes * 8) ->
  namespacereveal.serialize_int n numbytes
  = Ok (map hex_lower (nibbles (Z.to_nat (numbytes * 2)) n)).
Proof.
  intros Hb Hn. unfold namespacereveal.serialize_int.
  destruct (Z.leb_spec (2 ^ (numbytes * 8)) n); [lia|].
  assert (0 < 2 ^ (numbytes * 8)) by (apply Z.pow_pos_nonneg; lia).
  destruct (Z.ltb_spec n (- 2 ^ (numbytes * 8))); [lia|]. cbn [orb].
  rewrite format_hex_nibbles.
  - unfold len. rewrite length_map, nibbles_length, Z2Nat.id by lia.
    rewrite Z.mod_mul by lia. reflexivity.
  - lia.
  - rewrite Z2Nat.id by lia.
    replace (numbytes * 8) with (4 * (numbytes * 2)) in Hn by lia.
    rewrite Z.pow_mul_r in Hn by lia. exact Hn.
Qed.

Lemma format_hex_upper_nibble (b : Z) : nibble b -> format_hex hex_upper 1 b = [hex_upper b].
Proof.
  intros Hb. unfold nibble in Hb. rewrite format_hex_nibbles by (cbn; lia).
  cbn [nibbles map app]. now rewrite Z.mod_small by lia.
Qed.

Lemma serialize_buckets_map (bs : list Z) :
  Forall nibble bs -> namespacereveal.serialize_buckets bs = map hex_upper bs.
Proof.
  unfold namespacereveal.serialize_buckets.
  induction 1 as [|b bs Hb _ IH]; [reflexivity|].
  cbn [flat_map map]. now rewrite IH, format_hex_upper_nibble.
Qed.

Lemma digits_value_small (w : nat) (n : Z) :
  0 <= n < 16 ^ Z.of_nat w -> digits_value 0 (nibbles w n) = n.
Proof. intros Hn. rewrite digits_value_nibbles by lia. apply Z.mod_small. exact Hn. Qed.

Lemma len_pack (ds : list Z) (n : Z) :
  len ds = 2 * n -> len (pack ds) = n.
Proof.
  intros Hlen. unfold len in *.
  rewrite (pack_length (Z.to_nat n)); lia.
Qed.

Lemma Forall_nibble_bounds (bs : list Z) :
  Forall (fun b => 0 <= b <= 15) bs -> Forall nibble bs.
Proof. apply Forall_impl. unfold nibble. intros; lia. Qed.

Lemma len_map {A B : Type} (f : A -> B) (l : list A) : len (map f l) = len l.
Proof. unfold len. now rewrite length_map. Qed.

Lemma len_nibbles (w : nat) (n : Z) : len (nibbles w n) = Z.of_nat w.
Proof. unfold len. now rewrite nibbles_length. Qed.

Lemma map_lower_no_space (ds : list Z) :
  Forall nibble ds -> contains " " (map hex_lower ds) = false.
Proof. intros H. eapply digits_of_contains_space, digits_of_map_lower, H. Qed.

Lemma map_upper_no_space (ds : list Z) :
  Forall nibble ds -> contains " " (map hex_upper ds) = false.
Proof. intros H. eapply digits_of_contains_space, digits_of_map_upper, H. Qed.

Lemma hexlify_no_space (s : str) : contains " " (hexlify s) = false.
Proof. eapply digits_of_contains_space, hexlify_digits. Qed.

(** The script [namespacereveal.build] returns. *)
Lemma namespacereveal_build_ok `{Externals}
    (namespace_id : str) (version : Z) (reveal_addr : str) (lifetime coeff base : Z)
    (bucket_exponents : list Z) (nonalpha_discount no_vowel_discount : Z)
    (testset : bool) :
  namespacereveal.namespacereveal_sanity_check namespace_id version lifetime coeff base
    bucket_exponents nonalpha_discount no_vowel_discount = Ok true ->
  0 <= lifetime < 2 ^ 32 -> 0 <= version < 2 ^ 16 ->
  namespacereveal.build namespace_id version reveal_addr lifetime coeff base
    bucket_exponents nonalpha_discount no_vowel_discount testset
  = Ok (hexlify (if testset then MAGIC_BYTES_TESTSET else MAGIC_BYTES_MAINSET)
        ++ py "26"
        ++ List.concat
             [ map hex_lower (nibbles 8 lifetime);
               map hex_lower (nibbles 2 coeff);
               map hex_lower (nibbles 2 base);
               map hex_upper bucket_exponents;
               map hex_upper [nonalpha_discount; no_vowel_discount];
               map hex_lower (nibbles 4 version);
               hexlify namespace_id ]).
Proof.
  intros Hsane Hlife Hver.
  destruct (namespacereveal_sanity_check_inv _ _ _ _ _ _ _ _ _ Hsane)
    as (_ & _ & _ & _ & _ & Hcoeff & Hbase & Hlen & Hbuckets & Hna & Hnv).
  apply Forall_nibble_bounds in Hbuckets.
  unfold namespacereveal.build. rewrite Hsane. cbn [bind negb].
  rewrite (serialize_int_nibbles lifetime 4) by (change (2 ^ (4 * 8)) with (2 ^ 32); lia).
  rewrite (serialize_int_nibbles coeff 1) by (change (2 ^ (1 * 8)) with 256; lia).
  rewrite (serialize_int_nibbles base 1) by (change (2 ^ (1 * 8)) with 256; lia).
  rewrite (serialize_int_nibbles version 2) by (change (2 ^ (2 * 8)) with (2 ^ 16); lia).
  cbn [bind].
  change (Z.to_nat (4 * 2)) with 8%nat. change (Z.to_nat (1 * 2)) with 2%nat.
  change (Z.to_nat (2 * 2)) with 4%nat.
  rewrite (serialize_buckets_map _ Hbuckets).
  unfold namespacereveal.serialize_discounts.
  rewrite !format_hex_upper_nibble by (unfold nibble; lia).
  set (L := map hex_lower (nibbles 8 lifetime)).
  set (C := map hex_lower (nibbles 2 coeff)).
  set (B := map hex_lower (nibbles 2 base)).
  set (K := map hex_upper bucket_exponents).
  set (V := map hex_lower (nibbles 4 version)).
  set (N := hexlify namespace_id).
  set (D := map hex_upper [nonalpha_discount; no_vowel_discount]).
  replace (py "NAMESPACE_REVEAL 0x" ++ L ++ py " 0x" ++ C ++ py " 0x" ++ B ++ py " 0x" ++ K
           ++ py " 0x" ++ ([hex_upper nonalpha_discount] ++ [hex_upper no_vowel_discount])
           ++ py " 0x" ++ V ++ py " 0x" ++ N)
    with (py "NAMESPACE_REVEAL" ++ script_of [L; C; B; K; D; V; N])
    by (cbn [script_of]; rewrite app_nil_r; reflexivity).
  rewrite (blockstack_script_to_hex_parts (py "NAMESPACE_REVEAL") (py "26")).
  - cbn [bind]. unfold add_magic_bytes. destruct testset; reflexivity.
  - reflexivity.
  - reflexivity.
  - subst L C B K V N D.
    repeat constructor;
      first [ apply map_lower_no_space, nibbles_nibble
            | apply map_upper_no_space; assumption
            | apply hexlify_no_space
            | apply map_upper_no_space; repeat constructor; unfold nibble; lia ].
  - subst L C B K V N D. cbn [List.concat].
    rewrite !len_app, !len_map, !len_nibbles, len_hexlify, Hlen.
    change (len (py "26")) with 2. change (len (@nil ascii)) with 0.
    change (len [nonalpha_discount; no_vowel_discount]) with 2.
    replace (2 + (Z.of_nat 8 + (Z.of_nat 2 + (Z.of_nat 2 + (16 + (2 + (Z.of_nat 4
              + (2 * len namespace_id + 0))))))))
      with ((18 + len namespace_id) * 2) by lia.
    apply Z.mod_mul. lia.
Qed.

Lemma unhexlify_nil_ok (s : str) : unhexlify (hexlify s) = Ok s.
Proof.
  rewrite <- (app_nil_r (hexlify s)), unhexlify_hexlify. cbn. now rewrite app_nil_r.
Qed.


Lemma namespacereveal_roundtrip `{Externals}
    (namespace_id : str) (version : Z) (reveal_addr : str) (lifetime coeff base : Z)
    (bucket_exponents : list Z) (nonalpha_discount no_vowel_discount : Z)
    (testset : bool) (sender_script recipient_address h : str) :
  namespacereveal.namespacereveal_sanity_check namespace_id version lifetime coeff base
    bucket_exponents nonalpha_discount no_vowel_discount = Ok true ->
  namespace_id <> [] ->
  0 <= lifetime < 2 ^ 32 -> 0 <= version < 2 ^ 16 ->
  hash_name namespace_id sender_script recipient_address = Ok h ->
  namespacereveal_rebuild namespace_id version reveal_addr lifetime coeff base
    bucket_exponents nonalpha_discount no_vowel_discount testset
    sender_script recipient_address
  = Ok (Some {| nameset.opcode := py "NAMESPACE_REVEAL";
                nameset.lifetime := lifetime;
                nameset.coeff := coeff;
                nameset.base := base;
                nameset.buckets := bucket_exponents;
                nameset.version := version;
                nameset.nonalpha_discount := nonalpha_discount;
                nameset.no_vowel_discount := no_vowel_discount;
                nameset.namespace_id := namespace_id;
                nameset.preorder_hash := h |}).
Proof.
  intros Hsane Hns Hlife Hver Hhash.
  destruct (namespacereveal_sanity_check_inv _ _ _ _ _ _ _ _ _ Hsane)
    as (_ & _ & _ & _ & _ & Hcoeff & Hbase & Hlen & Hbuckets & Hna & Hnv).
  pose proof (Forall_nibble_bounds _ Hbuckets) as Hnib.
  unfold namespacereveal_rebuild.
  rewrite (namespacereveal_build_ok _ _ _ _ _ _ _ _ _ _ Hsane Hlife Hver).
  cbn [bind List.concat].
  assert (Hd : Forall nibble [nonalpha_discount; no_vowel_discount])
    by (repeat constructor; unfold nibble; lia).
  assert (Hunhex :
    unhexlify
      (hexlify (if testset then MAGIC_BYTES_TESTSET else MAGIC_BYTES_MAINSET)
       ++ py "26" ++ map hex_lower (nibbles 8 lifetime) ++ map hex_lower (nibbles 2 coeff)
       ++ map hex_lower (nibbles 2 base) ++ map hex_upper bucket_exponents
       ++ map hex_upper [nonalpha_discount; no_vowel_discount]
       ++ map hex_lower (nibbles 4 version) ++ hexlify namespace_id ++ [])
    = Ok ((if testset then MAGIC_BYTES_TESTSET else MAGIC_BYTES_MAINSET)
          ++ [NAMESPACE_REVEAL]
          ++ pack (nibbles 8 lifetime) ++ pack (nibbles 2 coeff) ++ pack (nibbles 2 base)
          ++ pack bucket_exponents ++ pack [nonalpha_discount; no_vowel_discount]
          ++ pack (nibbles 4 version) ++ namespace_id)).
  { rewrite unhexlify_hexlify.
    rewrite (unhexlify_digits 1 (py "26") [2; 6]);
      [| repeat constructor; unfold nibble; lia | reflexivity].
    rewrite (unhexlify_digits 4 _ (nibbles 8 lifetime));
      [| apply digits_of_map_lower, nibbles_nibble | apply nibbles_length].
    rewrite (unhexlify_digits 1 _ (nibbles 2 coeff));
      [| apply digits_of_map_lower, nibbles_nibble | apply nibbles_length].
    rewrite (unhexlify_digits 1 _ (nibbles 2 base));
      [| apply digits_of_map_lower, nibbles_nibble | apply nibbles_length].
    rewrite (unhexlify_digits 8 _ bucket_exponents);
      [| apply digits_of_map_upper, Hnib | unfold len in Hlen; lia].
    rewrite (unhexlify_digits 1 _ [nonalpha_discount; no_vowel_discount]);
      [| apply digits_of_map_upper, Hd | reflexivity].
    rewrite (unhexlify_digits 2 _ (nibbles 4 version));
      [| apply digits_of_map_lower, nibbles_nibble | apply nibbles_length].
    rewrite unhexlify_hexlify. cbn [unhexlify bind]. rewrite app_nil_r. reflexivity. }
  rewrite Hunhex. cbn [bind].
  assert (Hstrip :
    slice_from
      ((if testset then MAGIC_BYTES_TESTSET else MAGIC_BYTES_MAINSET)
       ++ [NAMESPACE_REVEAL]
       ++ pack (nibbles 8 lifetime) ++ pack (nibbles 2 coeff) ++ pack (nibbles 2 base)
       ++ pack bucket_exponents ++ pack [nonalpha_discount; no_vowel_discount]
       ++ pack (nibbles 4 version) ++ namespace_id) 3
    = pack (nibbles 8 lifetime) ++ pack (nibbles 2 coeff) ++ pack (nibbles 2 base)
      ++ pack bucket_exponents ++ [chr (16 * nonalpha_discount + no_vowel_discount)]
      ++ pack (nibbles 4 version) ++ namespace_id).
  { destruct testset; reflexivity. }
  rewrite Hstrip.
  rewrite namespacereveal_parse_fields;
    [ | apply len_pack; rewrite len_nibbles; reflexivity
      | apply len_pack; rewrite len_nibbles; reflexivity
      | apply len_pack; rewrite len_nibbles; reflexivity
      | apply len_pack; lia
      | apply len_pack; rewrite len_nibbles; reflexivity
      | exact Hns ].
  rewrite Hhash.
  rewrite (unpack_pack 4 (nibbles 8 lifetime) (nibbles_nibble _ _) (nibbles_length _ _)).
  rewrite (unpack_pack 1 (nibbles 2 coeff) (nibbles_nibble _ _) (nibbles_length _ _)).
  rewrite (unpack_pack 1 (nibbles 2 base) (nibbles_nibble _ _) (nibbles_length _ _)).
  rewrite (unpack_pack 2 (nibbles 4 version) (nibbles_nibble _ _) (nibbles_length _ _)).
  rewrite (unpack_pack 8 _ Hnib) by (unfold len in Hlen; lia).
  rewrite !digits_value_small
    by (first [ change (16 ^ Z.of_nat 8) with (2 ^ 32); lia
              | change (16 ^ Z.of_nat 2) with 256; lia
              | change (16 ^ Z.of_nat 4) with (2 ^ 16); lia ]).
  assert (Hhi : ord (chr (16 * nonalpha_discount + no_vowel_discount)) / 16
                = nonalpha_discount).
  { rewrite ord_chr by lia. symmetry.
    apply (Z.div_unique _ 16 nonalpha_discount no_vowel_discount); lia. }
  assert (Hlo : ord (chr (16 * nonalpha_discount + no_vowel_discount)) mod 16
                = no_vowel_discount).
  { rewrite ord_chr by lia. symmetry.
    apply (Z.mod_unique _ 16 nonalpha_discount no_vowel_discount); lia. }
  rewrite Hhi, Hlo, Hsane. reflexivity.
Qed.

Lemma preorder_roundtrip `{Externals}
    (name : option str) (script_pubkey register_addr h c : str) (testset : bool) :
  len h = 20 -> len c = 16 ->
  preorder_rebuild name script_pubkey register_addr (hexlify c) (Some (hexlify h)) testset
  = Ok (Some {| preorder.opcode := py "NAME_PREORDER";
                preorder.preorder_hash := hexlify h;
                preorder.consensus_hash := hexlify c |}).
Proof.
  intros Hh Hc. unfold preorder_rebuild, preorder.build. cbn [bind].
  replace (py "NAME_PREORDER 0x" ++ hexlify h ++ py " 0x" ++ hexlify c)
    with (py "NAME_PREORDER" ++ script_of [hexlify h; hexlify c])
    by (cbn [script_of]; rewrite app_nil_r; reflexivity).
  rewrite (blockstack_script_to_hex_parts (py "NAME_PREORDER") (py "3f")).
  - cbn [bind List.concat]. unfold add_magic_bytes.
    rewrite unhexlify_hexlify.
    rewrite (unhexlify_digits 1 (py "3f") [3; 15]);
      [| repeat constructor; unfold nibble; lia | reflexivity].
    rewrite !unhexlify_hexlify. cbn [unhexlify bind]. rewrite app_nil_r.
    match goal with
    | |- context [slice_from ?x 3] =>
        replace (slice_from x 3) with (h ++ c) by (destruct testset; reflexivity)
    end.
    unfold preorder.parse.
    change (LENGTHS.preorder_name_hash + LENGTHS.consensus_hash) with 36.
    change LENGTHS.preorder_name_hash with 20.
    rewrite len_app, Hh, Hc. cbn [Z.add Z.eqb negb Pos.add Pos.succ Pos.eqb].
    change (20 + 16 =? 36) with true. cbn [negb].
    rewrite (slice_app_take h c 20 Hh), (slice_from_app h c 20 Hh). reflexivity.
  - reflexivity.
  - reflexivity.
  - repeat constructor; apply hexlify_no_space.
  - cbn [List.concat]. rewrite !len_app, !len_hexlify, Hh, Hc. reflexivity.
Qed.

Lemma preorder_build_hashed `{Externals}
    (name script_pubkey register_addr consensus_hash name_hash : str) (testset : bool) :
  is_b40 name = true -> contains "+" name = false -> count "." name <= 1 ->
  len NAME_SCHEME + len name <= LENGTHS.blockchain_id_name ->
  hash_name name script_pubkey register_addr = Ok name_hash ->
  preorder.build (Some name) script_pubkey register_addr consensus_hash None testset
  = preorder.build (Some name) script_pubkey register_addr consensus_hash
      (Some name_hash) testset.
Proof.
  intros Hb Hp Hd Hl Hh. unfold preorder.build. rewrite Hb, Hp. cbn [negb orb].
  destruct (Z.ltb_spec 1 (count "." name)); [lia|].
  destruct (Z.ltb_spec LENGTHS.blockchain_id_name (len NAME_SCHEME + len name)); [lia|].
  rewrite Hh. reflexivity.
Qed.

(** C7 (as stated, refuted).  The parameters below pass
    [namespacereveal_sanity_check], which does not look at the version,
    and [build] raises on them: the version does not fit two bytes. *)
Lemma namespacereveal_roundtrip_fails :
  namespacereveal.namespacereveal_sanity_check (py "test") 65536 52596 4 4
    [6; 5; 4; 3; 3; 3; 3; 2; 2; 2; 1; 1; 1; 1; 1; 1] 10 10 = Ok true
  /\ @namespacereveal_rebuild sample.externals (py "test") 65536 sample.addr_R 52596 4 4
       [6; 5; 4; 3; 3; 3; 3; 2; 2; 2; 1; 1; 1; 1; 1; 1] 10 10 false
       sample.script_S sample.addr_R
     = Raise (Exception "Integer overflow").
Proof. split; reflexivity. Qed.

(** C7 (amended).  For every NAMESPACE_REVEAL whose parameters pass
    [namespacereveal_sanity_check], whose namespace identifier is not
    empty, whose lifetime is within [0, 2^32) and whose version is within
    [0, 2^16), parsing the script [build] returns, stripped of its three
    leading bytes, gives back the lifetime, coefficient, base, buckets,
    version, discounts and namespace identifier, together with the hash
    [hash_name] computes when it computes one.  For every 20-byte preorder
    hash and 16-byte consensus hash, given in lowercase hexadecimal or, for
    the preorder hash, computed by [hash_name] from a well-formed name,
    parsing the NAME_PREORDER script [build] returns gives back both. *)
Theorem parse_build_roundtrip :
  (forall (E : Externals) (namespace_id : str) (version : Z) (reveal_addr : str)
          (lifetime coeff base : Z) (bucket_exponents : list Z)
          (nonalpha_discount no_vowel_discount : Z) (testset : bool)
          (sender_script recipient_address h : str),
     namespacereveal.namespacereveal_sanity_check namespace_id version lifetime coeff
       base bucket_exponents nonalpha_discount no_vowel_discount = Ok true ->
     namespace_id <> [] ->
     0 <= lifetime < 2 ^ 32 -> 0 <= version < 2 ^ 16 ->
     hash_name namespace_id sender_script recipient_address = Ok h ->
     namespacereveal_rebuild namespace_id version reveal_addr lifetime coeff base
       bucket_exponents nonalpha_discount no_vowel_discount testset
       sender_script recipient_address
     = Ok (Some {| nameset.opcode := py "NAMESPACE_REVEAL";
                   nameset.lifetime := lifetime;
                   nameset.coeff := coeff;
                   nameset.base := base;
                   nameset.buckets := bucket_exponents;
                   nameset.version := version;
                   nameset.nonalpha_discount := nonalpha_discount;
                   nameset.no_vowel_discount := no_vowel_discount;
                   nameset.namespace_id := namespace_id;
                   nameset.preorder_hash := h |}))
  /\ (forall (E : Externals) (name : option str)
             (script_pubkey register_addr h c : str) (testset : bool),
        len h = 20 -> len c = 16 ->
        preorder_rebuild name script_pubkey register_addr (hexlify c)
          (Some (hexlify h)) testset
        = Ok (Some {| preorder.opcode := py "NAME_PREORDER";
                      preorder.preorder_hash := hexlify h;
                      preorder.consensus_hash := hexlify c |}))
  /\ (forall (E : Externals) (name script_pubkey register_addr h c : str)
             (testset : bool),
        is_b40 name = true -> contains "+" name = false -> count "." name <= 1 ->
        len NAME_SCHEME + len name <= LENGTHS.blockchain_id_name ->
        hash_name name script_pubkey register_addr = Ok (hexlify h) ->
        len h = 20 -> len c = 16 ->
        preorder_rebuild (Some name) script_pubkey register_addr (hexlify c) None testset
        = Ok (Some {| preorder.opcode := py "NAME_PREORDER";
                      preorder.preorder_hash := hexlify h;
                      preorder.consensus_hash := hexlify c |})).
Proof.
  split; [|split].
  - intros E. apply namespacereveal_roundtrip.
  - intros E. apply preorder_roundtrip.
  - intros E name script_pubkey register_addr h c testset Hb Hp Hd Hl Hh Hlh Hlc.
    unfold preorder_rebuild.
    rewrite (preorder_build_hashed _ _ _ _ (hexlify h) _ Hb Hp Hd Hl Hh).
    now apply preorder_roundtrip.
Qed.

Lemma parse_build_roundtrip_witness :
  @namespacereveal_rebuild sample.externals (py "test") 1 sample.addr_R 52596 4 4
    [6; 5; 4; 3; 3; 3; 3; 2; 2; 2; 1; 1; 1; 1; 1; 1] 10 10 false
    sample.script_S sample.addr_R
  = Ok (Some {| nameset.opcode := py "NAMESPACE_REVEAL";
                nameset.lifetime := 52596;
                nameset.coeff := 4;
                nameset.base := 4;
                nameset.buckets := [6; 5; 4; 3; 3; 3; 3; 2; 2; 2; 1; 1; 1; 1; 1; 1];
                nameset.version := 1;
                nameset.nonalpha_discount := 10;
                nameset.no_vowel_discount := 10;
                nameset.namespace_id := py "test";
                nameset.preorder_hash :=
                  hexlify (py "test76a914aaaaaaaaaa") |}).
Proof.
  destruct parse_build_roundtrip as (Hreveal & _ & _).
  apply (Hreveal sample.externals).
  - reflexivity.
  - vm_compute. discriminate.
  - lia.
  - lia.
  - reflexivity.
Defined.

(* ===================================================================== *)
(** * Further properties of the modelled code *)
(* ===================================================================== *)

(** ** Names and their parts *)

Lemma contains_app (c : ascii) (a b : str) :
  contains c (a ++ b) = contains c a || contains c b.
Proof. unfold contains. apply existsb_app. Qed.

Lemma contains_cons_same (c : ascii) (s : str) : contains c (c :: s) = true.
Proof. unfold contains. cbn [existsb]. now rewrite Ascii.eqb_refl. Qed.

Lemma split_nonempty (sep : ascii) (s : str) : split sep s <> [].
Proof.
  destruct s as [|c s]; cbn [split]; [discriminate|].
  destruct (Ascii.eqb c sep); [discriminate|].
  destruct (split sep s); discriminate.
Qed.

(** The first part of a split has no separator and starts the string. *)
Lemma split_head (sep : ascii) (s : str) :
  exists h r, split sep s = h :: r /\ contains sep h = false
              /\ (r = [] -> s = h)
              /\ (r <> [] -> exists t, s = h ++ sep :: t /\ split sep t = r).
Proof.
  induction s as [|c s (h & r & Hs & Hh & Hnil & Hcons)].
  - exists [], []. repeat split; try reflexivity. intros N. now elim N.
  - cbn [split]. destruct (Ascii.eqb_spec c sep) as [-> | Hc].
    + exists [], (split sep s). repeat split; try reflexivity.
      * intros E. now elim (split_nonempty sep s).
      * intros _. exists s. split; reflexivity.
    + rewrite Hs. exists (c :: h), r. repeat split.
      * unfold contains in *. cbn [existsb]. rewrite Hh.
        destruct (Ascii.eqb_spec c sep); [contradiction | reflexivity].
      * intros E. now rewrite (Hnil E).
      * intros N. destruct (Hcons N) as (t & -> & Ht). exists t. split; [reflexivity | exact Ht].
Qed.

Lemma split_two (sep : ascii) (s a b : str) :
  split sep s = [a; b] ->
  s = a ++ sep :: b /\ contains sep a = false /\ contains sep b = false.
Proof.
  intros Hs. destruct (split_head sep s) as (h & r & Hs' & Hh & _ & Hcons).
  rewrite Hs in Hs'. injection Hs' as <- <-.
  destruct Hcons as (t & -> & Ht); [discriminate|].
  destruct (split_head sep t) as (h' & r' & Ht' & Hh' & Hnil' & _).
  rewrite Ht in Ht'. injection Ht' as <- <-.
  rewrite (Hnil' eq_refl). repeat split; assumption.
Qed.

Lemma is_name_valid_accepts (name namespace_id : str) :
  name <> [] -> namespace_id <> [] ->
  is_b40 name = true -> contains "+" name = false -> contains "." name = false ->
  is_b40 namespace_id = true -> contains "+" namespace_id = false ->
  contains "." namespace_id = false ->
  len (name ++ "."%char :: namespace_id) <= 37 ->
  is_name_valid (name ++ "."%char :: namespace_id) = true.
Proof.
  intros Hname Hns Hb1 Hp1 Hd1 Hb2 Hp2 Hd2 Hlen.
  unfold is_name_valid.
  rewrite count_app. cbn [count]. rewrite Ascii.eqb_refl.
  rewrite (proj2 (count_zero_iff _ _) Hd1), (proj2 (count_zero_iff _ _) Hd2).
  cbn [Z.add Z.eqb negb].
  rewrite (split_app_sep _ _ _ Hd1), (split_no_sep _ _ Hd2).
  pose proof (nonempty_len _ Hname). pose proof (nonempty_len _ Hns).
  destruct (Z.eqb_spec (len name) 0); [lia|].
  destruct (Z.eqb_spec (len namespace_id) 0); [lia|].
  rewrite Hb1, Hp1, Hd1, Hb2, Hp2, Hd2. cbn [negb orb].
  rewrite len_hexlify.
  destruct (Z.ltb_spec (LENGTHS.blockchain_id_name * 2)
              (2 * len (name ++ "."%char :: namespace_id))); [|reflexivity].
  change LENGTHS.blockchain_id_name with 37 in *. lia.
Qed.

(** What [is_name_valid] has verified when it accepts. *)
Lemma is_name_valid_shape (fqn : str) :
  is_name_valid fqn = true ->
  exists name namespace_id : str,
    fqn = name ++ "."%char :: namespace_id
    /\ name <> [] /\ namespace_id <> []
    /\ is_b40 name = true /\ contains "+" name = false /\ contains "." name = false
    /\ is_b40 namespace_id = true /\ contains "+" namespace_id = false
    /\ contains "." namespace_id = false
    /\ len fqn <= 37.
Proof.
  unfold is_name_valid.
  destruct (negb (count "." fqn =? 1)); [discriminate|].
  destruct (split "." fqn) as [|name [|namespace_id [|? ?]]] eqn:Hsplit;
    try discriminate.
  destruct (split_two _ _ _ _ Hsplit) as (Hfqn & Hd1 & Hd2).
  destruct (Z.eqb_spec (len name) 0) as [|Hn1]; [discriminate|].
  destruct (Z.eqb_spec (len namespace_id) 0) as [|Hn2]; [discriminate|]. cbn [orb].
  destruct (is_b40 name) eqn:Hb1; [|discriminate].
  destruct (contains "+" name) eqn:Hp1; [discriminate|]. rewrite Hd1. cbn [negb orb].
  destruct (is_b40 namespace_id) eqn:Hb2; [|discriminate].
  destruct (contains "+" namespace_id) eqn:Hp2; [discriminate|].
  rewrite Hd2. cbn [negb orb].
  rewrite len_hexlify. change LENGTHS.blockchain_id_name with 37.
  destruct (Z.ltb_spec (37 * 2) (2 * len fqn)); [discriminate|]. intros _.
  exists name, namespace_id. repeat split; try assumption; try reflexivity.
  - intros ->. now apply Hn1.
  - intros ->. now apply Hn2.
  - lia.
Qed.

(** X1.  [is_name_valid] accepts exactly the strings [name.namespace_id]
    of at most 37 bytes whose two parts are non-empty, base-40 and free
    of ['+'] and ['.']. *)
Theorem is_name_valid_iff (fqn : str) :
  is_name_valid fqn = true <->
  exists name namespace_id : str,
    fqn = name ++ "."%char :: namespace_id
    /\ name <> [] /\ namespace_id <> []
    /\ is_b40 name = true /\ contains "+" name = false /\ contains "." name = false
    /\ is_b40 namespace_id = true /\ contains "+" namespace_id = false
    /\ contains "." namespace_id = false
    /\ len fqn <= 37.
Proof.
  split.
  - apply is_name_valid_shape.
  - intros (name & ns & -> & H1 & H2 & H3 & H4 & H5 & H6 & H7 & H8 & H9).
    now apply is_name_valid_accepts.
Qed.

Lemma get_name_from_fq_name_first (a r : str) :
  contains "." a = false -> get_name_from_fq_name (a ++ "."%char :: r) = Some a.
Proof.
  intros Ha. unfold get_name_from_fq_name.
  rewrite contains_app, contains_cons_same, orb_true_r. cbn [negb].
  now rewrite (split_app_sep _ _ _ Ha).
Qed.

Lemma last_cons_nonempty {A : Type} (x : A) (l : list A) (d : A) :
  l <> [] -> last (x :: l) d = last l d.
Proof. destruct l; [contradiction | reflexivity]. Qed.

Lemma split_last (r c : str) :
  contains "." c = false -> last (split "." (r ++ "."%char :: c)) [] = c.
Proof.
  intros Hc. induction r as [|x r IH].
  - cbn [app split]. rewrite Ascii.eqb_refl.
    rewrite (split_no_sep _ _ Hc). reflexivity.
  - cbn [app split]. destruct (Ascii.eqb x ".").
    + rewrite last_cons_nonempty by apply split_nonempty. exact IH.
    + destruct (split "." (r ++ "."%char :: c)) as [|h t] eqn:Hs;
        [now elim (split_nonempty "." (r ++ "."%char :: c))|].
      destruct t as [|h' t'].
      * exfalso. destruct (split_head "." (r ++ "."%char :: c))
          as (h0 & r0 & Hs0 & Hh0 & Hnil & _).
        rewrite Hs in Hs0. injection Hs0 as <- <-.
        rewrite <- (Hnil eq_refl) in Hh0.
        rewrite contains_app, contains_cons_same, orb_true_r in Hh0. discriminate.
      * rewrite last_cons_nonempty by discriminate.
        rewrite last_cons_nonempty in IH by discriminate. exact IH.
Qed.

(** X2.  [get_name_from_fq_name] returns what precedes the first ['.'],
    [get_namespace_from_name] what follows the last one; a name without
    ['.'] has no name part and the empty namespace; on a name
    [is_name_valid] accepts the two parts put the name back together. *)
Theorem name_parts :
  (forall a r : str,
     contains "." a = false -> get_name_from_fq_name (a ++ "."%char :: r) = Some a)
  /\ (forall r c : str,
        contains "." c = false -> get_namespace_from_name (r ++ "."%char :: c) = c)
  /\ (forall s : str,
        contains "." s = false ->
        get_name_from_fq_name s = None /\ get_namespace_from_name s = [])
  /\ (forall fqn : str,
        is_name_valid fqn = true ->
        exists name : str,
          get_name_from_fq_name fqn = Some name
          /\ fqn = name ++ "."%char :: get_namespace_from_name fqn).
Proof.
  split; [|split; [|split]].
  - exact get_name_from_fq_name_first.
  - intros r c Hc. unfold get_namespace_from_name.
    rewrite contains_app, contains_cons_same, orb_true_r. cbn [negb].
    now apply split_last.
  - intros s Hs. unfold get_name_from_fq_name, get_namespace_from_name.
    rewrite Hs. split; reflexivity.
  - intros fqn Hvalid. apply is_name_valid_shape in Hvalid.
    destruct Hvalid as (name & ns & -> & _ & _ & _ & _ & Hd1 & _ & _ & Hd2 & _).
    exists name. rewrite (get_name_from_fq_name_first _ _ Hd1).
    split; [reflexivity|]. unfold get_namespace_from_name.
    rewrite contains_app, contains_cons_same, orb_true_r. cbn [negb].
    now rewrite (split_last _ _ Hd2).
Qed.

Lemma name_parts_witness :
  get_name_from_fq_name (py "a.b.c") = Some (py "a")
  /\ get_namespace_from_name (py "a.b.c") = py "c".
Proof.
  destruct name_parts as (Hfirst & Hlast & _ & _). split.
  - exact (Hfirst (py "a") (py "b.c") eq_refl).
  - exact (Hlast (py "a.b") (py "c") eq_refl).
Defined.

(** ** Prices *)

Lemma index_bucket (name : str) (buckets : list Z) :
  buckets <> [] ->
  exists b,
    (if len name <? len buckets then index buckets (len name - 1)
     else index buckets (-1)) = Ok b
    /\ In b buckets.
Proof.
  intros Hb. pose proof (nonempty_len _ Hb) as Hpos.
  pose proof (len_nonneg name) as Hname.
  assert (Hlast : exists b, index buckets (-1) = Ok b /\ In b buckets).
  { exists (nth (Z.to_nat (len buckets - 1)) buckets 0). split.
    - now apply index_last.
    - apply nth_In. unfold len in *. lia. }
  destruct (Z.ltb_spec (len name) (len buckets)); [|exact Hlast].
  destruct (Z.eq_dec (len name) 0) as [E | N].
  - rewrite E. exact Hlast.
  - exists (nth (Z.to_nat (len name - 1)) buckets 0). split.
    + apply index_nth. lia.
    + apply nth_In. unfold len in *. lia.
Qed.

Lemma price_name_floor (name : str) (namespace : nameset.namespace) :
  nameset.buckets namespace <> [] ->
  exists p, price_name name namespace = Ok p /\ NAME_COST_UNIT <= p.
Proof.
  intros Hb. unfold price_name.
  destruct (index_bucket name _ Hb) as (b & -> & _). cbn [bind].
  match goal with
  | |- context [Float.div _ (Float.of_Z ?d)] => set (discount := d)
  end.
  assert (Hd : 1 <= discount).
  { subst discount.
    repeat match goal with |- context [if ?c then _ else _] => destruct c end; lia. }
  destruct (of_Z_nonzero discount) as (neg & m & e & ->); [lia|].
  destruct (Float.of_Z _) as [|neg' m' e']; cbn [Float.div].
  - pose proof (ltb_Z_trunc (Float.mul Float.Fzero (Float.of_Z NAME_COST_UNIT))
                  NAME_COST_UNIT) as Ht.
    destruct (Float.ltb_Z _ NAME_COST_UNIT); eexists; split; try reflexivity; lia.
  - pose proof (ltb_Z_trunc
                  (Float.mul (Float.round_ratio (xorb neg' neg) m' m (e' - e))
                     (Float.of_Z NAME_COST_UNIT)) NAME_COST_UNIT) as Ht.
    destruct (Float.ltb_Z _ NAME_COST_UNIT); eexists; split; try reflexivity; lia.
Qed.

(** X3.  For a namespace within the sanity bounds [price_name] returns a
    price for every name, the empty one included, and never less than
    [NAME_COST_UNIT]; on a namespace without buckets it raises
    [IndexError]. *)
Theorem price_name_at_least_unit :
  (forall (name : str) (namespace : nameset.namespace),
     price_params_sane namespace ->
     exists p, price_name name namespace = Ok p /\ NAME_COST_UNIT <= p)
  /\ (forall (name : str) (namespace : nameset.namespace),
        nameset.buckets namespace = [] ->
        price_name name namespace = Raise IndexError).
Proof.
  split.
  - intros name namespace (_ & _ & Hlen & _). apply price_name_floor.
    apply len_nonempty. lia.
  - intros name namespace Hb. unfold price_name. rewrite Hb.
    change (len (@nil Z)) with 0.
    pose proof (len_nonneg name).
    destruct (Z.ltb_spec (len name) 0); [lia | reflexivity].
Qed.

Lemma price_params_sane_test : price_params_sane sample.namespace_test.
Proof.
  unfold price_params_sane. cbn.
  repeat split; try lia; try discriminate.
  repeat constructor; discriminate.
Qed.

Lemma price_name_at_least_unit_witness :
  exists p, price_name [] sample.namespace_test = Ok p /\ NAME_COST_UNIT <= p.
Proof.
  destruct price_name_at_least_unit as (Hfloor & _).
  exact (Hfloor [] sample.namespace_test price_params_sane_test).
Defined.

(** The integer [price_namespace] denotes, by length of the identifier. *)
Lemma price_namespace_value (testset : bool) (namespace_id : str) :
  number_to_Z (price_namespace testset namespace_id)
  = Some (if testset then 10000
          else if len namespace_id =? 1 then 400 * 10 ^ 8
          else if (2 <=? len namespace_id) && (len namespace_id <=? 3) then 40 * 10 ^ 8
          else if (4 <=? len namespace_id) && (len namespace_id <=? 7) then 4 * 10 ^ 8
          else 4 * 10 ^ 7).
Proof.
  unfold price_namespace. set (n := len namespace_id). cbn [existsb].
  destruct testset.
  - repeat match goal with |- context [if ?c then _ else _] => destruct c end;
      reflexivity.
  - destruct (Z.eqb_spec n 1); [reflexivity|].
    destruct (Z.eqb_spec n 2); [subst n; rewrite e; reflexivity|].
    destruct (Z.eqb_spec n 3); [subst n; rewrite e; reflexivity|].
    cbn [orb].
    destruct (Z.eqb_spec n 4); [subst n; rewrite e; reflexivity|].
    destruct (Z.eqb_spec n 5); [subst n; rewrite e; reflexivity|].
    destruct (Z.eqb_spec n 6); [subst n; rewrite e; reflexivity|].
    destruct (Z.eqb_spec n 7); [subst n; rewrite e; reflexivity|].
    cbn [orb].
    destruct (Z.leb_spec 2 n); destruct (Z.leb_spec n 3); cbn [andb]; try lia;
      destruct (Z.leb_spec 4 n); destruct (Z.leb_spec n 7); cbn [andb]; try lia;
      vm_compute; reflexivity.
Qed.

(** X4.  Every namespace price is a positive whole number of satoshis; a
    longer non-empty identifier never costs more than a shorter one; the
    empty identifier, which no branch of [price_namespace] singles out,
    costs what the longest ones cost. *)
Theorem price_namespace_monotone :
  (forall (testset : bool) (namespace_id : str),
     exists p, number_to_Z (price_namespace testset namespace_id) = Some p /\ 0 < p)
  /\ (forall (testset : bool) (a b : str) (pa pb : Z),
        1 <= len a <= len b ->
        number_to_Z (price_namespace testset a) = Some pa ->
        number_to_Z (price_namespace testset b) = Some pb ->
        pb <= pa)
  /\ (forall (testset : bool) (namespace_id : str),
        8 <= len namespace_id ->
        price_namespace testset [] = price_namespace testset namespace_id).
Proof.
  split; [|split].
  - intros testset ns. rewrite price_namespace_value. eexists. split; [reflexivity|].
    repeat match goal with |- context [if ?c then _ else _] => destruct c end; lia.
  - intros testset a b pa pb Hlen Ha Hb.
    rewrite price_namespace_value in Ha, Hb.
    injection Ha as <-. injection Hb as <-.
    destruct testset; [lia|].
    destruct (Z.eqb_spec (len a) 1); destruct (Z.eqb_spec (len b) 1);
      destruct (Z.leb_spec 2 (len a)); destruct (Z.leb_spec (len a) 3);
      destruct (Z.leb_spec 2 (len b)); destruct (Z.leb_spec (len b) 3);
      destruct (Z.leb_spec 4 (len a)); destruct (Z.leb_spec (len a) 7);
      destruct (Z.leb_spec 4 (len b)); destruct (Z.leb_spec (len b) 7);
      cbn [andb]; lia.
  - intros testset ns Hlen. unfold price_namespace. cbn [existsb].
    change (len (@nil ascii)) with 0. cbn [Z.eqb orb].
    repeat match goal with
           | |- context [Z.eqb (len ns) ?k] => destruct (Z.eqb_spec (len ns) k); [lia|]
           end.
    reflexivity.
Qed.

Lemma price_namespace_monotone_witness :
  40 * 10 ^ 8 <= 400 * 10 ^ 8.
Proof.
  destruct price_namespace_monotone as (_ & Hmono & _).
  apply (Hmono false (py "a") (py "ab") (400 * 10 ^ 8) (40 * 10 ^ 8)).
  - vm_compute. split; discriminate.
  - reflexivity.
  - reflexivity.
Defined.

Lemma get_namespace_from_name_last (r c : str) :
  contains "." c = false -> get_namespace_from_name (r ++ "."%char :: c) = c.
Proof.
  intros Hc. unfold get_namespace_from_name.
  rewrite contains_app, contains_cons_same, orb_true_r. cbn [negb].
  now apply split_last.
Qed.

(** X5.  [get_name_cost] returns [None] for a name without ['.'] and for
    a namespace that is neither ready nor revealed; otherwise it prices
    what precedes the first ['.'] in the namespace named after the last
    one, whatever lies between, a ready namespace taking precedence over
    a revealed one. *)
Theorem get_name_cost_composition
    (get_namespace get_namespace_reveal : str -> option nameset.namespace) :
  (forall name : str,
     contains "." name = false ->
     get_name_cost get_namespace get_namespace_reveal name = Ok None)
  /\ (forall name : str,
        get_namespace (get_namespace_from_name name) = None ->
        get_namespace_reveal (get_namespace_from_name name) = None ->
        get_name_cost get_namespace get_namespace_reveal name = Ok None)
  /\ (forall (short_name tail namespace_id : str) (namespace : nameset.namespace),
        contains "." short_name = false -> contains "." namespace_id = false ->
        namespace_id <> [] ->
        tail = namespace_id \/ (exists mid, tail = mid ++ "."%char :: namespace_id) ->
        get_namespace namespace_id = Some namespace
        \/ (get_namespace namespace_id = None
            /\ get_namespace_reveal namespace_id = Some namespace) ->
        get_name_cost get_namespace get_namespace_reveal
          (short_name ++ "."%char :: tail)
        = (name_fee <- price_name short_name namespace ;; Ok (Some name_fee))).
Proof.
  split; [|split].
  - intros name Hdot. unfold get_name_cost, get_namespace_from_name.
    rewrite Hdot. reflexivity.
  - intros name H1 H2. unfold get_name_cost. rewrite H1, H2.
    destruct (len (get_namespace_from_name name) =? 0); reflexivity.
  - intros short_name tail ns namespace Hs Hn Hne Htail Hfound.
    unfold get_name_cost.
    assert (Hns : get_namespace_from_name (short_name ++ "."%char :: tail) = ns).
    { destruct Htail as [-> | (mid & ->)].
      - now apply get_namespace_from_name_last.
      - change (short_name ++ "."%char :: mid ++ "."%char :: ns)
          with (short_name ++ ("."%char :: mid) ++ "."%char :: ns).
        rewrite app_assoc. now apply get_namespace_from_name_last. }
    rewrite Hns, (get_name_from_fq_name_first _ _ Hs).
    pose proof (nonempty_len _ Hne).
    destruct (Z.eqb_spec (len ns) 0); [lia|].
    destruct Hfound as [-> | [-> ->]]; reflexivity.
Qed.

Lemma get_name_cost_composition_witness :
  get_name_cost
    (fun ns => if str_eqb ns (py "test") then Some sample.namespace_test else None)
    (fun _ => None) (py "alice.test")
  = Ok (Some 25600).
Proof.
  destruct (get_name_cost_composition
              (fun ns => if str_eqb ns (py "test") then Some sample.namespace_test
                         else None)
              (fun _ => None)) as (_ & _ & Hprice).
  refine (Hprice (py "alice") (py "test") (py "test") sample.namespace_test
            eq_refl eq_refl _ (or_introl eq_refl) (or_introl eq_refl)).
  vm_compute. discriminate.
Defined.

(** ** NAMESPACE_REVEAL: serializers and sanity check *)

Lemma map_hex_lower_nonempty (w : nat) (n : Z) :
  (1 <= w)%nat -> map hex_lower (nibbles w n) <> [].
Proof.
  intros Hw E. apply (f_equal (@List.length ascii)) in E.
  rewrite length_map, nibbles_length in E. simpl in E. lia.
Qed.

(** X6.  [serialize_int] raises exactly outside [-2^(8k), 2^(8k)); on a
    non-negative integer within the bound it returns [2k] lowercase
    hexadecimal digits that [int(_, 16)] reads back as the integer and
    [unhexlify] turns into [k] bytes. *)
Theorem serialize_int_roundtrip (n numbytes : Z) :
  1 <= numbytes ->
  (2 ^ (numbytes * 8) <= n \/ n < - 2 ^ (numbytes * 8) <->
   namespacereveal.serialize_int n numbytes = Raise (Exception "Integer overflow"))
  /\ (0 <= n < 2 ^ (numbytes * 8) ->
      exists s bytes,
        namespacereveal.serialize_int n numbytes = Ok s
        /\ len s = 2 * numbytes
        /\ int16 s = Ok n
        /\ unhexlify s = Ok bytes /\ len bytes = numbytes).
Proof.
  intros Hk. split.
  - unfold namespacereveal.serialize_int.
    destruct (Z.leb_spec (2 ^ (numbytes * 8)) n);
      destruct (Z.ltb_spec n (- 2 ^ (numbytes * 8))); cbn [orb];
      split; try reflexivity; try discriminate; try (intros _; lia); intros [?|?]; lia.
  - intros Hn. rewrite serialize_int_nibbles by assumption.
    set (w := Z.to_nat (numbytes * 2)).
    assert (Hw : (1 <= w)%nat) by (subst w; lia).
    assert (Hpow : 16 ^ Z.of_nat w = 2 ^ (numbytes * 8)).
    { subst w. rewrite Z2Nat.id by lia.
      replace (numbytes * 8) with (4 * (numbytes * 2)) by lia.
      rewrite (Z.pow_mul_r 2 4) by lia. reflexivity. }
    exists (map hex_lower (nibbles w n)), (pack (nibbles w n)).
    repeat split.
    + rewrite len_map, len_nibbles. subst w. lia.
    + unfold int16.
      destruct (map hex_lower (nibbles w n)) eqn:E;
        [now elim (map_hex_lower_nonempty w n Hw)|].
      rewrite <- E.
      rewrite (int16_acc_digits _ _ (digits_of_map_lower _ (nibbles_nibble w n))).
      f_equal. apply digits_value_small. lia.
    + rewrite <- (app_nil_r (map hex_lower (nibbles w n))).
      rewrite (unhexlify_digits (Z.to_nat numbytes) _ (nibbles w n)).
      * cbn. now rewrite app_nil_r.
      * apply digits_of_map_lower, nibbles_nibble.
      * rewrite nibbles_length. subst w. lia.
    + apply len_pack. rewrite len_nibbles. subst w. lia.
Qed.

Lemma serialize_int_roundtrip_witness :
  exists s bytes,
    namespacereveal.serialize_int 52596 4 = Ok s
    /\ len s = 2 * 4 /\ int16 s = Ok 52596
    /\ unhexlify s = Ok bytes /\ len bytes = 4.
Proof.
  destruct (serialize_int_roundtrip 52596 4) as (_ & Hok); [lia|].
  apply Hok. vm_compute. split; [discriminate | reflexivity].
Defined.

Lemma unhexlify_minus (c : ascii) (rest : str) :
  unhexlify ("-"%char :: c :: rest) = Raise (TypeError "Non-hexadecimal digit found").
Proof. reflexivity. Qed.

Lemma unhexlify_zero_minus (rest : str) :
  unhexlify ("0"%char :: "-"%char :: rest)
  = Raise (TypeError "Non-hexadecimal digit found").
Proof. reflexivity. Qed.

(** The string [serialize_int] returns for a negative integer. *)
Lemma serialize_int_negative_shape (n numbytes : Z) :
  1 <= numbytes -> - 2 ^ (numbytes * 8) <= n < 0 ->
  exists (c : ascii) (t : str),
    (namespacereveal.serialize_int n numbytes = Ok ("-"%char :: c :: t)
     \/ namespacereveal.serialize_int n numbytes = Ok ("0"%char :: "-"%char :: c :: t))
    /\ (forall s, namespacereveal.serialize_int n numbytes = Ok s ->
         contains " " s = false)
    /\ (forall s, namespacereveal.serialize_int n numbytes = Ok s -> len s mod 2 = 0).
Proof.
  intros Hk Hn. unfold namespacereveal.serialize_int.
  assert (0 < 2 ^ (numbytes * 8)) by (apply Z.pow_pos_nonneg; lia).
  destruct (Z.leb_spec (2 ^ (numbytes * 8)) n); [lia|].
  destruct (Z.ltb_spec n (- 2 ^ (numbytes * 8))); [lia|]. cbn [orb].
  unfold format_hex. destruct (Z.ltb_spec n 0); [|lia].
  set (w := Nat.max (Z.to_nat (numbytes * 2)) (ndigits (Z.abs n))).
  assert (Hw : (1 <= w)%nat) by (subst w; lia).
  destruct (map hex_lower (nibbles w (Z.abs n))) as [|c t] eqn:E;
    [now elim (map_hex_lower_nonempty w (Z.abs n) Hw)|].
  assert (Hsp : contains " " (c :: t) = false)
    by (rewrite <- E; apply map_lower_no_space, nibbles_nibble).
  exists c, t.
  destruct (Z.eqb_spec (len ("-"%char :: c :: t) mod 2) 0) as [Hm | Hm]; cbn [negb].
  - split; [left; reflexivity|].
    split; intros s Hs; injection Hs as <-; [exact Hsp | exact Hm].
  - split; [right; reflexivity|].
    split; intros s Hs; injection Hs as <-; [exact Hsp|].
    rewrite len_cons.
    pose proof (Z.mod_pos_bound (len ("-"%char :: c :: t)) 2 ltac:(lia)) as Hb.
    rewrite <- Z.add_mod_idemp_r by lia.
    replace (len ("-"%char :: c :: t) mod 2) with 1 by lia. reflexivity.
Qed.

(** X7.  For a negative integer within the guard, [serialize_int] returns
    a string that holds a minus sign: [unhexlify] refuses it. *)
Theorem serialize_int_negative (n numbytes : Z) :
  1 <= numbytes -> - 2 ^ (numbytes * 8) <= n < 0 ->
  exists s,
    namespacereveal.serialize_int n numbytes = Ok s
    /\ contains "-" s = true
    /\ unhexlify s = Raise (TypeError "Non-hexadecimal digit found").
Proof.
  intros Hk Hn.
  destruct (serialize_int_negative_shape n numbytes Hk Hn) as (c & t & [E | E] & _);
    eexists; (split; [exact E | split; reflexivity]).
Qed.

Lemma serialize_int_negative_witness :
  exists s,
    namespacereveal.serialize_int (-1) 4 = Ok s
    /\ contains "-" s = true
    /\ unhexlify s = Raise (TypeError "Non-hexadecimal digit found").
Proof. apply (serialize_int_negative (-1) 4); [lia | vm_compute; split; [discriminate | reflexivity]]. Defined.

(** X8.  [namespacereveal_sanity_check] never returns [False]; its verdict
    does not depend on the version or on the lifetime (the value it
    assigns to an out-of-range lifetime is dropped); it returns [True]
    exactly on a base-40 identifier without ['+'] or ['.'] of at most 19
    bytes (the empty one included), a coefficient and a base within
    [0, 255], sixteen buckets within [0, 15] and discounts within
    [1, 15]. *)
Theorem namespacereveal_sanity_check_iff
    (namespace_id : str) (version lifetime coeff base : Z)
    (bucket_exponents : list Z) (nonalpha_discount no_vowel_discount : Z) :
  namespacereveal.namespacereveal_sanity_check namespace_id version lifetime coeff base
    bucket_exponents nonalpha_discount no_vowel_discount <> Ok false
  /\ (forall version' lifetime' : Z,
        namespacereveal.namespacereveal_sanity_check namespace_id version' lifetime'
          coeff base bucket_exponents nonalpha_discount no_vowel_discount
        = namespacereveal.namespacereveal_sanity_check namespace_id version lifetime
            coeff base bucket_exponents nonalpha_discount no_vowel_discount)
  /\ (namespacereveal.namespacereveal_sanity_check namespace_id version lifetime coeff
        base bucket_exponents nonalpha_discount no_vowel_discount = Ok true
      <-> is_b40 namespace_id = true /\ contains "+" namespace_id = false
          /\ contains "." namespace_id = false
          /\ len namespace_id <= 19
          /\ 0 <= coeff <= 255 /\ 0 <= base <= 255
          /\ len bucket_exponents = 16
          /\ Forall (fun b => 0 <= b <= 15) bucket_exponents
          /\ 1 <= nonalpha_discount <= 15 /\ 1 <= no_vowel_discount <= 15).
Proof.
  split; [|split].
  - intros E. apply namespacereveal_sanity_check_inv in E. destruct E as [E _].
    discriminate.
  - intros version' lifetime'. reflexivity.
  - split.
    + intros E. apply namespacereveal_sanity_check_inv in E.
      destruct E as (_ & H1 & H2 & H3 & H4 & H5 & H6 & H7 & H8 & H9 & H10).
      apply count_zero_iff in H3. repeat split; try assumption; lia.
    + intros (H1 & H2 & H3 & H4 & H5 & H6 & H7 & H8 & H9 & H10).
      unfold namespacereveal.namespacereveal_sanity_check.
      change LENGTHS.blockchain_id_namespace_id with 19.
      rewrite H1, H2, (proj2 (count_zero_iff _ _) H3). cbn [negb orb Z.ltb Z.compare].
      destruct (Z.ltb_spec 19 (len namespace_id)); [lia|].
      destruct (Z.ltb_spec coeff 0); [lia|].
      destruct (Z.ltb_spec 255 coeff); [lia|]. cbn [orb].
      destruct (Z.ltb_spec base 0); [lia|].
      destruct (Z.ltb_spec 255 base); [lia|]. cbn [orb].
      rewrite H7. cbn [Z.eqb Pos.eqb negb].
      assert (Hb : existsb (fun b => (b <? 0) || (15 <? b)) bucket_exponents = false).
      { clear - H8. induction H8 as [|b bs Hb _ IH]; [reflexivity|].
        cbn [existsb]. rewrite IH, orb_false_r.
        destruct (Z.ltb_spec b 0); [lia|]. destruct (Z.ltb_spec 15 b); [lia|].
        reflexivity. }
      rewrite Hb.
      destruct (Z.leb_spec nonalpha_discount 0); [lia|].
      destruct (Z.ltb_spec 15 nonalpha_discount); [lia|]. cbn [orb].
      destruct (Z.leb_spec no_vowel_discount 0); [lia|].
      destruct (Z.ltb_spec 15 no_vowel_discount); [lia|]. reflexivity.
Qed.

(** ** NAMESPACE_REVEAL: the script [build] returns *)

Lemma digits_value_bound (ds : list Z) : forall acc,
  Forall nibble ds -> 0 <= acc ->
  16 ^ Z.of_nat (List.length ds) * acc <= digits_value acc ds
  /\ digits_value acc ds < 16 ^ Z.of_nat (List.length ds) * (acc + 1).
Proof.
  induction ds as [|d ds IH]; intros acc Hd Hacc.
  - change (digits_value acc []) with acc.
    change (16 ^ Z.of_nat (List.length (@nil Z))) with 1. lia.
  - inversion Hd as [|? ? Hd1 Hds]; subst. unfold nibble in Hd1.
    change (digits_value acc (d :: ds)) with (digits_value (16 * acc + d) ds).
    destruct (IH (16 * acc + d) Hds) as [Hlo Hhi]; [lia|].
    cbn [List.length]. rewrite Nat2Z.inj_succ, Z.pow_succ_r by lia.
    assert (0 < 16 ^ Z.of_nat (List.length ds)) by (apply Z.pow_pos_nonneg; lia).
    split; nia.
Qed.

Lemma digits_value_snoc (ds : list Z) (d acc : Z) :
  digits_value acc (ds ++ [d]) = 16 * digits_value acc ds + d.
Proof. now rewrite digits_value_app. Qed.

Lemma nibbles_digits_value (ds : list Z) :
  Forall nibble ds -> nibbles (List.length ds) (digits_value 0 ds) = ds.
Proof.
  induction ds as [|d ds IH] using rev_ind; intros Hd; [reflexivity|].
  apply Forall_app in Hd. destruct Hd as [Hds Hd].
  inversion Hd as [|? ? Hd1 _]; subst. unfold nibble in Hd1.
  rewrite length_app, Nat.add_1_r, digits_value_snoc. cbn [List.length nibbles].
  replace ((16 * digits_value 0 ds + d) / 16) with (digits_value 0 ds)
    by (apply (Z.div_unique _ 16 _ d); lia).
  replace ((16 * digits_value 0 ds + d) mod 16) with d
    by (apply (Z.mod_unique _ 16 (digits_value 0 ds) d); lia).
  now rewrite IH.
Qed.

Lemma pack_nibbles_unpack (a : str) (w : nat) :
  w = (2 * List.length a)%nat ->
  pack (nibbles w (digits_value 0 (unpack a))) = a.
Proof.
  intros ->. rewrite <- (unpack_length a).
  rewrite (nibbles_digits_value _ (unpack_nibbles a)). apply pack_unpack.
Qed.

Lemma unpack_value_bound (a : str) :
  0 <= digits_value 0 (unpack a) < 16 ^ (2 * len a).
Proof.
  destruct (digits_value_bound (unpack a) 0 (unpack_nibbles a)) as [Hlo Hhi]; [lia|].
  rewrite unpack_length in Hlo, Hhi.
  replace (Z.of_nat (2 * List.length a)) with (2 * len a) in * by (unfold len; lia).
  lia.
Qed.

(** The script [build] returns, whatever [serialize_int] makes of the
    lifetime, as long as it has an even number of characters. *)
Lemma namespacereveal_build_with `{Externals}
    (namespace_id : str) (version : Z) (reveal_addr : str) (lifetime coeff base : Z)
    (bucket_exponents : list Z) (nonalpha_discount no_vowel_discount : Z)
    (testset : bool) (L : str) :
  namespacereveal.namespacereveal_sanity_check namespace_id version lifetime coeff base
    bucket_exponents nonalpha_discount no_vowel_discount = Ok true ->
  namespacereveal.serialize_int lifetime 4 = Ok L ->
  contains " " L = false -> len L mod 2 = 0 ->
  0 <= version < 2 ^ 16 ->
  namespacereveal.build namespace_id version reveal_addr lifetime coeff base
    bucket_exponents nonalpha_discount no_vowel_discount testset
  = Ok (hexlify (if testset then MAGIC_BYTES_TESTSET else MAGIC_BYTES_MAINSET)
        ++ py "26"
        ++ List.concat
             [ L;
               map hex_lower (nibbles 2 coeff);
               map hex_lower (nibbles 2 base);
               map hex_upper bucket_exponents;
               map hex_upper [nonalpha_discount; no_vowel_discount];
               map hex_lower (nibbles 4 version);
               hexlify namespace_id ]).
Proof.
  intros Hsane HL Hsp Heven Hver.
  destruct (namespacereveal_sanity_check_inv _ _ _ _ _ _ _ _ _ Hsane)
    as (_ & _ & _ & _ & _ & Hcoeff & Hbase & Hlen & Hbuckets & Hna & Hnv).
  apply Forall_nibble_bounds in Hbuckets.
  unfold namespacereveal.build. rewrite Hsane. cbn [bind negb].
  rewrite HL.
  rewrite (serialize_int_nibbles coeff 1) by (change (2 ^ (1 * 8)) with 256; lia).
  rewrite (serialize_int_nibbles base 1) by (change (2 ^ (1 * 8)) with 256; lia).
  rewrite (serialize_int_nibbles version 2) by (change (2 ^ (2 * 8)) with (2 ^ 16); lia).
  cbn [bind].
  change (Z.to_nat (1 * 2)) with 2%nat. change (Z.to_nat (2 * 2)) with 4%nat.
  rewrite (serialize_buckets_map _ Hbuckets).
  unfold namespacereveal.serialize_discounts.
  rewrite !format_hex_upper_nibble by (unfold nibble; lia).
  set (C := map hex_lower (nibbles 2 coeff)).
  set (B := map hex_lower (nibbles 2 base)).
  set (K := map hex_upper bucket_exponents).
  set (V := map hex_lower (nibbles 4 version)).
  set (N := hexlify namespace_id).
  set (D := map hex_upper [nonalpha_discount; no_vowel_discount]).
  replace (py "NAMESPACE_REVEAL 0x" ++ L ++ py " 0x" ++ C ++ py " 0x" ++ B ++ py " 0x" ++ K
           ++ py " 0x" ++ ([hex_upper nonalpha_discount] ++ [hex_upper no_vowel_discount])
           ++ py " 0x" ++ V ++ py " 0x" ++ N)
    with (py "NAMESPACE_REVEAL" ++ script_of [L; C; B; K; D; V; N])
    by (cbn [script_of]; rewrite app_nil_r; reflexivity).
  rewrite (blockstack_script_to_hex_parts (py "NAMESPACE_REVEAL") (py "26")).
  - cbn [bind]. unfold add_magic_bytes. destruct testset; reflexivity.
  - reflexivity.
  - reflexivity.
  - subst C B K V N D.
    repeat constructor;
      first [ assumption
            | apply map_lower_no_space, nibbles_nibble
            | apply map_upper_no_space; assumption
            | apply hexlify_no_space
            | apply map_upper_no_space; repeat constructor; unfold nibble; lia ].
  - subst C B K V N D. cbn [List.concat].
    rewrite !len_app, !len_map, !len_nibbles, len_hexlify, Hlen.
    change (len (py "26")) with 2. change (len (@nil ascii)) with 0.
    change (len [nonalpha_discount; no_vowel_discount]) with 2.
    change (Z.of_nat 2) with 2. change (Z.of_nat 4) with 4.
    pose proof (len_nonneg L).
    replace (2 + (len L + (2 + (2 + (16 + (2 + (4 + (2 * len namespace_id + 0))))))))
      with (len L + (14 + len namespace_id) * 2) by lia.
    rewrite Z.mod_add by lia. exact Heven.
Qed.

(** The bytes of the script [build] returns for parameters within range. *)
Lemma namespacereveal_build_bytes `{Externals}
    (namespace_id : str) (version : Z) (reveal_addr : str) (lifetime coeff base : Z)
    (bucket_exponents : list Z) (nonalpha_discount no_vowel_discount : Z)
    (testset : bool) :
  namespacereveal.namespacereveal_sanity_check namespace_id version lifetime coeff base
    bucket_exponents nonalpha_discount no_vowel_discount = Ok true ->
  0 <= lifetime < 2 ^ 32 -> 0 <= version < 2 ^ 16 ->
  exists script,
    namespacereveal.build namespace_id version reveal_addr lifetime coeff base
      bucket_exponents nonalpha_discount no_vowel_discount testset = Ok script
    /\ unhexlify script
       = Ok ((if testset then MAGIC_BYTES_TESTSET else MAGIC_BYTES_MAINSET)
             ++ [NAMESPACE_REVEAL]
             ++ pack (nibbles 8 lifetime) ++ pack (nibbles 2 coeff)
             ++ pack (nibbles 2 base) ++ pack bucket_exponents
             ++ [chr (16 * nonalpha_discount + no_vowel_discount)]
             ++ pack (nibbles 4 version) ++ namespace_id).
Proof.
  intros Hsane Hlife Hver.
  destruct (namespacereveal_sanity_check_inv _ _ _ _ _ _ _ _ _ Hsane)
    as (_ & _ & _ & _ & _ & Hcoeff & Hbase & Hlen & Hbuckets & Hna & Hnv).
  pose proof (Forall_nibble_bounds _ Hbuckets) as Hnib.
  eexists. split; [apply namespacereveal_build_ok; assumption|].
  cbn [List.concat].
  assert (Hd : Forall nibble [nonalpha_discount; no_vowel_discount])
    by (repeat constructor; unfold nibble; lia).
  rewrite unhexlify_hexlify.
  rewrite (unhexlify_digits 1 (py "26") [2; 6]);
    [| repeat constructor; unfold nibble; lia | reflexivity].
  rewrite (unhexlify_digits 4 _ (nibbles 8 lifetime));
    [| apply digits_of_map_lower, nibbles_nibble | apply nibbles_length].
  rewrite (unhexlify_digits 1 _ (nibbles 2 coeff));
    [| apply digits_of_map_lower, nibbles_nibble | apply nibbles_length].
  rewrite (unhexlify_digits 1 _ (nibbles 2 base));
    [| apply digits_of_map_lower, nibbles_nibble | apply nibbles_length].
  rewrite (unhexlify_digits 8 _ bucket_exponents);
    [| apply digits_of_map_upper, Hnib | unfold len in Hlen; lia].
  rewrite (unhexlify_digits 1 _ [nonalpha_discount; no_vowel_discount]);
    [| apply digits_of_map_upper, Hd | reflexivity].
  rewrite (unhexlify_digits 2 _ (nibbles 4 version));
    [| apply digits_of_map_lower, nibbles_nibble | apply nibbles_length].
  rewrite unhexlify_hexlify. cbn [unhexlify bind]. rewrite app_nil_r. reflexivity.
Qed.

(** X9.  For parameters the sanity check accepts, a lifetime below 2^32
    and a version below 2^16, [build] returns a hexadecimal script of
    [20 + len(namespace_id)] bytes, at most 39 and within the 40 bytes of
    an OP_RETURN: the magic bytes, the opcode ['&'], then the payload. *)
Theorem namespacereveal_build_size `{Externals}
    (namespace_id : str) (version : Z) (reveal_addr : str) (lifetime coeff base : Z)
    (bucket_exponents : list Z) (nonalpha_discount no_vowel_discount : Z)
    (testset : bool) :
  namespacereveal.namespacereveal_sanity_check namespace_id version lifetime coeff base
    bucket_exponents nonalpha_discount no_vowel_discount = Ok true ->
  0 <= lifetime < 2 ^ 32 -> 0 <= version < 2 ^ 16 ->
  exists script payload,
    namespacereveal.build namespace_id version reveal_addr lifetime coeff base
      bucket_exponents nonalpha_discount no_vowel_discount testset = Ok script
    /\ unhexlify script
       = Ok ((if testset then MAGIC_BYTES_TESTSET else MAGIC_BYTES_MAINSET)
             ++ [NAMESPACE_REVEAL] ++ payload)
    /\ len payload = 17 + len namespace_id
    /\ 3 + len payload <= 39 /\ 3 + len payload <= LENGTHS.max_op_length.
Proof.
  intros Hsane Hlife Hver.
  destruct (namespacereveal_build_bytes namespace_id version reveal_addr lifetime coeff
              base bucket_exponents nonalpha_discount no_vowel_discount testset
              Hsane Hlife Hver) as (script & Hb & Hu).
  destruct (namespacereveal_sanity_check_inv _ _ _ _ _ _ _ _ _ Hsane)
    as (_ & _ & _ & _ & Hid & _ & _ & Hlen & _).
  eexists. eexists. split; [exact Hb|]. split; [exact Hu|].
  assert (Hp : len (pack (nibbles 8 lifetime) ++ pack (nibbles 2 coeff)
                    ++ pack (nibbles 2 base) ++ pack bucket_exponents
                    ++ [chr (16 * nonalpha_discount + no_vowel_discount)]
                    ++ pack (nibbles 4 version) ++ namespace_id)
               = 17 + len namespace_id).
  { rewrite !len_app.
    rewrite (len_pack (nibbles 8 lifetime) 4) by (rewrite len_nibbles; reflexivity).
    rewrite (len_pack (nibbles 2 coeff) 1) by (rewrite len_nibbles; reflexivity).
    rewrite (len_pack (nibbles 2 base) 1) by (rewrite len_nibbles; reflexivity).
    rewrite (len_pack bucket_exponents 8) by lia.
    rewrite (len_pack (nibbles 4 version) 2) by (rewrite len_nibbles; reflexivity).
    change (len [chr (16 * nonalpha_discount + no_vowel_discount)]) with 1. lia. }
  rewrite Hp. change LENGTHS.max_op_length with 40. lia.
Qed.

Lemma namespacereveal_build_size_witness :
  exists script payload,
    @namespacereveal.build sample.externals (py "xyz") 1 sample.addr_R 52596 4 4
      [6; 5; 4; 3; 2; 1; 0; 0; 0; 0; 0; 0; 0; 0; 0; 0] 10 10 true = Ok script
    /\ unhexlify script = Ok (MAGIC_BYTES_TESTSET ++ [NAMESPACE_REVEAL] ++ payload)
    /\ len payload = 17 + len (py "xyz")
    /\ 3 + len payload <= 39 /\ 3 + len payload <= LENGTHS.max_op_length.
Proof.
  apply (@namespacereveal_build_size sample.externals (py "xyz") 1 sample.addr_R 52596
           4 4 [6; 5; 4; 3; 2; 1; 0; 0; 0; 0; 0; 0; 0; 0; 0; 0] 10 10 true).
  - reflexivity.
  - vm_compute. split; [discriminate | reflexivity].
  - vm_compute. split; [discriminate | reflexivity].
Defined.

(** X10.  [build] does not substitute the infinite lifetime for a negative
    one (the sanity check's assignment is local to it): with a lifetime
    in [-2^32, 0) and otherwise acceptable parameters it returns a script
    that is not hexadecimal, which [unhexlify] refuses. *)
Theorem namespacereveal_build_negative_lifetime `{Externals}
    (namespace_id : str) (version : Z) (reveal_addr : str) (lifetime coeff base : Z)
    (bucket_exponents : list Z) (nonalpha_discount no_vowel_discount : Z)
    (testset : bool) :
  namespacereveal.namespacereveal_sanity_check namespace_id version lifetime coeff base
    bucket_exponents nonalpha_discount no_vowel_discount = Ok true ->
  - 2 ^ 32 <= lifetime < 0 -> 0 <= version < 2 ^ 16 ->
  exists script,
    namespacereveal.build namespace_id version reveal_addr lifetime coeff base
      bucket_exponents nonalpha_discount no_vowel_discount testset = Ok script
    /\ unhexlify script = Raise (TypeError "Non-hexadecimal digit found").
Proof.
  intros Hsane Hlife Hver.
  destruct (serialize_int_negative_shape lifetime 4) as (c & t & HL & Hsp & Heven);
    [lia | exact Hlife |].
  destruct HL as [HL | HL].
  - eexists. split.
    + exact (namespacereveal_build_with _ _ _ _ _ _ _ _ _ _ _ Hsane HL
               (Hsp _ HL) (Heven _ HL) Hver).
    + rewrite unhexlify_hexlify.
      rewrite (unhexlify_digits 1 (py "26") [2; 6]);
        [| repeat constructor; unfold nibble; lia | reflexivity].
      cbn [List.concat app]. rewrite unhexlify_minus. reflexivity.
  - eexists. split.
    + exact (namespacereveal_build_with _ _ _ _ _ _ _ _ _ _ _ Hsane HL
               (Hsp _ HL) (Heven _ HL) Hver).
    + rewrite unhexlify_hexlify.
      rewrite (unhexlify_digits 1 (py "26") [2; 6]);
        [| repeat constructor; unfold nibble; lia | reflexivity].
      cbn [List.concat app]. rewrite unhexlify_zero_minus. reflexivity.
Qed.

Lemma namespacereveal_build_negative_lifetime_witness :
  exists script,
    @namespacereveal.build sample.externals (py "xyz") 1 sample.addr_R (-1) 4 4
      [6; 5; 4; 3; 2; 1; 0; 0; 0; 0; 0; 0; 0; 0; 0; 0] 10 10 true = Ok script
    /\ unhexlify script = Raise (TypeError "Non-hexadecimal digit found").
Proof.
  apply (@namespacereveal_build_negative_lifetime sample.externals (py "xyz") 1
           sample.addr_R (-1) 4 4 [6; 5; 4; 3; 2; 1; 0; 0; 0; 0; 0; 0; 0; 0; 0; 0]
           10 10 true).
  - reflexivity.
  - vm_compute. split; [discriminate | reflexivity].
  - vm_compute. split; [discriminate | reflexivity].
Defined.

(** ** NAMESPACE_REVEAL: what [parse] returns *)

Lemma namespacereveal_parse_inv `{Externals}
    (bin_payload sender_script recipient_address : str) (ns : nameset.namespace) :
  namespacereveal.parse bin_payload sender_script recipient_address = Ok (Some ns) ->
  exists (a1 a2 a3 a4 : str) (c : ascii) (a6 id h : str),
    bin_payload = a1 ++ a2 ++ a3 ++ a4 ++ [c] ++ a6 ++ id
    /\ len a1 = 4 /\ len a2 = 1 /\ len a3 = 1 /\ len a4 = 8 /\ len a6 = 2
    /\ id <> []
    /\ hash_name id sender_script recipient_address = Ok h
    /\ namespacereveal.namespacereveal_sanity_check id
         (digits_value 0 (unpack a6)) (digits_value 0 (unpack a1))
         (digits_value 0 (unpack a2)) (digits_value 0 (unpack a3))
         (unpack a4) (ord c / 16) (ord c mod 16) = Ok true
    /\ ns = {| nameset.opcode := py "NAMESPACE_REVEAL";
               nameset.lifetime := digits_value 0 (unpack a1);
               nameset.coeff := digits_value 0 (unpack a2);
               nameset.base := digits_value 0 (unpack a3);
               nameset.buckets := unpack a4;
               nameset.version := digits_value 0 (unpack a6);
               nameset.nonalpha_discount := ord c / 16;
               nameset.no_vowel_discount := ord c mod 16;
               nameset.namespace_id := id;
               nameset.preorder_hash := h |}.
Proof.
  intros Hp.
  assert (Hlen : 18 <= len bin_payload).
  { destruct (Z.ltb_spec (len bin_payload) 18) as [Hlt|]; [|assumption].
    unfold namespacereveal.parse in Hp.
    change MIN_OP_LENGTHS.namespace_reveal with 18 in Hp.
    destruct (Z.ltb_spec (len bin_payload) 18); [discriminate | lia]. }
  destruct (split_at bin_payload 4) as (a1 & r1 & -> & H1); [lia|].
  rewrite len_app in Hlen.
  destruct (split_at r1 1) as (a2 & r2 & -> & H2); [lia|].
  rewrite len_app in Hlen.
  destruct (split_at r2 1) as (a3 & r3 & -> & H3); [lia|].
  rewrite len_app in Hlen.
  destruct (split_at r3 8) as (a4 & r4 & -> & H4); [lia|].
  rewrite len_app in Hlen.
  destruct (split_at r4 1) as (a5 & r5 & -> & H5); [lia|].
  rewrite len_app in Hlen.
  destruct (split_at r5 2) as (a6 & id & -> & H6); [lia|].
  rewrite len_app in Hlen.
  destruct (len_one a5 H5) as [c ->].
  assert (Hid : id <> []) by (apply len_nonempty; lia).
  rewrite namespacereveal_parse_fields in Hp by assumption.
  destruct (hash_name id sender_script recipient_address) as [h|] eqn:Hh;
    [|discriminate].
  destruct (namespacereveal.namespacereveal_sanity_check _ _ _ _ _ _ _ _)
    as [[|]|] eqn:Hs; try discriminate.
  injection Hp as <-.
  exists a1, a2, a3, a4, c, a6, id, h. repeat split; assumption.
Qed.

(** X11.  Every namespace [parse] returns is well formed: a non-empty
    base-40 identifier of at most 19 bytes that fills the payload after
    its 17-byte header, a lifetime below 2^32, a version below 2^16, the
    hash of the identifier with the sender and the recipient, and price
    parameters with which [price_name] prices every name, at no less
    than the cost unit. *)
Theorem namespacereveal_parse_well_formed `{Externals}
    (bin_payload sender_script recipient_address : str) (ns : nameset.namespace) :
  namespacereveal.parse bin_payload sender_script recipient_address = Ok (Some ns) ->
  nameset.opcode ns = py "NAMESPACE_REVEAL"
  /\ is_b40 (nameset.namespace_id ns) = true
  /\ contains "+" (nameset.namespace_id ns) = false
  /\ contains "." (nameset.namespace_id ns) = false
  /\ 1 <= len (nameset.namespace_id ns) <= 19
  /\ len bin_payload = 17 + len (nameset.namespace_id ns)
  /\ 0 <= nameset.lifetime ns < 2 ^ 32
  /\ 0 <= nameset.version ns < 2 ^ 16
  /\ hash_name (nameset.namespace_id ns) sender_script recipient_address
     = Ok (nameset.preorder_hash ns)
  /\ price_params_sane ns
  /\ (forall name : str,
        exists fee, price_name name ns = Ok fee /\ NAME_COST_UNIT <= fee).
Proof.
  intros Hp.
  destruct (namespacereveal_parse_inv _ _ _ _ Hp)
    as (a1 & a2 & a3 & a4 & c & a6 & id & h & -> & H1 & H2 & H3 & H4 & H6 & Hid
        & Hh & Hs & ->).
  destruct (namespacereveal_sanity_check_inv _ _ _ _ _ _ _ _ _ Hs)
    as (_ & Hb40 & Hplus & Hdot & Hlen & Hcoeff & Hbase & Hblen & Hbuckets & Hna & Hnv).
  cbn [nameset.opcode nameset.namespace_id nameset.lifetime nameset.version
       nameset.preorder_hash].
  pose proof (unpack_value_bound a1) as B1. rewrite H1 in B1.
  pose proof (unpack_value_bound a6) as B6. rewrite H6 in B6.
  pose proof (nonempty_len id Hid).
  assert (Hsane : price_params_sane
            {| nameset.opcode := py "NAMESPACE_REVEAL";
               nameset.lifetime := digits_value 0 (unpack a1);
               nameset.coeff := digits_value 0 (unpack a2);
               nameset.base := digits_value 0 (unpack a3);
               nameset.buckets := unpack a4;
               nameset.version := digits_value 0 (unpack a6);
               nameset.nonalpha_discount := ord c / 16;
               nameset.no_vowel_discount := ord c mod 16;
               nameset.namespace_id := id;
               nameset.preorder_hash := h |})
    by (unfold price_params_sane; cbn; repeat split; try assumption; lia).
  split; [reflexivity|]. split; [assumption|]. split; [assumption|].
  split; [now apply count_zero_iff|]. split; [lia|].
  split; [rewrite !len_app, H1, H2, H3, H4, H6; change (len [c]) with 1; lia|].
  split; [change (2 ^ 32) with (16 ^ (2 * 4)); exact B1|].
  split; [change (2 ^ 16) with (16 ^ (2 * 2)); exact B6|].
  split; [assumption|]. split; [exact Hsane|].
  intros name. apply price_name_floor. cbn [nameset.buckets].
  apply len_nonempty. lia.
Qed.

Lemma namespacereveal_parse_well_formed_witness :
  exists ns,
    @namespacereveal.parse sample.externals sample_reveal_payload
      sample.script_S sample.addr_R = Ok (Some ns)
    /\ 0 <= nameset.lifetime ns < 2 ^ 32
    /\ price_params_sane ns.
Proof.
  eexists. split; [vm_compute; reflexivity|].
  refine ((fun H => conj (proj1 (proj2 (proj2 (proj2 (proj2 (proj2 (proj2 H)))))))
                         (proj1 (proj2 (proj2 (proj2 (proj2 (proj2 (proj2 (proj2
                            (proj2 (proj2 H)))))))))))
            (@namespacereveal_parse_well_formed sample.externals sample_reveal_payload
               sample.script_S sample.addr_R _ _)).
  vm_compute. reflexivity.
Defined.

(** X12.  [parse] loses nothing: building the script again from the
    fields of a namespace [parse] returned gives back, after the magic
    bytes and the opcode, the payload that was parsed. *)
Theorem namespacereveal_build_parse `{Externals}
    (bin_payload sender_script recipient_address reveal_addr : str)
    (ns : nameset.namespace) (testset : bool) :
  namespacereveal.parse bin_payload sender_script recipient_address = Ok (Some ns) ->
  exists script,
    namespacereveal.build (nameset.namespace_id ns) (nameset.version ns) reveal_addr
      (nameset.lifetime ns) (nameset.coeff ns) (nameset.base ns) (nameset.buckets ns)
      (nameset.nonalpha_discount ns) (nameset.no_vowel_discount ns) testset = Ok script
    /\ unhexlify script
       = Ok ((if testset then MAGIC_BYTES_TESTSET else MAGIC_BYTES_MAINSET)
             ++ [NAMESPACE_REVEAL] ++ bin_payload).
Proof.
  intros Hp.
  destruct (namespacereveal_parse_inv _ _ _ _ Hp)
    as (a1 & a2 & a3 & a4 & c & a6 & id & h & -> & H1 & H2 & H3 & H4 & H6 & Hid
        & Hh & Hs & ->).
  cbn [nameset.namespace_id nameset.lifetime nameset.version nameset.coeff
       nameset.base nameset.buckets nameset.nonalpha_discount
       nameset.no_vowel_discount].
  pose proof (unpack_value_bound a1) as B1. rewrite H1 in B1.
  pose proof (unpack_value_bound a6) as B6. rewrite H6 in B6.
  destruct (namespacereveal_build_bytes id _ reveal_addr _ _ _ _ _ _ testset Hs)
    as (script & Hb & Hu);
    [change (2 ^ 32) with (16 ^ (2 * 4)); exact B1
    |change (2 ^ 16) with (16 ^ (2 * 2)); exact B6|].
  exists script. split; [exact Hb|]. rewrite Hu.
  unfold len in H1, H2, H3, H4, H6.
  rewrite (pack_nibbles_unpack a1 8) by lia.
  rewrite (pack_nibbles_unpack a2 2) by lia.
  rewrite (pack_nibbles_unpack a3 2) by lia.
  rewrite (pack_nibbles_unpack a6 4) by lia.
  rewrite pack_unpack.
  replace (16 * (ord c / 16) + ord c mod 16) with (ord c)
    by (apply Z.div_mod; lia).
  rewrite chr_ord. reflexivity.
Qed.

Lemma namespacereveal_build_parse_witness :
  exists script,
    @namespacereveal.build sample.externals (py "xyz") 1 sample.addr_R 52596 4 4
      [6; 5; 4; 3; 2; 1; 0; 0; 0; 0; 0; 0; 0; 0; 0; 0] 10 10 false = Ok script
    /\ unhexlify script
       = Ok (MAGIC_BYTES_MAINSET ++ [NAMESPACE_REVEAL] ++ sample_reveal_payload).
Proof.
  refine (@namespacereveal_build_parse sample.externals sample_reveal_payload
            sample.script_S sample.addr_R sample.addr_R
            {| nameset.opcode := py "NAMESPACE_REVEAL";
               nameset.lifetime := 52596; nameset.coeff := 4; nameset.base := 4;
               nameset.buckets := [6; 5; 4; 3; 2; 1; 0; 0; 0; 0; 0; 0; 0; 0; 0; 0];
               nameset.version := 1;
               nameset.nonalpha_discount := 10; nameset.no_vowel_discount := 10;
               nameset.namespace_id := py "xyz";
               nameset.preorder_hash := hexlify (py "xyz76a914aaaaaaaaaaa") |}
            false _).
  vm_compute. reflexivity.
Defined.

(** ** NAMESPACE_REVEAL: [check] and the transaction outputs *)

(** The function [state_create] decorates accepts a NAMESPACE_REVEAL
    exactly on the tests of its body, and rewrites it as below. *)
Lemma namespacereveal_check_body_iff (testset : bool)
    (state_engine : nameset.StateEngine)
    (nameop accepted : namespacereveal.nameop) (block_id : Z)
    (checked_ops : list nameset.checked_op) :
  namespacereveal.check_body testset state_engine nameop block_id checked_ops
  = Some accepted
  <-> namespacereveal.sender_pubkey nameop <> None
      /\ namespacereveal.recipient nameop <> None
      /\ namespacereveal.recipient_address nameop <> None
      /\ is_b40 (namespacereveal.namespace_id nameop) = true
      /\ contains "+" (namespacereveal.namespace_id nameop) = false
      /\ contains "." (namespacereveal.namespace_id nameop) = false
      /\ nameset.is_namespace_revealed state_engine
           (namespacereveal.namespace_id nameop) = false
      /\ nameset.is_namespace_ready state_engine
           (namespacereveal.namespace_id nameop) = false
      /\ namespacereveal.version nameop = BLOCKSTACK_VERSION
      /\ exists (namespace_preorder : nameset.namespace_preorder) (namespace_fee : Z),
           nameset.get_namespace_preorder state_engine
             (namespacereveal.preorder_hash nameop) = Some namespace_preorder
           /\ nameset.np_op_fee namespace_preorder = Some namespace_fee
           /\ int_lt_number namespace_fee
                (price_namespace testset (namespacereveal.namespace_id nameop)) = false
           /\ accepted
              = {| namespacereveal.namespace_id := namespacereveal.namespace_id nameop;
                   namespacereveal.preorder_hash := namespacereveal.preorder_hash nameop;
                   namespacereveal.version := namespacereveal.version nameop;
                   namespacereveal.sender := namespacereveal.sender nameop;
                   namespacereveal.address := namespacereveal.address nameop;
                   namespacereveal.sender_pubkey := namespacereveal.sender_pubkey nameop;
                   namespacereveal.recipient := namespacereveal.recipient nameop;
                   namespacereveal.recipient_address :=
                     namespacereveal.recipient_address nameop;
                   namespacereveal.reveal_block :=
                     nameset.np_block_number namespace_preorder;
                   namespacereveal.block_number :=
                     Some (nameset.np_block_number namespace_preorder);
                   namespacereveal.ready_block := Some 0;
                   namespacereveal.op_fee := Some namespace_fee |}.
Proof.
  unfold namespacereveal.check_body. split.
  - intros Hc.
    destruct (namespacereveal.sender_pubkey nameop) as [pk|] eqn:Hpk; [|discriminate].
    destruct (namespacereveal.recipient nameop) as [rc|] eqn:Hrc; [|discriminate].
    destruct (namespacereveal.recipient_address nameop) as [ra|] eqn:Hra;
      [|discriminate].
    destruct (is_b40 (namespacereveal.namespace_id nameop)) eqn:Hb;
      [|discriminate].
    destruct (contains "+" (namespacereveal.namespace_id nameop)) eqn:Hplus;
      [discriminate|].
    cbn [negb orb] in Hc.
    destruct (Z.ltb_spec 0 (count "." (namespacereveal.namespace_id nameop)))
      as [|Hdot]; [discriminate|].
    destruct (nameset.is_namespace_revealed state_engine _) eqn:Hrev; [discriminate|].
    destruct (nameset.is_namespace_ready state_engine _) eqn:Hrdy; [discriminate|].
    destruct (nameset.get_namespace_preorder state_engine _) as [p|] eqn:Hpre;
      [|discriminate].
    assert (Hc' :
      (if negb (namespacereveal.version nameop =? BLOCKSTACK_VERSION) then None
       else match nameset.np_op_fee p with
            | None => None
            | Some namespace_fee =>
                if int_lt_number namespace_fee
                     (price_namespace testset (namespacereveal.namespace_id nameop))
                then None
                else Some
                  {| namespacereveal.namespace_id := namespacereveal.namespace_id nameop;
                     namespacereveal.preorder_hash :=
                       namespacereveal.preorder_hash nameop;
                     namespacereveal.version := namespacereveal.version nameop;
                     namespacereveal.sender := namespacereveal.sender nameop;
                     namespacereveal.address := namespacereveal.address nameop;
                     namespacereveal.sender_pubkey := Some pk;
                     namespacereveal.recipient := Some rc;
                     namespacereveal.recipient_address := Some ra;
                     namespacereveal.reveal_block := nameset.np_block_number p;
                     namespacereveal.block_number := Some (nameset.np_block_number p);
                     namespacereveal.ready_block := Some 0;
                     namespacereveal.op_fee := nameset.np_op_fee p |}
            end) = Some accepted).
    { destruct (negb (str_eqb (nameset.np_sender p) (namespacereveal.sender nameop)));
        exact Hc. }
    clear Hc.
    destruct (Z.eqb_spec (namespacereveal.version nameop) BLOCKSTACK_VERSION)
      as [Hv|]; [|discriminate]. cbn [negb] in Hc'.
    destruct (nameset.np_op_fee p) as [fee|] eqn:Hfee; [|discriminate].
    destruct (int_lt_number fee _) eqn:Hlt; [discriminate|].
    injection Hc' as <-.
    pose proof (count_nonneg "." (namespacereveal.namespace_id nameop)).
    repeat (split; [first [discriminate | reflexivity | assumption
                          | apply count_zero_iff; lia]|]).
    exists p, fee. repeat split; assumption.
  - intros (Hpk & Hrc & Hra & Hb & Hplus & Hdot & Hrev & Hrdy & Hv & p & fee & Hpre
            & Hfee & Hlt & ->).
    destruct (namespacereveal.sender_pubkey nameop) as [pk|]; [|congruence].
    destruct (namespacereveal.recipient nameop) as [rc|]; [|congruence].
    destruct (namespacereveal.recipient_address nameop) as [ra|]; [|congruence].
    rewrite Hb, Hplus, (proj2 (count_zero_iff _ _) Hdot), Hrev, Hrdy, Hpre, Hv, Hfee,
      Hlt.
    cbn [negb orb Z.ltb Z.compare]. rewrite Z.eqb_refl. cbn [negb].
    destruct (negb (str_eqb (nameset.np_sender p) (namespacereveal.sender nameop)));
      reflexivity.
Qed.

(** X13.  [check] accepts a NAMESPACE_REVEAL exactly when no
    NAMESPACE_REVEAL of the same namespace was accepted earlier in the
    block, the transaction carries a sender public key, a recipient and
    a recipient address, the identifier is base-40 without ['+'] or
    ['.'], the namespace is neither revealed nor ready, its hash was
    preordered, the version is the current one and the preorder's fee is
    not below the price of the namespace.  The accepted operation keeps
    its fields and takes its reveal block, block number and fee from the
    preorder, with ready block 0; the sender of the preorder plays no
    part. *)
Theorem namespacereveal_check_iff (testset : bool) (state_engine : nameset.StateEngine)
    (nameop accepted : namespacereveal.nameop) (block_id : Z)
    (checked_ops : list nameset.checked_op) :
  namespacereveal.check testset state_engine nameop block_id checked_ops = Some accepted
  <-> (forall prev : nameset.checked_op,
         In prev checked_ops -> nameset.co_op prev = [NAMESPACE_REVEAL] ->
         nameset.co_namespace_id prev <> Some (namespacereveal.namespace_id nameop))
      /\ namespacereveal.sender_pubkey nameop <> None
      /\ namespacereveal.recipient nameop <> None
      /\ namespacereveal.recipient_address nameop <> None
      /\ is_b40 (namespacereveal.namespace_id nameop) = true
      /\ contains "+" (namespacereveal.namespace_id nameop) = false
      /\ contains "." (namespacereveal.namespace_id nameop) = false
      /\ nameset.is_namespace_revealed state_engine
           (namespacereveal.namespace_id nameop) = false
      /\ nameset.is_namespace_ready state_engine
           (namespacereveal.namespace_id nameop) = false
      /\ namespacereveal.version nameop = BLOCKSTACK_VERSION
      /\ exists (namespace_preorder : nameset.namespace_preorder) (namespace_fee : Z),
           nameset.get_namespace_preorder state_engine
             (namespacereveal.preorder_hash nameop) = Some namespace_preorder
           /\ nameset.np_op_fee namespace_preorder = Some namespace_fee
           /\ int_lt_number namespace_fee
                (price_namespace testset (namespacereveal.namespace_id nameop)) = false
           /\ accepted
              = {| namespacereveal.namespace_id := namespacereveal.namespace_id nameop;
                   namespacereveal.preorder_hash := namespacereveal.preorder_hash nameop;
                   namespacereveal.version := namespacereveal.version nameop;
                   namespacereveal.sender := namespacereveal.sender nameop;
                   namespacereveal.address := namespacereveal.address nameop;
                   namespacereveal.sender_pubkey := namespacereveal.sender_pubkey nameop;
                   namespacereveal.recipient := namespacereveal.recipient nameop;
                   namespacereveal.recipient_address :=
                     namespacereveal.recipient_address nameop;
                   namespacereveal.reveal_block :=
                     nameset.np_block_number namespace_preorder;
                   namespacereveal.block_number :=
                     Some (nameset.np_block_number namespace_preorder);
                   namespacereveal.ready_block := Some 0;
                   namespacereveal.op_fee := Some namespace_fee |}.
Proof.
  unfold namespacereveal.check, nameset.state_create.
  rewrite <- (check_namespace_collision_false _ block_id checked_ops).
  destruct (namespacereveal.check_body testset state_engine nameop block_id
              checked_ops) as [a|] eqn:Hb.
  - destruct (nameset.check_namespace_collision _ block_id checked_ops).
    + split; [discriminate | intros [E _]; discriminate].
    + split.
      * intros E. injection E as <-. split; [reflexivity|].
        now apply (namespacereveal_check_body_iff testset state_engine nameop a
                     block_id checked_ops).
      * intros [_ H].
        apply (namespacereveal_check_body_iff testset state_engine nameop accepted
                 block_id checked_ops) in H.
        congruence.
  - split; [discriminate|]. intros [_ H].
    apply (namespacereveal_check_body_iff testset state_engine nameop accepted
             block_id checked_ops) in H.
    congruence.
Qed.

(** X14.  [get_reveal_recipient_from_outputs] returns a script exactly for
    a transaction of three outputs whose second has a ['hex'] entry and
    is not an OP_RETURN, and it returns that entry; on such outputs, when
    the first is the OP_RETURN and the entry is not empty,
    [get_transfer_recipient_from_outputs] finds the same script. *)
Theorem get_reveal_recipient_from_outputs_iff (outputs : list tx.output) (ret : str) :
  (namespacereveal.get_reveal_recipient_from_outputs outputs = Ok ret
   <-> exists o0 o1 o2 : tx.output,
         outputs = [o0; o1; o2]
         /\ tx.hex o1 = Some ret
         /\ str_eqb (slice (tx.asm o1) 0 9) (py "OP_RETURN") = false)
  /\ (namespacereveal.get_reveal_recipient_from_outputs outputs = Ok ret ->
      ret <> [] ->
      (exists o0, hd_error outputs = Some o0
                  /\ str_eqb (slice (tx.asm o0) 0 9) (py "OP_RETURN") = true) ->
      transfer.get_transfer_recipient_from_outputs outputs = Ok ret).
Proof.
  assert (Hiff :
    namespacereveal.get_reveal_recipient_from_outputs outputs = Ok ret
    <-> exists o0 o1 o2 : tx.output,
          outputs = [o0; o1; o2]
          /\ tx.hex o1 = Some ret
          /\ str_eqb (slice (tx.asm o1) 0 9) (py "OP_RETURN") = false).
  { unfold namespacereveal.get_reveal_recipient_from_outputs. split.
    - intros Hr.
      destruct outputs as [|o0 [|o1 [|o2 [|o3 rest]]]];
        try (cbn in Hr; discriminate).
      + exists o0, o1, o2.
        change (len [o0; o1; o2] =? 3) with true in Hr.
        change (index [o0; o1; o2] 1) with (Ok o1) in Hr. cbn [negb bind] in Hr.
        destruct (tx.hex o1) as [h|]; [|discriminate].
        destruct (str_eqb (slice (tx.asm o1) 0 9) (py "OP_RETURN")) eqn:Ha;
          [discriminate|].
        cbn [negb] in Hr. injection Hr as ->. repeat split.
      + exfalso. revert Hr.
        replace (len (o0 :: o1 :: o2 :: o3 :: rest) =? 3) with false; [discriminate|].
        symmetry. apply Z.eqb_neq. rewrite !len_cons.
        pose proof (len_nonneg rest). lia.
    - intros (o0 & o1 & o2 & -> & Hh & Ha).
      change (len [o0; o1; o2] =? 3) with true.
      change (index [o0; o1; o2] 1) with (Ok o1). cbn [negb bind].
      rewrite Hh, Ha. reflexivity. }
  split; [exact Hiff|].
  intros Hr Hne (o & Hhd & Hop).
  apply Hiff in Hr. destruct Hr as (o0 & o1 & o2 & -> & Hh & Ha).
  cbn in Hhd. injection Hhd as <-.
  unfold transfer.get_transfer_recipient_from_outputs.
  cbn [transfer.find_transfer_recipient].
  rewrite Hop, Hh, Ha. cbn [negb].
  destruct ret as [|c h]; [congruence|].
  destruct (tx.hex o0) as [[|? ?]|]; reflexivity.
Qed.

Lemma get_reveal_recipient_from_outputs_iff_witness :
  transfer.get_transfer_recipient_from_outputs
    [ {| tx.asm := py "OP_RETURN 69642678797a"; tx.hex := Some (py "6a0c69642678797a");
         tx.addresses := [] |};
      {| tx.asm := py "OP_DUP OP_HASH160 bb OP_EQUALVERIFY OP_CHECKSIG";
         tx.hex := Some sample.script_R; tx.addresses := [sample.addr_R] |};
      {| tx.asm := py "OP_DUP OP_HASH160 aa OP_EQUALVERIFY OP_CHECKSIG";
         tx.hex := Some sample.script_S; tx.addresses := [sample.addr_S] |} ]
  = Ok sample.script_R.
Proof.
  refine (proj2 (get_reveal_recipient_from_outputs_iff _ sample.script_R) _ _ _).
  - reflexivity.
  - discriminate.
  - eexists. split; reflexivity.
Defined.

(** ** NAME_PREORDER *)

Lemma is_b40_app (a b : str) : is_b40 (a ++ b) = is_b40 a && is_b40 b.
Proof. apply forallb_app. Qed.

(** X15.  [build] computes the hash of a name only if the name with the
    three bytes of the scheme fits in 37 bytes: of the names
    [is_name_valid] accepts, which may have 37 bytes themselves, it
    refuses those longer than 34 bytes and hashes the others. *)
Theorem preorder_build_name_limit `{Externals}
    (name script_pubkey register_addr consensus_hash : str) (testset : bool) :
  is_name_valid name = true ->
  (34 < len name ->
   preorder.build (Some name) script_pubkey register_addr consensus_hash None testset
   = Raise (Exception "Name is too long"))
  /\ (len name <= 34 ->
      forall name_hash : str,
        hash_name name script_pubkey register_addr = Ok name_hash ->
        preorder.build (Some name) script_pubkey register_addr consensus_hash None
          testset
        = preorder.build (Some name) script_pubkey register_addr consensus_hash
            (Some name_hash) testset).
Proof.
  intros Hv.
  destruct (is_name_valid_shape _ Hv)
    as (n & ns & -> & _ & _ & Hb1 & Hp1 & Hd1 & Hb2 & Hp2 & Hd2 & _).
  assert (Hb : is_b40 (n ++ "."%char :: ns) = true).
  { rewrite is_b40_app, Hb1. cbn [andb].
    change ("."%char :: ns) with (["."%char] ++ ns). rewrite is_b40_app, Hb2.
    reflexivity. }
  assert (Hp : contains "+" (n ++ "."%char :: ns) = false).
  { rewrite contains_app, Hp1. cbn [orb].
    change ("."%char :: ns) with (["."%char] ++ ns). rewrite contains_app, Hp2.
    reflexivity. }
  assert (Hd : count "." (n ++ "."%char :: ns) = 1).
  { rewrite count_app. cbn [count]. rewrite Ascii.eqb_refl.
    rewrite (proj2 (count_zero_iff _ _) Hd1), (proj2 (count_zero_iff _ _) Hd2).
    reflexivity. }
  split.
  - intros Hlen. unfold preorder.build. rewrite Hb, Hp, Hd. cbn [negb orb].
    change (1 <? 1) with false. cbv iota.
    change (len NAME_SCHEME) with 3. change LENGTHS.blockchain_id_name with 37.
    destruct (Z.ltb_spec 37 (3 + len (n ++ "."%char :: ns))); [reflexivity | lia].
  - intros Hlen name_hash Hh. apply preorder_build_hashed; try assumption.
    + lia.
    + change (len NAME_SCHEME) with 3. change LENGTHS.blockchain_id_name with 37. lia.
Qed.

Lemma preorder_build_name_limit_witness :
  @preorder.build sample.externals (Some (py "abcdefghijklmnopqrstuvwxyz012345.test"))
    sample.script_S sample.addr_R sample.CH_109 None false
  = Raise (Exception "Name is too long").
Proof.
  refine (proj1 (@preorder_build_name_limit sample.externals
                   (py "abcdefghijklmnopqrstuvwxyz012345.test")
                   sample.script_S sample.addr_R sample.CH_109 false _) _).
  - reflexivity.
  - reflexivity.
Defined.

(** X16.  [parse] accepts exactly the payloads of 36 bytes, whatever
    their content; [build], given the two hashes [parse] returned,
    gives back the payload after the magic bytes and the opcode ['?']. *)
Theorem preorder_parse_build `{Externals} (bin_payload : str) :
  (forall p, preorder.parse bin_payload = Some p -> len bin_payload = 36)
  /\ (len bin_payload = 36 ->
      exists p,
        preorder.parse bin_payload = Some p
        /\ preorder.opcode p = py "NAME_PREORDER"
        /\ len (preorder.preorder_hash p) = 40
        /\ len (preorder.consensus_hash p) = 32
        /\ forall (name : option str) (script_pubkey register_addr : str)
                  (testset : bool),
             exists script,
               preorder.build name script_pubkey register_addr
                 (preorder.consensus_hash p) (Some (preorder.preorder_hash p)) testset
               = Ok script
               /\ unhexlify script
                  = Ok ((if testset then MAGIC_BYTES_TESTSET else MAGIC_BYTES_MAINSET)
                        ++ [NAME_PREORDER] ++ bin_payload)).
Proof.
  unfold preorder.parse.
  change (LENGTHS.preorder_name_hash + LENGTHS.consensus_hash) with 36.
  change LENGTHS.preorder_name_hash with 20.
  split.
  - intros p. destruct (Z.eqb_spec (len bin_payload) 36); [easy | discriminate].
  - intros Hlen. rewrite Hlen. cbn [Z.eqb Pos.eqb negb].
    destruct (split_at bin_payload 20) as (h & c & -> & Hh); [lia|].
    rewrite len_app, Hh in Hlen.
    rewrite (slice_app_take h c 20 Hh), (slice_from_app h c 20 Hh).
    eexists. split; [reflexivity|]. cbn [preorder.opcode preorder.preorder_hash
                                           preorder.consensus_hash].
    split; [reflexivity|]. rewrite !len_hexlify.
    split; [lia|]. split; [lia|].
    intros name script_pubkey register_addr testset.
    unfold preorder.build. cbn [bind].
    replace (py "NAME_PREORDER 0x" ++ hexlify h ++ py " 0x" ++ hexlify c)
      with (py "NAME_PREORDER" ++ script_of [hexlify h; hexlify c])
      by (cbn [script_of]; rewrite app_nil_r; reflexivity).
    rewrite (blockstack_script_to_hex_parts (py "NAME_PREORDER") (py "3f")).
    + cbn [bind List.concat]. eexists. split; [reflexivity|].
      unfold add_magic_bytes.
      rewrite unhexlify_hexlify.
      rewrite (unhexlify_digits 1 (py "3f") [3; 15]);
        [| repeat constructor; unfold nibble; lia | reflexivity].
      rewrite !unhexlify_hexlify. cbn [unhexlify bind]. rewrite app_nil_r.
      destruct testset; reflexivity.
    + reflexivity.
    + reflexivity.
    + repeat constructor; apply hexlify_no_space.
    + cbn [List.concat]. rewrite !len_app, !len_hexlify, Hh.
      change (len (py "3f")) with 2. change (len (@nil ascii)) with 0.
      replace (2 + (2 * 20 + (2 * len c + 0))) with ((21 + len c) * 2) by lia.
      apply Z.mod_mul. lia.
Qed.

Lemma preorder_parse_build_witness :
  exists p,
    preorder.parse (py "012345678901234567890123456789012345") = Some p
    /\ len (preorder.preorder_hash p) = 40.
Proof.
  destruct (@preorder_parse_build sample.externals
              (py "012345678901234567890123456789012345")) as (_ & Hok).
  destruct (Hok eq_refl) as (p & Hp & _ & Hl & _).
  exists p. split; [exact Hp | exact Hl].
Defined.

(** ** NAME_TRANSFER *)

(** X17.  [check] accepts a NAME_TRANSFER exactly when the hash names a
    name with a record, in a ready namespace, neither revoked nor
    expired at the last block, registered and owned by the sender; the
    consensus hash is valid and belongs to a block; and the recipient is
    not the sender, does not own the name and owns fewer than
    [MAX_NAMES_PER_SENDER] names.  The accepted operation names the
    recipient as the new owner and drops the public key; its consensus
    hash is the record's, not the transaction's, and its opcode is [>>]
    or [>~]. *)
Theorem transfer_check_iff (state_engine : nameset.StateEngine)
    (nameop : transfer.nameop) (block_id : Z) (checked_ops : list nameset.checked_op)
    (op : transfer.accepted) :
  transfer.check state_engine nameop block_id checked_ops = Some op
  <-> exists (name : str) (name_rec : nameset.name_rec) (transfer_send_block_id : Z),
        nameset.get_name_from_name_hash128 state_engine
          (transfer.name_hash128 (transfer.fields nameop)) = Some name
        /\ nameset.get_name state_engine name = Some name_rec
        /\ nameset.is_namespace_ready state_engine (get_namespace_from_name name) = true
        /\ nameset.is_name_revoked state_engine name = false
        /\ nameset.is_name_expired state_engine name (nameset.lastblock state_engine)
           = false
        /\ nameset.is_consensus_hash_valid state_engine block_id
             (transfer.consensus_hash (transfer.fields nameop)) = true
        /\ transfer.sender nameop <> transfer.recipient (transfer.fields nameop)
        /\ nameset.is_name_registered state_engine name = true
        /\ nameset.is_name_owner state_engine name (transfer.sender nameop) = true
        /\ ~ In name (nameset.get_names_owned_by_sender state_engine
                        (transfer.recipient (transfer.fields nameop)))
        /\ len (nameset.get_names_owned_by_sender state_engine
                  (transfer.recipient (transfer.fields nameop))) < MAX_NAMES_PER_SENDER
        /\ nameset.get_block_from_consensus state_engine
             (transfer.consensus_hash (transfer.fields nameop))
           = Some transfer_send_block_id
        /\ op = {| transfer.a_name := name;
                   transfer.a_sender := transfer.recipient (transfer.fields nameop);
                   transfer.a_address := transfer.recipient_address nameop;
                   transfer.a_sender_pubkey := None;
                   transfer.a_consensus_hash := nameset.consensus_hash name_rec;
                   transfer.a_transfer_send_block_id := transfer_send_block_id;
                   transfer.a_value_hash :=
                     if transfer.keep_data (transfer.fields nameop)
                     then nameset.value_hash name_rec else None;
                   transfer.a_op :=
                     if transfer.keep_data (transfer.fields nameop)
                     then py ">>" else py ">~" |}.
Proof.
  unfold transfer.check. split.
  - intros Hc.
    destruct (nameset.get_name_from_name_hash128 state_engine _) as [name|] eqn:Hn;
      [|discriminate].
    destruct (nameset.get_name state_engine name) as [name_rec|] eqn:Hrec;
      [|discriminate].
    destruct (nameset.is_namespace_ready state_engine _) eqn:Hrdy; [|discriminate].
    destruct (nameset.is_name_revoked state_engine name) eqn:Hrev; [discriminate|].
    destruct (nameset.is_name_expired state_engine name _) eqn:Hexp; [discriminate|].
    destruct (nameset.is_consensus_hash_valid state_engine block_id _) eqn:Hch;
      [|discriminate].
    destruct (str_eqb (transfer.sender nameop) _) eqn:Hself; [discriminate|].
    destruct (nameset.is_name_registered state_engine name) eqn:Hreg; [|discriminate].
    destruct (nameset.is_name_owner state_engine name _) eqn:Hown; [|discriminate].
    cbn [negb] in Hc.
    destruct (existsb (str_eqb name) _) eqn:Hin; [discriminate|].
    destruct (Z.leb_spec MAX_NAMES_PER_SENDER
                (len (nameset.get_names_owned_by_sender state_engine
                        (transfer.recipient (transfer.fields nameop)))));
      [discriminate|].
    destruct (nameset.get_block_from_consensus state_engine _) as [b|] eqn:Hb;
      [|discriminate].
    injection Hc as <-.
    exists name, name_rec, b.
    repeat (split; [first [reflexivity | assumption]|]).
    split; [now apply str_eqb_neq|].
    repeat (split; [first [reflexivity | assumption]|]).
    split.
    { intros HI. apply existsb_str_eqb_In in HI. congruence. }
    repeat (split; [first [reflexivity | assumption]|]).
    destruct (transfer.keep_data (transfer.fields nameop)); reflexivity.
  - intros (name & name_rec & b & Hn & Hrec & Hrdy & Hrev & Hexp & Hch & Hself & Hreg
            & Hown & Hin & Hq & Hb & ->).
    rewrite Hn, Hrec, Hrdy, Hrev, Hexp, Hch, Hreg, Hown, Hb.
    rewrite (proj2 (str_eqb_neq _ _) Hself). cbn [negb].
    destruct (existsb (str_eqb name) _) eqn:HI;
      [apply existsb_str_eqb_In in HI; contradiction|].
    destruct (Z.leb_spec MAX_NAMES_PER_SENDER
                (len (nameset.get_names_owned_by_sender state_engine
                        (transfer.recipient (transfer.fields nameop))))); [lia|].
    destruct (transfer.keep_data (transfer.fields nameop)); reflexivity.
Qed.

(** X18.  For a name [transfer_sanity_check] accepts, a 128-bit hash and
    a 128-bit consensus hash, [build] returns a script of 36 bytes: the
    magic bytes, the opcode [>], the disposition byte ([>] to keep the
    data, [~] to drop them), the hash of the name and the consensus
    hash; [parse] reads the hashes and the flag back from it. *)
Theorem transfer_roundtrip `{Externals} `{Hashing}
    (name : str) (keepdata : bool) (h c recipient : str) (testset : bool) :
  is_b40 name = true -> contains "+" name = false -> count "." name <= 1 ->
  len name <= 37 ->
  hash256_trunc128 name = hexlify h -> len h = 16 -> len c = 16 ->
  exists script unhexed,
    transfer.build name keepdata (hexlify c) testset = Ok script
    /\ unhexlify script = Ok unhexed
    /\ unhexed = (if testset then MAGIC_BYTES_TESTSET else MAGIC_BYTES_MAINSET)
                 ++ [NAME_TRANSFER]
                 ++ [if keepdata then TRANSFER_KEEP_DATA else TRANSFER_REMOVE_DATA]
                 ++ h ++ c
    /\ len unhexed = 36
    /\ transfer.parse (slice_from unhexed 3) recipient
       = Some {| transfer.opcode := py "NAME_TRANSFER";
                 transfer.name_hash128 := hash256_trunc128 name;
                 transfer.consensus_hash := hexlify c;
                 transfer.recipient := recipient;
                 transfer.keep_data := keepdata |}.
Proof.
  intros Hb Hp Hd Hl Hh Hlh Hlc.
  set (d := if keepdata then TRANSFER_KEEP_DATA else TRANSFER_REMOVE_DATA).
  assert (Hbuild : transfer.build name keepdata (hexlify c) testset
                   = Ok (hexlify (if testset then MAGIC_BYTES_TESTSET
                                  else MAGIC_BYTES_MAINSET)
                         ++ py "3e" ++ hexlify [d] ++ hexlify h ++ hexlify c)).
  { unfold transfer.build, transfer.transfer_sanity_check.
    rewrite Hb, Hp. cbn [negb orb].
    destruct (Z.ltb_spec 1 (count "." name)); [lia|].
    change LENGTHS.blockchain_id_name with 37.
    destruct (Z.ltb_spec 37 (len name)); [lia|]. cbn [bind negb].
    rewrite Hh. fold d.
    replace (py "NAME_TRANSFER 0x" ++ hexlify [d] ++ py " 0x" ++ hexlify h
             ++ py " 0x" ++ hexlify c)
      with (py "NAME_TRANSFER" ++ script_of [hexlify [d]; hexlify h; hexlify c])
      by (cbn [script_of]; rewrite app_nil_r; reflexivity).
    rewrite (blockstack_script_to_hex_parts (py "NAME_TRANSFER") (py "3e")).
    - cbn [bind List.concat]. unfold add_magic_bytes. rewrite app_nil_r.
      destruct testset; reflexivity.
    - reflexivity.
    - reflexivity.
    - repeat constructor; apply hexlify_no_space.
    - cbn [List.concat]. rewrite !len_app, !len_hexlify, Hlh, Hlc. reflexivity. }
  eexists. eexists. split; [exact Hbuild|].
  split.
  { rewrite unhexlify_hexlify.
    rewrite (unhexlify_digits 1 (py "3e") [3; 14]);
      [| repeat constructor; unfold nibble; lia | reflexivity].
    rewrite !unhexlify_hexlify.
    rewrite <- (app_nil_r (hexlify c)), unhexlify_hexlify.
    cbn [unhexlify bind]. rewrite !app_nil_r. reflexivity. }
  split; [reflexivity|].
  split.
  { rewrite !len_app, Hlh, Hlc. destruct testset; reflexivity. }
  match goal with
  | |- context [slice_from ?x 3] =>
      replace (slice_from x 3) with ([d] ++ h ++ c) by (destruct testset; reflexivity)
  end.
  unfold transfer.parse.
  change (1 + LENGTHS.name_hash + LENGTHS.consensus_hash) with 33.
  change (1 + LENGTHS.name_hash) with 17.
  rewrite !len_app, Hlh, Hlc. change (len [d] + (16 + 16) =? 33) with true.
  cbn [negb].
  rewrite (slice_app_take [d] (h ++ c) 1 eq_refl).
  rewrite (slice_app_skip [d] (h ++ c) 1 1 17 eq_refl) by lia.
  rewrite (slice_from_app_skip [d] (h ++ c) 1 17 eq_refl) by lia.
  change (1 - 1) with 0. change (17 - 1) with 16.
  rewrite (slice_app_take h c 16 Hlh), (slice_from_app h c 16 Hlh).
  rewrite Hh. subst d. destruct keepdata; reflexivity.
Qed.

Lemma transfer_roundtrip_witness :
  exists script unhexed,
    @transfer.build sample.externals sample_hashing (py "alice.test") false
      sample.CH_109 true = Ok script
    /\ unhexlify script = Ok unhexed
    /\ len unhexed = 36
    /\ option_map transfer.keep_data
         (transfer.parse (slice_from unhexed 3) sample.script_R) = Some false.
Proof.
  destruct (@transfer_roundtrip sample.externals sample_hashing (py "alice.test") false
              (py "alice.test000000")
              (map chr [23; 172; 67; 193; 216; 84; 156; 49; 129; 178; 0; 241; 191; 151;
                        235; 125])
              sample.script_R true)
    as (script & unhexed & Hb & Hu & _ & Hl & Hp);
    try reflexivity; try (vm_compute; discriminate).
  exists script, unhexed. repeat split; try assumption.
  rewrite Hp. reflexivity.
Defined.

Lemma find_transfer_recipient_skip (o : tx.output) (rest : list tx.output) :
  skipped_output o ->
  transfer.find_transfer_recipient (o :: rest) = transfer.find_transfer_recipient rest.
Proof.
  intros [Hop | [Hn | He]]; cbn [transfer.find_transfer_recipient].
  - rewrite Hop. destruct (tx.hex o) as [[|? ?]|]; reflexivity.
  - rewrite Hn. reflexivity.
  - rewrite He. reflexivity.
Qed.

Lemma find_transfer_recipient_none (outputs : list tx.output) :
  transfer.find_transfer_recipient outputs = None <-> Forall skipped_output outputs.
Proof.
  induction outputs as [|o rest IH]; [split; [constructor | reflexivity]|].
  split.
  - intros Hf. cbn [transfer.find_transfer_recipient] in Hf.
    destruct (tx.hex o) as [[|c h]|] eqn:Hh.
    + constructor; [right; right; exact Hh | now apply IH].
    + destruct (str_eqb (slice (tx.asm o) 0 9) (py "OP_RETURN")) eqn:Hop;
        [|discriminate].
      constructor; [left; exact Hop | now apply IH].
    + constructor; [right; left; exact Hh | now apply IH].
  - intros Hall. inversion Hall as [|? ? Ho Hrest]; subst.
    rewrite (find_transfer_recipient_skip _ _ Ho). now apply IH.
Qed.

Lemma find_transfer_recipient_some (outputs : list tx.output) (ret : str) :
  transfer.find_transfer_recipient outputs = Some ret
  <-> exists (skipped : list tx.output) (o : tx.output) (rest : list tx.output),
        outputs = skipped ++ o :: rest
        /\ Forall skipped_output skipped
        /\ str_eqb (slice (tx.asm o) 0 9) (py "OP_RETURN") = false
        /\ tx.hex o = Some ret /\ ret <> [].
Proof.
  induction outputs as [|o rest IH].
  - split; [discriminate|]. intros (sk & o & r & E & _). destruct sk; discriminate.
  - split.
    + intros Hf. cbn [transfer.find_transfer_recipient] in Hf.
      assert (Hrec : transfer.find_transfer_recipient rest = Some ret ->
                     skipped_output o ->
                     exists sk o' r, o :: rest = sk ++ o' :: r
                       /\ Forall skipped_output sk
                       /\ str_eqb (slice (tx.asm o') 0 9) (py "OP_RETURN") = false
                       /\ tx.hex o' = Some ret /\ ret <> []).
      { intros Hr Ho. apply IH in Hr. destruct Hr as (sk & o' & r & -> & Hsk & Hrest).
        exists (o :: sk), o', r. split; [reflexivity|]. split; [|exact Hrest].
        constructor; assumption. }
      destruct (tx.hex o) as [[|c h]|] eqn:Hh.
      * apply Hrec; [exact Hf | right; right; exact Hh].
      * destruct (str_eqb (slice (tx.asm o) 0 9) (py "OP_RETURN")) eqn:Hop.
        -- apply Hrec; [exact Hf | left; exact Hop].
        -- cbn [negb] in Hf. injection Hf as <-.
           exists [], o, rest. repeat split; try assumption; try constructor.
           discriminate.
      * apply Hrec; [exact Hf | right; left; exact Hh].
    + intros (sk & o' & r & E & Hsk & Hop & Hh & Hne).
      destruct sk as [|s sk].
      * cbn [app] in E. injection E as -> ->.
        cbn [transfer.find_transfer_recipient]. rewrite Hh, Hop.
        destruct ret; [contradiction | reflexivity].
      * cbn [app] in E. injection E as -> ->.
        inversion Hsk as [|? ? Hs Hsk']; subst.
        rewrite (find_transfer_recipient_skip _ _ Hs). apply IH.
        exists sk, o', r. repeat split; assumption.
Qed.

(** X19.  [get_transfer_recipient_from_outputs] returns the script of the
    first output that is not an OP_RETURN and has a non-empty ['hex']
    entry, wherever it stands and however many outputs there are; it
    raises exactly when there is no such output. *)
Theorem get_transfer_recipient_from_outputs_first (outputs : list tx.output) :
  (forall ret : str,
     transfer.get_transfer_recipient_from_outputs outputs = Ok ret
     <-> exists (skipped : list tx.output) (o : tx.output) (rest : list tx.output),
           outputs = skipped ++ o :: rest
           /\ Forall skipped_output skipped
           /\ str_eqb (slice (tx.asm o) 0 9) (py "OP_RETURN") = false
           /\ tx.hex o = Some ret /\ ret <> [])
  /\ (transfer.get_transfer_recipient_from_outputs outputs
      = Raise (Exception "No recipients found")
      <-> Forall skipped_output outputs).
Proof.
  unfold transfer.get_transfer_recipient_from_outputs. split.
  - intros ret. rewrite <- find_transfer_recipient_some.
    destruct (transfer.find_transfer_recipient outputs);
      split; intros E; try discriminate; congruence.
  - rewrite <- find_transfer_recipient_none.
    destruct (transfer.find_transfer_recipient outputs);
      split; intros E; try discriminate; reflexivity.
Qed.

(** ** NAMESPACE_READY *)

Lemma namespaceready_build_ok `{Externals} (namespace_id : str) (testset : bool) :
  ready_id_ok namespace_id ->
  namespaceready.build namespace_id testset
  = Ok (hexlify (if testset then MAGIC_BYTES_TESTSET else MAGIC_BYTES_MAINSET)
        ++ py "21" ++ hexlify ("."%char :: namespace_id)).
Proof.
  intros (Hb & Hp & Hd & Hl). unfold namespaceready.build.
  rewrite Hb, Hp, (proj2 (count_zero_iff _ _) Hd). cbn [negb orb Z.ltb Z.compare].
  change LENGTHS.blockchain_id_namespace_id with 19.
  destruct (Z.eqb_spec (len namespace_id) 0); [lia|].
  destruct (Z.ltb_spec 19 (len namespace_id)); [lia|]. cbn [orb].
  replace (py "NAMESPACE_READY 0x" ++ hexlify ("."%char :: namespace_id))
    with (py "NAMESPACE_READY" ++ script_of [hexlify ("."%char :: namespace_id)])
    by (cbn [script_of]; rewrite app_nil_r; reflexivity).
  rewrite (blockstack_script_to_hex_parts (py "NAMESPACE_READY") (py "21")).
  - cbn [bind List.concat]. unfold add_magic_bytes. rewrite app_nil_r.
    destruct testset; reflexivity.
  - reflexivity.
  - reflexivity.
  - repeat constructor; apply hexlify_no_space.
  - cbn [List.concat]. rewrite !len_app, len_hexlify.
    change (len (py "21")) with 2. change (len (@nil ascii)) with 0.
    replace (2 + (2 * len ("."%char :: namespace_id) + 0))
      with ((1 + len ("."%char :: namespace_id)) * 2) by lia.
    apply Z.mod_mul. lia.
Qed.

(** X20.  [build] and [parse] agree on namespace identifiers: [build]
    returns a script exactly for a base-40 identifier of 1 to 19 bytes
    without ['+'] or ['.'], the script holds the magic bytes, the opcode
    ['!'], a ['.'] and the identifier, and [parse] reads the identifier
    back from it; conversely whatever [parse] accepts is the payload of
    the script [build] makes for the identifier it returned. *)
Theorem namespaceready_roundtrip `{Externals} (testset : bool) :
  (forall namespace_id : str,
     (exists script, namespaceready.build namespace_id testset = Ok script)
     <-> ready_id_ok namespace_id)
  /\ (forall namespace_id script : str,
        namespaceready.build namespace_id testset = Ok script ->
        exists unhexed,
          unhexlify script = Ok unhexed
          /\ unhexed = (if testset then MAGIC_BYTES_TESTSET else MAGIC_BYTES_MAINSET)
                       ++ [NAMESPACE_READY] ++ "."%char :: namespace_id
          /\ namespaceready.parse (slice_from unhexed 3)
             = Some {| namespaceready.opcode := py "NAMESPACE_READY";
                       namespaceready.namespace_id := namespace_id |})
  /\ (forall (bin_payload : str) (p : namespaceready.payload),
        namespaceready.parse bin_payload = Some p ->
        exists script,
          namespaceready.build (namespaceready.namespace_id p) testset = Ok script
          /\ unhexlify script
             = Ok ((if testset then MAGIC_BYTES_TESTSET else MAGIC_BYTES_MAINSET)
                   ++ [NAMESPACE_READY] ++ bin_payload)).
Proof.
  assert (Hiff : forall namespace_id : str,
            (exists script, namespaceready.build namespace_id testset = Ok script)
            <-> ready_id_ok namespace_id).
  { intros id. split.
    - intros [script Hs]. unfold namespaceready.build in Hs. unfold ready_id_ok.
      change LENGTHS.blockchain_id_namespace_id with 19 in Hs.
      destruct (is_b40 id) eqn:Hb; [|discriminate].
      destruct (contains "+" id) eqn:Hplus; [discriminate|]. cbn [negb orb] in Hs.
      destruct (Z.ltb_spec 0 (count "." id)); [discriminate|].
      destruct (Z.eqb_spec (len id) 0); [discriminate|].
      destruct (Z.ltb_spec 19 (len id)); [discriminate|].
      pose proof (count_nonneg "." id). pose proof (len_nonneg id).
      repeat split; try lia. apply count_zero_iff. lia.
    - intros Hok. eexists. apply namespaceready_build_ok. exact Hok. }
  assert (Hun : forall id : str,
            unhexlify (hexlify (if testset then MAGIC_BYTES_TESTSET
                                else MAGIC_BYTES_MAINSET)
                       ++ py "21" ++ hexlify ("."%char :: id))
            = Ok ((if testset then MAGIC_BYTES_TESTSET else MAGIC_BYTES_MAINSET)
                  ++ [NAMESPACE_READY] ++ "."%char :: id)).
  { intros id. rewrite unhexlify_hexlify.
    rewrite (unhexlify_digits 1 (py "21") [2; 1]);
      [| repeat constructor; unfold nibble; lia | reflexivity].
    rewrite <- (app_nil_r (hexlify ("."%char :: id))), unhexlify_hexlify.
    cbn [unhexlify bind]. rewrite !app_nil_r. reflexivity. }
  split; [exact Hiff|]. split.
  - intros id script Hs.
    assert (Hok : ready_id_ok id) by (apply Hiff; eexists; exact Hs).
    rewrite (namespaceready_build_ok id testset Hok) in Hs. injection Hs as <-.
    eexists. split; [apply Hun|]. split; [reflexivity|].
    replace (slice_from
               ((if testset then MAGIC_BYTES_TESTSET else MAGIC_BYTES_MAINSET)
                ++ [NAMESPACE_READY] ++ "."%char :: id) 3)
      with ("."%char :: id) by (destruct testset; reflexivity).
    apply namespaceready_parse_iff. repeat split; apply Hok.
  - intros bin_payload p Hp. apply namespaceready_parse_iff in Hp.
    destruct Hp as (-> & _ & Hok).
    eexists. split; [apply namespaceready_build_ok; exact Hok | apply Hun].
Qed.

Lemma namespaceready_roundtrip_witness :
  exists unhexed,
    unhexlify (py "6567212e78797a") = Ok unhexed
    /\ namespaceready.parse (slice_from unhexed 3)
       = Some {| namespaceready.opcode := py "NAMESPACE_READY";
                 namespaceready.namespace_id := py "xyz" |}.
Proof.
  destruct (@namespaceready_roundtrip sample.externals true) as (_ & Hrt & _).
  destruct (Hrt (py "xyz") (py "6567212e78797a") eq_refl) as (u & Hu & _ & Hp).
  exists u. split; assumption.
Defined.

(** X21.  [check] accepts a NAMESPACE_READY exactly when the namespace is
    revealed, the recipient of its reveal is the sender of the
    operation, and it is not ready yet; the accepted operation takes its
    address and public key from the reveal.  As long as every namespace
    the state engine reports as revealed has a reveal record, [check]
    raises nothing. *)
Theorem namespaceready_check_iff (state_engine : nameset.StateEngine)
    (get_namespace_reveal : str -> option namespaceready.revealed)
    (nameop accepted : namespaceready.nameop) (block_id : Z)
    (checked_ops : list nameset.checked_op) :
  (namespaceready.check state_engine get_namespace_reveal nameop block_id checked_ops
   = Ok (Some accepted)
   <-> exists revealed_namespace : namespaceready.revealed,
         nameset.is_namespace_revealed state_engine
           (namespaceready.namespace_id (namespaceready.fields nameop)) = true
         /\ get_namespace_reveal
              (namespaceready.namespace_id (namespaceready.fields nameop))
            = Some revealed_namespace
         /\ namespaceready.recipient revealed_namespace = namespaceready.sender nameop
         /\ nameset.is_namespace_ready state_engine
              (namespaceready.namespace_id (namespaceready.fields nameop)) = false
         /\ accepted
            = {| namespaceready.fields := namespaceready.fields nameop;
                 namespaceready.sender := namespaceready.sender nameop;
                 namespaceready.op_address :=
                   namespaceready.address revealed_namespace;
                 namespaceready.op_sender_pubkey :=
                   namespaceready.sender_pubkey revealed_namespace |})
  /\ ((forall namespace_id : str,
         nameset.is_namespace_revealed state_engine namespace_id = true ->
         get_namespace_reveal namespace_id <> None) ->
      exists verdict,
        namespaceready.check state_engine get_namespace_reveal nameop block_id
          checked_ops = Ok verdict).
Proof.
  unfold namespaceready.check. split; [split|].
  - intros Hc.
    destruct (nameset.is_namespace_revealed state_engine _) eqn:Hrev; [|discriminate].
    cbn [negb] in Hc.
    destruct (get_namespace_reveal _) as [r|] eqn:Hget; [|discriminate].
    destruct (str_eqb (namespaceready.recipient r) (namespaceready.sender nameop))
      eqn:Hs; [|discriminate].
    cbn [negb] in Hc.
    destruct (nameset.is_namespace_ready state_engine _) eqn:Hrdy; [discriminate|].
    injection Hc as <-. exists r.
    repeat split; try assumption; try reflexivity. now apply str_eqb_eq.
  - intros (r & Hrev & Hget & Hs & Hrdy & ->).
    rewrite Hrev, Hget, Hrdy, (proj2 (str_eqb_eq _ _) Hs). reflexivity.
  - intros Hdb.
    destruct (nameset.is_namespace_revealed state_engine _) eqn:Hrev;
      [|eexists; reflexivity].
    cbn [negb]. specialize (Hdb _ Hrev).
    destruct (get_namespace_reveal _) as [r|]; [|contradiction].
    destruct (negb (str_eqb _ _)); [eexists; reflexivity|].
    destruct (nameset.is_namespace_ready state_engine _); eexists; reflexivity.
Qed.

(** X22.  Every namespace that [namespacereveal.parse] returns can be
    readied: [namespaceready.build] accepts its identifier, and
    [namespaceready.parse] reads it back from the script. *)
Theorem parsed_reveal_can_be_readied `{Externals}
    (bin_payload sender_script recipient_address : str) (ns : nameset.namespace)
    (testset : bool) :
  namespacereveal.parse bin_payload sender_script recipient_address = Ok (Some ns) ->
  exists script unhexed,
    namespaceready.build (nameset.namespace_id ns) testset = Ok script
    /\ unhexlify script = Ok unhexed
    /\ namespaceready.parse (slice_from unhexed 3)
       = Some {| namespaceready.opcode := py "NAMESPACE_READY";
                 namespaceready.namespace_id := nameset.namespace_id ns |}.
Proof.
  intros Hp.
  destruct (namespacereveal_parse_inv _ _ _ _ Hp)
    as (a1 & a2 & a3 & a4 & c & a6 & id & h & _ & _ & _ & _ & _ & _ & Hid
        & _ & Hs & ->).
  destruct (namespacereveal_sanity_check_inv _ _ _ _ _ _ _ _ _ Hs)
    as (_ & Hb40 & Hplus & Hdot & Hlen & _).
  cbn [nameset.namespace_id].
  assert (Hok : ready_id_ok id).
  { pose proof (nonempty_len id Hid).
    repeat split; try assumption; try lia. now apply count_zero_iff. }
  exists (hexlify (if testset then MAGIC_BYTES_TESTSET else MAGIC_BYTES_MAINSET)
          ++ py "21" ++ hexlify ("."%char :: id)).
  eexists. split; [apply namespaceready_build_ok; exact Hok|].
  split.
  - rewrite unhexlify_hexlify.
    rewrite (unhexlify_digits 1 (py "21") [2; 1]);
      [| repeat constructor; unfold nibble; lia | reflexivity].
    rewrite <- (app_nil_r (hexlify ("."%char :: id))), unhexlify_hexlify.
    cbn [unhexlify bind]. rewrite !app_nil_r. reflexivity.
  - match goal with
    | |- context [slice_from ?x 3] =>
        replace (slice_from x 3) with ("."%char :: id)
          by (destruct testset; reflexivity)
    end.
    apply namespaceready_parse_iff. repeat split; apply Hok.
Qed.

Lemma parsed_reveal_can_be_readied_witness :
  exists script unhexed,
    @namespaceready.build sample.externals (py "xyz") false = Ok script
    /\ unhexlify script = Ok unhexed
    /\ namespaceready.parse (slice_from unhexed 3)
       = Some {| namespaceready.opcode := py "NAMESPACE_READY";
                 namespaceready.namespace_id := py "xyz" |}.
Proof.
  refine (@parsed_reveal_can_be_readied sample.externals sample_reveal_payload
            sample.script_S sample.addr_R
            {| nameset.opcode := py "NAMESPACE_REVEAL";
               nameset.lifetime := 52596; nameset.coeff := 4; nameset.base := 4;
               nameset.buckets := [6; 5; 4; 3; 2; 1; 0; 0; 0; 0; 0; 0; 0; 0; 0; 0];
               nameset.version := 1;
               nameset.nonalpha_discount := 10; nameset.no_vowel_discount := 10;
               nameset.namespace_id := py "xyz";
               nameset.preorder_hash := hexlify (py "xyz76a914aaaaaaaaaaa") |}
            false _).
  vm_compute. reflexivity.
Defined.

(** ** Readable scripts *)

(** X23.  For an opcode name of [NAME_OPCODES] followed by [0x] literals,
    [blockstack_script_to_hex] returns the two hexadecimal digits of the
    opcode and the literals as they are; the literals are never checked
    to be hexadecimal, only their total length to be even. *)
Theorem blockstack_script_to_hex_literals `{Externals}
    (op : str) (code : ascii) (parts : list str) :
  In (op, code) NAME_OPCODES ->
  Forall (fun p => contains " " p = false) parts ->
  blockstack_script_to_hex (op ++ script_of parts)
  = if len (List.concat parts) mod 2 =? 0
    then Ok (hexlify [code] ++ List.concat parts)
    else Raise (ValueError "Invalid script: must have an even number of chars").
Proof.
  intros Hin Hparts.
  assert (Hop : contains " " op = false
                /\ script_part_to_hex op = Ok (hexlify [code])).
  { unfold NAME_OPCODES in Hin. cbn [In] in Hin.
    repeat (destruct Hin as [Hin | Hin];
            [injection Hin as <- <-; split; reflexivity|]).
    contradiction. }
  destruct Hop as [Hsp Hhex].
  unfold blockstack_script_to_hex.
  rewrite (split_script parts op Hsp Hparts).
  cbn [script_parts_to_hex]. rewrite Hhex. cbn [bind app].
  rewrite script_parts_0x. cbn [bind].
  rewrite len_app, len_hexlify. change (2 * len [code]) with (1 * 2).
  rewrite Z.add_comm, Z.mod_add by lia.
  destruct (len (List.concat parts) mod 2 =? 0); reflexivity.
Qed.

Lemma blockstack_script_to_hex_literals_witness :
  @blockstack_script_to_hex sample.externals (py "NAME_PREORDER 0xzz 0x+-") = Ok (py "3fzz+-").
Proof.
  refine (@blockstack_script_to_hex_literals sample.externals (py "NAME_PREORDER")
            NAME_PREORDER [py "zz"; py "+-"] _ _).
  - left. reflexivity.
  - repeat constructor.
Defined.

